(** * One Observability Demo: incident orchestrator and metrics query gateway

    A shallow embedding of the Python sources

      - devops-agent/src/event_processor.py
      - devops-agent/src/workflow_engine.py
      - prometheus-mcp-server/src/query_translator.py
      - prometheus-mcp-server/src/prometheus_client.py
      - prometheus-mcp-server/src/insight_generator.py
      - prometheus-mcp-server/src/server.py
      - devops-agent/src/integrations/prometheus_mcp.py
      - devops-agent/src/integrations/kubernetes_client.py

    followed by the properties of the specification that are stated about
    them.  Python values are dynamically typed; they are embedded in the
    type [pyval].  Code that can raise returns [res], whose [Raise] carries
    the exception.  Characters are the 256 values of [ascii], read as the
    code points 0..255.  A [float] is an IEEE 754 binary64 number with its
    rounding arithmetic; an [int] is unbounded. *)

From Stdlib Require Import List String Ascii Bool Arith ZArith QArith Lia.
From Stdlib Require Import DecimalString Permutation SpecFloat.
Import ListNotations.

#[local] Set Warnings "-register-all".

Local Close Scope Q_scope.
Local Open Scope nat_scope.
Local Open Scope list_scope.
Local Open Scope string_scope.

(* ===================================================================== *)
(** * Part I.  Definitions                                                *)
(* ===================================================================== *)

(** ** Exceptions and the error monad *)

Module Py.

Inductive exn : Type :=
| TypeError (msg : string)
| AttributeError (msg : string)
| KeyError (key_repr : string)     (* carries repr(key) *)
| IndexError (msg : string)
| ValueError (msg : string)
| OverflowError (msg : string)
| RegexError (msg : string)        (* re.error, or a pattern outside the modelled syntax *)
| AdapterError (msg : string)      (* anything an external adapter raises *)
| ZeroDivisionError (msg : string).

Inductive res (A : Type) : Type :=
| Ok (a : A)
| Raise (e : exn).
Arguments Ok {A} a.
Arguments Raise {A} e.

Definition bind {A B} (m : res A) (k : A -> res B) : res B :=
  match m with
  | Ok a => k a
  | Raise e => Raise e
  end.

Definition is_ok {A} (m : res A) : bool :=
  match m with Ok _ => true | Raise _ => false end.

End Py.
Import Py.

Notation "x <- m ;; k" := (bind m (fun x => k))
  (at level 61, m at next level, right associativity).
Notation "' pat <- m ;; k" := (bind m (fun x => match x with pat => k end))
  (at level 61, pat pattern, m at next level, right associativity).

(** ** Strings: the operations of [str] that the sources use *)

Module Str.

Definition code (c : ascii) : nat := nat_of_ascii c.

(** [c.lower()] on one character. *)
Definition lower_char (c : ascii) : ascii :=
  let n := code c in
  if (((65 <=? n) && (n <=? 90))
      || ((192 <=? n) && (n <=? 222) && negb (n =? 215)))%nat
  then ascii_of_nat (n + 32) else c.

(** [s.lower()] *)
Fixpoint lower (s : string) : string :=
  match s with
  | EmptyString => EmptyString
  | String c s' => String (lower_char c) (lower s')
  end.

(** [c.isspace()], which is also the class [\s] of [re] on [str] patterns. *)
Definition isspace (c : ascii) : bool :=
  let n := code c in
  (((9 <=? n) && (n <=? 13)) || ((28 <=? n) && (n <=? 32))
   || (n =? 133) || (n =? 160))%nat.

(** [sub in s] for two strings. *)
Fixpoint contains (sub s : string) : bool :=
  if prefix sub s then true
  else match s with
       | EmptyString => false
       | String _ s' => contains sub s'
       end.

(** [any(k in s for k in ks)] *)
Definition contains_any (ks : list string) (s : string) : bool :=
  existsb (fun k => contains k s) ks.

(** [sep.join(parts)] *)
Fixpoint join (sep : string) (parts : list string) : string :=
  match parts with
  | [] => ""
  | [p] => p
  | p :: rest => p ++ sep ++ join sep rest
  end.

(** [s[:n]] for [n >= 0] *)
Fixpoint take (n : nat) (s : string) : string :=
  match n, s with
  | S n', String c s' => String c (take n' s')
  | _, _ => ""
  end.

Fixpoint rev_acc (s acc : string) : string :=
  match s with
  | EmptyString => acc
  | String c s' => rev_acc s' (String c acc)
  end.

Definition rev (s : string) : string := rev_acc s "".

Definition is_digit (c : ascii) : bool :=
  let n := code c in ((48 <=? n) && (n <=? 57))%nat.

Definition digit_val (c : ascii) : Z := (Z.of_nat (code c) - 48)%Z.

End Str.

(** ** Floats

    A Python [float] is an IEEE 754 binary64 number.  It is embedded as
    the standard library's specification of such numbers, with its
    arithmetic: every operation rounds to nearest, ties to even, and
    overflows to an infinity. *)

Module Float.

Definition float : Type := spec_float.

Definition prec : Z := 53.
Definition emax : Z := 1024.

Definition zero : float := S754_zero false.

Definition add : float -> float -> float := SFadd prec emax.
Definition sub : float -> float -> float := SFsub prec emax.
Definition mul : float -> float -> float := SFmul prec emax.

(** The division of IEEE 754.  Python raises ZeroDivisionError instead of
    dividing by zero; the callers test the divisor first. *)
Definition div : float -> float -> float := SFdiv prec emax.

(** [x < y]; false when either is NaN *)
Definition ltb : float -> float -> bool := SFltb.

Definition is_zero (x : float) : bool :=
  match x with S754_zero _ => true | _ => false end.

Definition is_infinite (x : float) : bool :=
  match x with S754_infinity _ => true | _ => false end.

(** The float nearest to an integer; an infinity beyond the range *)
Definition of_Z (z : Z) : float := binary_normalize prec emax z 0 false.

(** The float nearest to the quotient [n / d] of two integers, [d] not
    zero; an infinity beyond the range.  A literal such as [1.1] denotes
    the float nearest to 11/10. *)
Definition of_quotient (n d : Z) : float :=
  let negative := xorb (n <? 0)%Z (d <? 0)%Z in
  match n with
  | Z0 => S754_zero negative
  | _ =>
      let '(mz, ez, lz) :=
        SFdiv_core_binary prec emax (Z.abs n) 0 (Z.abs d) 0 in
      binary_round_aux prec emax negative mz ez lz
  end.

(** What a float is worth: a rational, an infinity, or nothing. *)
Inductive real : Type :=
| Finite (q : Q)
| Infinite (negative : bool)
| NotANumber.

Definition to_real (x : float) : real :=
  match x with
  | S754_zero _ => Finite 0
  | S754_finite s m e => Finite (inject_Z (cond_Zopp s (Zpos m)) * 2 ^ e)%Q
  | S754_infinity s => Infinite s
  | S754_nan => NotANumber
  end.

End Float.
Import Float(float, real(..)).

(** ** Python values *)

Module PyVal.

(** The values that travel through the event payloads, the adapters'
    answers and the step results.  [PyDict] keeps insertion order, as
    Python's [dict] does; keys are strings, as in decoded JSON. *)
Inductive pyval : Type :=
| PyNone
| PyBool (b : bool)
| PyInt (z : Z)
| PyFloat (x : float)
| PyStr (s : string)
| PyList (l : list pyval)
| PyDict (d : list (string * pyval)).

Definition type_name (v : pyval) : string :=
  match v with
  | PyNone => "NoneType"
  | PyBool _ => "bool"
  | PyInt _ => "int"
  | PyFloat _ => "float"
  | PyStr _ => "str"
  | PyList _ => "list"
  | PyDict _ => "dict"
  end.

(** Lookup in an insertion-ordered dictionary. *)
Fixpoint dict_get {V} (k : string) (d : list (string * V)) : option V :=
  match d with
  | [] => None
  | (k', v) :: d' => if String.eqb k k' then Some v else dict_get k d'
  end.

(** [d[k] = v]: replaces in place when the key exists, appends otherwise. *)
Fixpoint dict_set {V} (k : string) (v : V) (d : list (string * V)) : list (string * V) :=
  match d with
  | [] => [(k, v)]
  | (k', v') :: d' =>
      if String.eqb k k' then (k, v) :: d' else (k', v') :: dict_set k v d'
  end.

(** [v.get(k, default)]; only [dict] has the method. *)
Definition py_get (v : pyval) (k : string) (default : pyval) : res pyval :=
  match v with
  | PyDict d => Ok (match dict_get k d with Some x => x | None => default end)
  | _ => Raise (AttributeError ("'" ++ type_name v ++ "' object has no attribute 'get'"))
  end.

(** [v.lower()]; only [str] has the method. *)
Definition py_lower (v : pyval) : res string :=
  match v with
  | PyStr s => Ok (Str.lower s)
  | _ => Raise (AttributeError ("'" ++ type_name v ++ "' object has no attribute 'lower'"))
  end.

(** [v == s] against a string constant. *)
Definition py_eq_str (v : pyval) (s : string) : bool :=
  match v with
  | PyStr t => String.eqb t s
  | _ => false
  end.

(** Truth value of an object, as [if v:] and [not v] take it. *)
Definition truthy (v : pyval) : bool :=
  match v with
  | PyNone => false
  | PyBool b => b
  | PyInt z => negb (z =? 0)%Z
  | PyFloat x => negb (Float.is_zero x)
  | PyStr s => negb (String.eqb s "")
  | PyList l => match l with [] => false | _ => true end
  | PyDict d => match d with [] => false | _ => true end
  end.

(** [len(v)] *)
Definition py_len (v : pyval) : res nat :=
  match v with
  | PyStr s => Ok (String.length s)
  | PyList l => Ok (List.length l)
  | PyDict d => Ok (List.length d)
  | _ => Raise (TypeError ("object of type '" ++ type_name v ++ "' has no len()"))
  end.

(** [k in v] for a string constant [k]: substring of a [str], element of a
    [list], key of a [dict]. *)
Definition py_str_in (k : string) (v : pyval) : res bool :=
  match v with
  | PyStr s => Ok (Str.contains k s)
  | PyList l => Ok (existsb (fun x => py_eq_str x k) l)
  | PyDict d => Ok (match dict_get k d with Some _ => true | None => false end)
  | _ => Raise (TypeError ("argument of type '" ++ type_name v ++ "' is not iterable"))
  end.

Definition Qltb (x y : Q) : bool := negb (Qle_bool y x).

(** [a < b] and [a == b] on what numbers are worth: an infinity lies
    beyond every rational, and NaN is neither below nor equal to
    anything. *)
Definition real_ltb (a b : real) : bool :=
  match a, b with
  | NotANumber, _ | _, NotANumber => false
  | Finite x, Finite y => Qltb x y
  | Infinite true, Infinite true => false
  | Infinite true, _ => true
  | _, Infinite true => false
  | Infinite false, _ => false
  | Finite _, Infinite false => true
  end.

Definition real_eqb (a b : real) : bool :=
  match a, b with
  | Finite x, Finite y => Qeq_bool x y
  | Infinite s, Infinite s' => Bool.eqb s s'
  | _, _ => false
  end.

(** What a value is worth in an ordering or an equality: Python compares
    an [int] and a [float] by their exact values; [bool] is a subtype of
    [int]. *)
Definition py_real (v : pyval) : option real :=
  match v with
  | PyBool b => Some (Finite (if b then 1 else 0))
  | PyInt z => Some (Finite (inject_Z z))
  | PyFloat x => Some (Float.to_real x)
  | _ => None
  end.

(** The exact value of a finite number *)
Definition py_num (v : pyval) : option Q :=
  match py_real v with
  | Some (Finite q) => Some q
  | _ => None
  end.

(** [v > c] for a numeric constant [c]. *)
Definition py_gt_const (v : pyval) (c : Q) : res bool :=
  match py_real v with
  | Some x => Ok (real_ltb (Finite c) x)
  | None => Raise (TypeError ("'>' not supported between instances of '"
                               ++ type_name v ++ "' and 'int'"))
  end.

(** Iterating over a value in a [for] clause. *)
Definition py_iter (v : pyval) : res (list pyval) :=
  match v with
  | PyList l => Ok l
  | PyStr s => Ok (map (fun c => PyStr (String c "")) (list_ascii_of_string s))
  | PyDict d => Ok (map (fun kv => PyStr (fst kv)) d)
  | _ => Raise (TypeError ("'" ++ type_name v ++ "' object is not iterable"))
  end.

(** *** [repr] and [str]

    [str] of a container is its [repr].  The text Python prints for a float
    is left as the parameter [float_repr]. *)

Definition squote : ascii := "039"%char.
Definition dquote : ascii := "034"%char.
Definition backslash : ascii := "092"%char.

Definition has_char (c : ascii) (s : string) : bool :=
  existsb (Ascii.eqb c) (list_ascii_of_string s).

Definition hex_digit (n : nat) : ascii :=
  if (n <? 10)%nat then ascii_of_nat (48 + n) else ascii_of_nat (87 + n).

Definition printable (c : ascii) : bool :=
  let n := Str.code c in
  negb ((n <? 32) || (n =? 127) || ((128 <=? n) && (n <=? 160)) || (n =? 173))%nat.

Definition repr_char (quote c : ascii) : string :=
  if Ascii.eqb c backslash then String backslash (String backslash "")
  else if Ascii.eqb c quote then String backslash (String quote "")
  else if Ascii.eqb c "009"%char then String backslash "t"
  else if Ascii.eqb c "010"%char then String backslash "n"
  else if Ascii.eqb c "013"%char then String backslash "r"
  else if printable c then String c ""
  else String backslash
         (String "x"%char
            (String (hex_digit (Str.code c / 16))
               (String (hex_digit (Str.code c mod 16)) ""))).

Fixpoint repr_body (quote : ascii) (s : string) : string :=
  match s with
  | EmptyString => ""
  | String c s' => repr_char quote c ++ repr_body quote s'
  end.

(** [repr(s)] of a string: single quotes, unless the text has a single
    quote and no double quote. *)
Definition repr_str (s : string) : string :=
  let quote := if has_char squote s && negb (has_char dquote s)
               then dquote else squote in
  String quote (repr_body quote s ++ String quote "").

Definition repr_int (z : Z) : string := NilZero.string_of_int (Z.to_int z).

Section Repr.
Variable float_repr : float -> string.

Fixpoint repr (v : pyval) : string :=
  match v with
  | PyNone => "None"
  | PyBool true => "True"
  | PyBool false => "False"
  | PyInt z => repr_int z
  | PyFloat x => float_repr x
  | PyStr s => repr_str s
  | PyList l => "[" ++ Str.join ", " (map repr l) ++ "]"
  | PyDict d =>
      "{" ++ Str.join ", "
               (map (fun kv => match kv with
                               | (k, x) => repr_str k ++ ": " ++ repr x
                               end) d)
          ++ "}"
  end.

(** [str(v)] *)
Definition str (v : pyval) : string :=
  match v with
  | PyStr s => s
  | _ => repr v
  end.
End Repr.

End PyVal.
Import PyVal.

(* ===================================================================== *)
(** ** devops-agent/src/event_processor.py                                *)
(* ===================================================================== *)

Module EventProcessor.

(** class EventPriority(Enum) *)
Inductive EventPriority : Type := CRITICAL | HIGH | MEDIUM | LOW.

(** [priority.value] *)
Definition value (p : EventPriority) : Z :=
  match p with
  | CRITICAL => 1
  | HIGH => 2
  | MEDIUM => 3
  | LOW => 4
  end%Z.

(** [priority.name] *)
Definition name (p : EventPriority) : string :=
  match p with
  | CRITICAL => "CRITICAL"
  | HIGH => "HIGH"
  | MEDIUM => "MEDIUM"
  | LOW => "LOW"
  end.

(** Event._determine_priority, on [self.detail] *)
Definition _determine_priority (detail : pyval) : res EventPriority :=
  state <- py_get detail "state" (PyDict []) ;;
  alarm_state <- py_get state "value" (PyStr "") ;;
  if py_eq_str alarm_state "ALARM" then
    name_field <- py_get detail "alarmName" (PyStr "") ;;
    alarm_name <- py_lower name_field ;;
    if Str.contains_any ["critical"; "oom"; "node"; "down"] alarm_name
    then Ok CRITICAL
    else Ok HIGH
  else Ok MEDIUM.

(** class Event.  [timestamp] defaults to the clock reading [now_iso]. *)
Record Event : Type := mkEvent {
  event_id : pyval;
  timestamp : pyval;
  source : pyval;
  detail_type : pyval;
  detail : pyval;
  priority : EventPriority;
  raw_data : pyval
}.

(** Event.__init__ *)
Definition Event_init (now_iso : string) (event_data : pyval) : res Event :=
  id <- py_get event_data "id" (PyStr "") ;;
  time <- py_get event_data "time" (PyStr now_iso) ;;
  src <- py_get event_data "source" (PyStr "") ;;
  dt <- py_get event_data "detail-type" (PyStr "") ;;
  det <- py_get event_data "detail" (PyDict []) ;;
  prio <- _determine_priority det ;;
  Ok (mkEvent id time src dt det prio event_data).

(** EventProcessor._determine_workflow *)
Definition _determine_workflow (event : Event) : res string :=
  name_field <- py_get (detail event) "alarmName" (PyStr "") ;;
  alarm_name <- py_lower name_field ;;
  if Str.contains "memory" alarm_name || Str.contains "oom" alarm_name
  then Ok "memory_leak_investigation"
  else if Str.contains "cpu" alarm_name || Str.contains "throttl" alarm_name
  then Ok "high_cpu_investigation"
  else if Str.contains "latency" alarm_name || Str.contains "response" alarm_name
  then Ok "high_latency_investigation"
  else if Str.contains "node" alarm_name || Str.contains "pressure" alarm_name
  then Ok "node_pressure_investigation"
  else if Str.contains "restart" alarm_name || Str.contains "crash" alarm_name
  then Ok "pod_crash_investigation"
  else Ok "generic_investigation".

(** *** The queue: [asyncio.PriorityQueue]

    [self.event_queue] is an [asyncio.PriorityQueue]; its [_put] is
    [heapq.heappush] and its [_get] is [heapq.heappop] on a list.  The
    items are the tuples [(event.priority.value, event)].  The functions
    below follow heapq.py; a comparison that raises leaves the list as it
    is at that moment, so every operation returns the list together with
    its outcome. *)

Definition item : Type := (Z * Event)%type.

(** [a < b] on two queued tuples.  Tuples compare by their first differing
    position.  The ranks are ints.  When the ranks are equal the two events
    are compared; [process_event] builds a fresh [Event] for every call, so
    two queued events are never the same object, and class [Event] defines
    no ordering: the comparison raises. *)
Definition tuple_lt (a b : item) : res bool :=
  if (fst a =? fst b)%Z
  then Raise (TypeError "'<' not supported between instances of 'Event' and 'Event'")
  else Ok (fst a <? fst b)%Z.

(** [heap[i] = x] *)
Fixpoint set_nth {A} (l : list A) (i : nat) (x : A) : list A :=
  match l, i with
  | [], _ => []
  | _ :: l', O => x :: l'
  | y :: l', S i' => y :: set_nth l' i' x
  end.

Definition heap_outcome (A : Type) : Type := (list item * res A)%type.

(** heapq._siftdown: the loop, with [newitem] already read. *)
Fixpoint _siftdown_loop (fuel : nat) (heap : list item) (newitem : item)
         (startpos pos : nat) : heap_outcome unit :=
  match fuel with
  | O => (heap, Raise (IndexError "list index out of range"))
  | S fuel' =>
      if (startpos <? pos)%nat then
        let parentpos := (pos - 1) / 2 in
        match nth_error heap parentpos with
        | None => (heap, Raise (IndexError "list index out of range"))
        | Some parent =>
            match tuple_lt newitem parent with
            | Raise e => (heap, Raise e)
            | Ok true => _siftdown_loop fuel' (set_nth heap pos parent) newitem
                                        startpos parentpos
            | Ok false => (set_nth heap pos newitem, Ok tt)
            end
        end
      else (set_nth heap pos newitem, Ok tt)
  end.

Definition _siftdown (heap : list item) (startpos pos : nat) : heap_outcome unit :=
  match nth_error heap pos with
  | None => (heap, Raise (IndexError "list index out of range"))
  | Some newitem => _siftdown_loop (S pos) heap newitem startpos pos
  end.

(** heapq._siftup: the loop that moves the smaller child up. *)
Fixpoint _siftup_loop (fuel : nat) (heap : list item) (endpos pos : nat)
  : list item * res nat :=
  match fuel with
  | O => (heap, Ok pos)
  | S fuel' =>
      let childpos := 2 * pos + 1 in
      if (childpos <? endpos)%nat then
        let rightpos := childpos + 1 in
        let pick : res nat :=
          if (rightpos <? endpos)%nat then
            match nth_error heap childpos, nth_error heap rightpos with
            | Some l, Some r =>
                lt <- tuple_lt l r ;;
                Ok (if negb lt then rightpos else childpos)
            | _, _ => Raise (IndexError "list index out of range")
            end
          else Ok childpos in
        match pick with
        | Raise e => (heap, Raise e)
        | Ok child =>
            match nth_error heap child with
            | None => (heap, Raise (IndexError "list index out of range"))
            | Some c => _siftup_loop fuel' (set_nth heap pos c) endpos child
            end
        end
      else (heap, Ok pos)
  end.

Definition _siftup (heap : list item) (pos : nat) : heap_outcome unit :=
  let endpos := List.length heap in
  match nth_error heap pos with
  | None => (heap, Raise (IndexError "list index out of range"))
  | Some newitem =>
      match _siftup_loop endpos heap endpos pos with
      | (heap', Raise e) => (heap', Raise e)
      | (heap', Ok leaf) => _siftdown (set_nth heap' leaf newitem) pos leaf
      end
  end.

(** heapq.heappush *)
Definition heappush (heap : list item) (x : item) : heap_outcome unit :=
  let heap' := (heap ++ [x])%list in
  _siftdown heap' 0 (List.length heap' - 1).

(** heapq.heappop, on a non-empty list *)
Definition heappop (heap : list item) : heap_outcome item :=
  match List.rev heap with
  | [] => (heap, Raise (IndexError "pop from empty list"))
  | lastelt :: rest_rev =>
      let heap' := List.rev rest_rev in
      match heap' with
      | [] => (heap', Ok lastelt)
      | returnitem :: _ =>
          match _siftup (set_nth heap' 0 lastelt) 0 with
          | (heap'', Raise e) => (heap'', Raise e)
          | (heap'', Ok _) => (heap'', Ok returnitem)
          end
      end
  end.

(** *** EventProcessor *)

Inductive LogEntry : Type :=
| ReceivedEvent (e : Event)            (* logger.info in process_event *)
| FailedToProcess (e : exn)            (* logger.error in process_event *)
| LoopError (e : exn).                 (* logger.error in _process_events *)

Record Processor : Type := mkProcessor {
  event_queue : list item;
  active_tasks : list Event;           (* handler tasks held by the loop *)
  started : list Event;                (* every event given to _handle_event *)
  log : list LogEntry
}.

Definition Processor_init : Processor := mkProcessor [] [] [] [].

(** EventProcessor.process_event *)
Definition process_event (now_iso : string) (event_data : pyval) (st : Processor)
  : Processor :=
  match Event_init now_iso event_data with
  | Raise e =>
      mkProcessor (event_queue st) (active_tasks st) (started st)
                  (log st ++ [FailedToProcess e])%list
  | Ok event =>
      let log1 := (log st ++ [ReceivedEvent event])%list in
      match heappush (event_queue st) (value (priority event), event) with
      | (q, Ok _) => mkProcessor q (active_tasks st) (started st) log1
      | (q, Raise e) =>
          mkProcessor q (active_tasks st) (started st) (log1 ++ [FailedToProcess e])%list
      end
  end.

(** One turn of the [while self.running] loop of
    EventProcessor._process_events.  [done] tells which handler tasks have
    finished; an empty queue makes [wait_for] time out, which the loop
    passes over. *)
Definition _process_events_iter (max_concurrent_events : nat)
           (done : Event -> bool) (st : Processor) : Processor :=
  let active := filter (fun t => negb (done t)) (active_tasks st) in
  if (List.length active <? max_concurrent_events)%nat then
    match event_queue st with
    | [] => mkProcessor [] active (started st) (log st)
    | _ =>
        match heappop (event_queue st) with
        | (q, Ok (_, event)) =>
            mkProcessor q (active ++ [event])%list (started st ++ [event])%list (log st)
        | (q, Raise e) =>
            mkProcessor q active (started st) (log st ++ [LoopError e])%list
        end
    end
  else mkProcessor (event_queue st) active (started st) (log st).

End EventProcessor.

(* ===================================================================== *)
(** ** devops-agent/src/workflow_engine.py                                *)
(* ===================================================================== *)

Module PyOps.

(** [[x for x in l if p(x)]] with a [p] that can raise *)
Fixpoint filterM {A} (p : A -> res bool) (l : list A) : res (list A) :=
  match l with
  | [] => Ok []
  | x :: l' =>
      b <- p x ;; ys <- filterM p l' ;; Ok (if b then x :: ys else ys)
  end.

(** [a == b] *)
Fixpoint py_eq (a b : pyval) : bool :=
  match a, b with
  | PyNone, PyNone => true
  | PyStr s, PyStr t => String.eqb s t
  | PyList l1, PyList l2 =>
      (fix go (l1 l2 : list pyval) : bool :=
         match l1, l2 with
         | [], [] => true
         | x :: xs, y :: ys => py_eq x y && go xs ys
         | _, _ => false
         end) l1 l2
  | PyDict d1, PyDict d2 =>
      (List.length d1 =? List.length d2)%nat
      && (fix go (d : list (string * pyval)) : bool :=
            match d with
            | [] => true
            | (k, x) :: r =>
                match dict_get k d2 with
                | Some y => py_eq x y && go r
                | None => false
                end
            end) d1
  | _, _ =>
      match py_real a, py_real b with
      | Some x, Some y => real_eqb x y
      | _, _ => false
      end
  end.

Definition not_supported (op : string) (a b : pyval) : exn :=
  TypeError ("'" ++ op ++ "' not supported between instances of '"
                 ++ type_name a ++ "' and '" ++ type_name b ++ "'").

(** [s < t] on [str]: by code points *)
Fixpoint str_lt (s t : string) : bool :=
  match s, t with
  | _, EmptyString => false
  | EmptyString, String _ _ => true
  | String a s', String b t' =>
      if Ascii.eqb a b then str_lt s' t'
      else (Str.code a <? Str.code b)%nat
  end.

(** [a < b] ([op] names the operator of the error message) *)
Fixpoint py_lt (op : string) (a b : pyval) : res bool :=
  match a, b with
  | PyStr s, PyStr t => Ok (str_lt s t)
  | PyList l1, PyList l2 =>
      (fix go (l1 l2 : list pyval) : res bool :=
         match l1, l2 with
         | _, [] => Ok false
         | [], _ :: _ => Ok true
         | x :: xs, y :: ys => if py_eq x y then go xs ys else py_lt op x y
         end) l1 l2
  | _, _ =>
      match py_real a, py_real b with
      | Some x, Some y => Ok (real_ltb x y)
      | _, _ => Raise (not_supported op a b)
      end
  end.

(** [a > b] *)
Definition py_gt (a b : pyval) : res bool :=
  match a, b with
  | PyStr _, PyStr _ | PyList _, PyList _ => py_lt ">" b a
  | _, _ =>
      match py_real a, py_real b with
      | Some x, Some y => Ok (real_ltb y x)
      | _, _ => Raise (not_supported ">" a b)
      end
  end.

(** The two kinds of numbers; [bool] is a subtype of [int]. *)
Inductive number : Type :=
| NumInt (z : Z)
| NumFloat (x : float).

Definition py_number (v : pyval) : option number :=
  match v with
  | PyBool b => Some (NumInt (if b then 1 else 0))
  | PyInt z => Some (NumInt z)
  | PyFloat x => Some (NumFloat x)
  | _ => None
  end.

(** [float(z)] of an [int]: the nearest float, unless it is out of range *)
Definition float_of_int (z : Z) : res float :=
  let x := Float.of_Z z in
  if Float.is_infinite x
  then Raise (OverflowError "int too large to convert to float")
  else Ok x.

(** The operand of a float operation *)
Definition to_float (n : number) : res float :=
  match n with
  | NumInt z => float_of_int z
  | NumFloat x => Ok x
  end.

Definition unsupported_operands (op : string) (a b : pyval) : exn :=
  TypeError ("unsupported operand type(s) for " ++ op ++ ": '"
               ++ type_name a ++ "' and '" ++ type_name b ++ "'").

(** [a + b] on numbers, as [sum] uses it from the start value [0]: exact
    on two [int], and otherwise the float sum of the two operands as
    floats. *)
Definition py_add (a b : pyval) : res pyval :=
  match py_number a, py_number b with
  | Some (NumInt x), Some (NumInt y) => Ok (PyInt (x + y))
  | Some m, Some n =>
      x <- to_float m ;; y <- to_float n ;; Ok (PyFloat (Float.add x y))
  | _, _ => Raise (unsupported_operands "+" a b)
  end.

(** [a - b]; only numbers have it among the values. *)
Definition py_sub (a b : pyval) : res pyval :=
  match py_number a, py_number b with
  | Some (NumInt x), Some (NumInt y) => Ok (PyInt (x - y))
  | Some m, Some n =>
      x <- to_float m ;; y <- to_float n ;; Ok (PyFloat (Float.sub x y))
  | _, _ => Raise (unsupported_operands "-" a b)
  end.

(** [a / b]: the quotient of two [int] is the float nearest to it *)
Definition py_truediv (a b : pyval) : res float :=
  match py_number a, py_number b with
  | Some (NumInt x), Some (NumInt y) =>
      if (y =? 0)%Z then Raise (ZeroDivisionError "division by zero")
      else
        let q := Float.of_quotient x y in
        if Float.is_infinite q
        then Raise (OverflowError "integer division result too large for a float")
        else Ok q
  | Some m, Some n =>
      x <- to_float m ;; y <- to_float n ;;
      if Float.is_zero y then Raise (ZeroDivisionError "float division by zero")
      else Ok (Float.div x y)
  | _, _ => Raise (unsupported_operands "/" a b)
  end.

(** [sum(f(x) for x in xs)]: the generator yields one term at a time, and
    each term is added before the next one is computed. *)
Fixpoint py_sum_from (f : pyval -> res pyval) (acc : pyval) (xs : list pyval)
  : res pyval :=
  match xs with
  | [] => Ok acc
  | x :: xs' => v <- f x ;; acc' <- py_add acc v ;; py_sum_from f acc' xs'
  end.

Definition py_sum (f : pyval -> res pyval) (xs : list pyval) : res pyval :=
  py_sum_from f (PyInt 0) xs.

(** [max(items, key=key)] once the first item and its key are in [best]:
    the key of an item is computed when the item is reached and compared
    with [>] to the largest so far; the first of the largest wins. *)
Fixpoint py_max_from (key : pyval -> res pyval) (best : pyval * pyval)
         (rest : list pyval) : res pyval :=
  match rest with
  | [] => Ok (fst best)
  | x :: rest' =>
      kx <- key x ;;
      b <- py_gt kx (snd best) ;;
      py_max_from key (if b then (x, kx) else best) rest'
  end.

(** [max(items, key=key)] *)
Definition py_max (key : pyval -> res pyval) (items : list pyval) : res pyval :=
  match items with
  | [] => Raise (ValueError "max() arg is an empty sequence")
  | first :: rest => k <- key first ;; py_max_from key (first, k) rest
  end.

(** [v[0]] *)
Definition py_first (v : pyval) : res pyval :=
  match v with
  | PyList (x :: _) => Ok x
  | PyList [] => Raise (IndexError "list index out of range")
  | PyStr (String c _) => Ok (PyStr (String c ""))
  | PyStr EmptyString => Raise (IndexError "string index out of range")
  | PyDict _ => Raise (KeyError "0")
  | _ => Raise (TypeError ("'" ++ type_name v ++ "' object is not subscriptable"))
  end.

(** [v[:n]] on a list *)
Definition py_slice_to (n : nat) (l : list pyval) : list pyval := firstn n l.

(** [str(e)] of an exception *)
Definition exn_str (e : exn) : string :=
  match e with
  | TypeError m | AttributeError m | IndexError m | ValueError m
  | OverflowError m | RegexError m | AdapterError m | ZeroDivisionError m => m
  | KeyError k => k
  end.

End PyOps.
Import PyOps.

Module WorkflowEngine.

Import EventProcessor.

(** What the engine reaches through its adapters and the clock while one
    workflow runs.  Each adapter method is called at most once per
    workflow, so its answer is a function of its arguments.  [clock n] is
    the n-th reading of [datetime.utcnow()] (microseconds). *)
Record Env : Type := mkEnv {
  float_repr : float -> string;
  clock : nat -> Z;
  isoformat : Z -> string;
  prometheus_mcp_query : string -> res pyval;
  cloudwatch_get_service_metrics : pyval -> res pyval;
  kubernetes_get_node_metrics : pyval -> res pyval;
  kubernetes_get_pod_events : pyval -> pyval -> res pyval;
  kubernetes_get_recent_changes : pyval -> res pyval;
  kubernetes_get_resource_limits : pyval -> pyval -> res pyval;
  kubernetes_get_pods_on_node : pyval -> res pyval;
  kubernetes_get_eviction_events : pyval -> res pyval;
  kubernetes_get_pod_logs : pyval -> pyval -> res pyval;
  kubernetes_get_restart_count : pyval -> pyval -> res pyval;
  xray_get_slow_traces : pyval -> res pyval;
  xray_get_service_map : pyval -> res pyval
}.

(** WorkflowEngine._load_workflows: name -> (title, steps) *)
Definition _load_workflows : list (string * (string * list string)) :=
  [ ("memory_leak_investigation",
     ("Memory Leak Investigation",
      ["identify_pod"; "collect_memory_metrics"; "check_oom_events";
       "analyze_memory_trend"; "review_recent_changes"; "recommend_remediation"]));
    ("high_cpu_investigation",
     ("High CPU Investigation",
      ["identify_pod"; "collect_cpu_metrics"; "check_cpu_throttling";
       "analyze_request_patterns"; "review_resource_limits"; "recommend_remediation"]));
    ("high_latency_investigation",
     ("High Latency Investigation",
      ["identify_service"; "collect_latency_metrics"; "analyze_traces";
       "check_dependencies"; "correlate_with_resources"; "recommend_remediation"]));
    ("node_pressure_investigation",
     ("Node Pressure Investigation",
      ["identify_node"; "collect_node_metrics"; "list_pods_on_node";
       "check_resource_usage"; "analyze_evictions"; "recommend_remediation"]));
    ("pod_crash_investigation",
     ("Pod Crash Investigation",
      ["identify_pod"; "collect_pod_events"; "analyze_logs";
       "check_restart_count"; "review_resource_limits"; "recommend_remediation"]));
    ("generic_investigation",
     ("Generic Investigation",
      ["identify_resource"; "collect_metrics"; "analyze_patterns";
       "recommend_actions"])) ].

(** The [context] dictionary of execute_workflow.  The keys it is created
    with are fields; the keys the steps add later are in [scratch]. *)
Record Context : Type := mkContext {
  incident_id : string;
  workflow_name : string;
  event : Event;
  start_time : Z;
  findings : list pyval;
  metrics : list (string * pyval);
  logs : pyval;
  recommendations : list string;
  scratch : list (string * pyval)
}.

(** [context.get(k)] for a key that the steps add *)
Definition ctx_get (ctx : Context) (k : string) : pyval :=
  match dict_get k (scratch ctx) with Some v => v | None => PyNone end.

(** [context[k] = v] for a key that the steps add *)
Definition ctx_set (ctx : Context) (k : string) (v : pyval) : Context :=
  mkContext (incident_id ctx) (workflow_name ctx) (event ctx) (start_time ctx)
            (findings ctx) (metrics ctx) (logs ctx) (recommendations ctx)
            (dict_set k v (scratch ctx)).

(** [context['metrics'][k] = v] *)
Definition ctx_set_metric (ctx : Context) (k : string) (v : pyval) : Context :=
  mkContext (incident_id ctx) (workflow_name ctx) (event ctx) (start_time ctx)
            (findings ctx) (dict_set k v (metrics ctx)) (logs ctx)
            (recommendations ctx) (scratch ctx).

(** [context['logs'] = v] *)
Definition ctx_set_logs (ctx : Context) (v : pyval) : Context :=
  mkContext (incident_id ctx) (workflow_name ctx) (event ctx) (start_time ctx)
            (findings ctx) (metrics ctx) v (recommendations ctx) (scratch ctx).

(** [context['findings'].append(f)] *)
Definition ctx_append_finding (ctx : Context) (f : pyval) : Context :=
  mkContext (incident_id ctx) (workflow_name ctx) (event ctx) (start_time ctx)
            (findings ctx ++ [f])%list (metrics ctx) (logs ctx)
            (recommendations ctx) (scratch ctx).

(** [context.get('metrics', {}).get(k, {})] *)
Definition ctx_metric (ctx : Context) (k : string) : pyval :=
  match dict_get k (metrics ctx) with Some v => v | None => PyDict [] end.

Definition py_strings (l : list string) : pyval := PyList (map PyStr l).

(** WorkflowEngine._generate_recommendations; [root_cause] is not read. *)
Definition _generate_recommendations (ctx : Context) (root_cause : option string)
  : list string :=
  let workflow_name := workflow_name ctx in
  if String.eqb workflow_name "memory_leak_investigation" then
    ["Restart pod to clear memory";
     "Increase memory limit to 512Mi";
     "Review application code for memory leaks";
     "Enable memory profiling"]
  else if String.eqb workflow_name "high_cpu_investigation" then
    ["Increase CPU limit to 500m";
     "Enable HPA for automatic scaling";
     "Review code for CPU-intensive operations"]
  else if String.eqb workflow_name "high_latency_investigation" then
    ["Scale service horizontally";
     "Optimize slow queries";
     "Enable connection pooling";
     "Review timeout configurations"]
  else if String.eqb workflow_name "node_pressure_investigation" then
    ["Cordon node to prevent new scheduling";
     "Drain pods to other nodes";
     "Add new nodes to cluster"]
  else if String.eqb workflow_name "pod_crash_investigation" then
    ["Review application logs for errors";
     "Check resource limits";
     "Roll back to previous version if recent deployment"]
  else
    ["Review metrics and logs";
     "Consult runbook documentation"].

Section Steps.
Variable env : Env.

Definition step_result : Type := res (pyval * Context).

Definition _identify_pod (ctx : Context) : step_result :=
  _ <- py_get (detail (event ctx)) "alarmName" (PyStr "") ;;
  let pod_name := PyStr "petadoptionshistory-py" in
  let namespace := PyStr "default" in
  let ctx := ctx_set (ctx_set ctx "pod_name" pod_name) "namespace" namespace in
  Ok (PyDict [("success", PyBool true); ("pod_name", pod_name);
              ("namespace", namespace)], ctx).

Definition _identify_service (ctx : Context) : step_result :=
  let service_name := PyStr "payforadoption-go" in
  Ok (PyDict [("success", PyBool true); ("service_name", service_name)],
      ctx_set ctx "service_name" service_name).

Definition _identify_node (ctx : Context) : step_result :=
  let node_name := PyStr "ip-10-0-1-100.ec2.internal" in
  Ok (PyDict [("success", PyBool true); ("node_name", node_name)],
      ctx_set ctx "node_name" node_name).

Definition _identify_resource (ctx : Context) : step_result :=
  Ok (PyDict [("success", PyBool true); ("resource", PyStr "unknown")], ctx).

Definition _collect_memory_metrics (ctx : Context) : step_result :=
  let pod_name := ctx_get ctx "pod_name" in
  if negb (truthy pod_name) then
    Ok (PyDict [("success", PyBool false);
                ("error", PyStr "Pod name not identified")], ctx)
  else
    let query := "Show me memory usage for pod "
                   ++ str (float_repr env) pod_name ++ " over the last hour" in
    metrics <- prometheus_mcp_query env query ;;
    let ctx := ctx_set_metric ctx "memory" metrics in
    usage <- py_get metrics "current" (PyStr "N/A") ;;
    trend <- py_get metrics "trend" (PyStr "unknown") ;;
    Ok (PyDict [("success", PyBool true); ("memory_usage", usage);
                ("trend", trend)], ctx).

Definition _collect_cpu_metrics (ctx : Context) : step_result :=
  let pod_name := ctx_get ctx "pod_name" in
  let query := "Show me CPU usage for pod "
                 ++ str (float_repr env) pod_name ++ " over the last hour" in
  metrics <- prometheus_mcp_query env query ;;
  let ctx := ctx_set_metric ctx "cpu" metrics in
  usage <- py_get metrics "current" (PyStr "N/A") ;;
  throttling <- py_get metrics "throttling" (PyBool false) ;;
  Ok (PyDict [("success", PyBool true); ("cpu_usage", usage);
              ("throttling", throttling)], ctx).

Definition _collect_latency_metrics (ctx : Context) : step_result :=
  let service_name := ctx_get ctx "service_name" in
  metrics <- cloudwatch_get_service_metrics env service_name ;;
  let ctx := ctx_set_metric ctx "latency" metrics in
  p50 <- py_get metrics "p50" (PyStr "N/A") ;;
  p99 <- py_get metrics "p99" (PyStr "N/A") ;;
  Ok (PyDict [("success", PyBool true); ("p50", p50); ("p99", p99)], ctx).

Definition _collect_node_metrics (ctx : Context) : step_result :=
  let node_name := ctx_get ctx "node_name" in
  metrics <- kubernetes_get_node_metrics env node_name ;;
  let ctx := ctx_set_metric ctx "node" metrics in
  Ok (PyDict [("success", PyBool true); ("metrics", metrics)], ctx).

Definition _collect_generic_metrics (ctx : Context) : step_result :=
  Ok (PyDict [("success", PyBool true); ("metrics", PyDict [])], ctx).

Definition _check_oom_events (ctx : Context) : step_result :=
  let pod_name := ctx_get ctx "pod_name" in
  let namespace := ctx_get ctx "namespace" in
  events <- kubernetes_get_pod_events env pod_name namespace ;;
  items <- py_iter events ;;
  oom_events <- filterM (fun e => reason <- py_get e "reason" (PyStr "") ;;
                                  py_str_in "OOMKill" reason) items ;;
  let ctx := ctx_set ctx "oom_events" (PyList oom_events) in
  Ok (PyDict [("success", PyBool true);
              ("oom_kill_detected", PyBool (0 <? List.length oom_events)%nat);
              ("oom_count", PyInt (Z.of_nat (List.length oom_events)))], ctx).

Definition _check_cpu_throttling (ctx : Context) : step_result :=
  let metrics := ctx_metric ctx "cpu" in
  ratio <- py_get metrics "throttling_ratio" (PyInt 0) ;;
  throttling <- py_gt ratio (PyFloat (Float.of_quotient 1 10)) ;;
  ratio' <- py_get metrics "throttling_ratio" (PyInt 0) ;;
  Ok (PyDict [("success", PyBool true); ("throttling_detected", PyBool throttling);
              ("throttling_ratio", ratio')], ctx).

Definition _analyze_traces (ctx : Context) : step_result :=
  let service_name := ctx_get ctx "service_name" in
  traces <- xray_get_slow_traces env service_name ;;
  let ctx := ctx_set ctx "traces" traces in
  n <- py_len traces ;;
  bottleneck <- (if truthy traces
                 then first <- py_first traces ;; py_get first "bottleneck" PyNone
                 else Ok PyNone) ;;
  Ok (PyDict [("success", PyBool true);
              ("slow_traces_count", PyInt (Z.of_nat n));
              ("bottleneck", bottleneck)], ctx).

Definition _analyze_memory_trend (ctx : Context) : step_result :=
  let metrics := ctx_metric ctx "memory" in
  trend <- py_get metrics "trend" (PyStr "unknown") ;;
  let increasing := py_eq trend (PyStr "increasing") in
  Ok (PyDict [("success", PyBool true); ("trend", trend);
              ("memory_leak_likely", PyBool increasing)], ctx).

Definition _analyze_request_patterns (ctx : Context) : step_result :=
  Ok (PyDict [("success", PyBool true); ("traffic_spike", PyBool false);
              ("error_rate", PyFloat (Float.of_quotient 1 100))], ctx).

Definition _review_recent_changes (ctx : Context) : step_result :=
  let namespace := ctx_get ctx "namespace" in
  recent_changes <- kubernetes_get_recent_changes env namespace ;;
  n <- py_len recent_changes ;;
  Ok (PyDict [("success", PyBool true); ("recent_changes", recent_changes);
              ("recent_deployment", PyBool (0 <? n)%nat)], ctx).

(** WorkflowEngine._check_limits_appropriate *)
Definition _check_limits_appropriate (limits : pyval) : res bool :=
  limit <- py_get limits "memory_limit" (PyInt 0) ;;
  py_gt limit (PyInt 128).

Definition _review_resource_limits (ctx : Context) : step_result :=
  let pod_name := ctx_get ctx "pod_name" in
  let namespace := ctx_get ctx "namespace" in
  limits <- kubernetes_get_resource_limits env pod_name namespace ;;
  let ctx := ctx_set ctx "resource_limits" limits in
  ok <- _check_limits_appropriate limits ;;
  Ok (PyDict [("success", PyBool true); ("limits", limits);
              ("limits_appropriate", PyBool ok)], ctx).

Definition _check_dependencies (ctx : Context) : step_result :=
  let service_name := ctx_get ctx "service_name" in
  dependencies <- xray_get_service_map env service_name ;;
  Ok (PyDict [("success", PyBool true); ("dependencies", dependencies);
              ("dependency_issues", PyList [])], ctx).

Definition _correlate_with_resources (ctx : Context) : step_result :=
  Ok (PyDict [("success", PyBool true); ("correlation", PyStr "high");
              ("resource_constrained", PyBool true)], ctx).

Definition _list_pods_on_node (ctx : Context) : step_result :=
  let node_name := ctx_get ctx "node_name" in
  pods <- kubernetes_get_pods_on_node env node_name ;;
  let ctx := ctx_set ctx "pods_on_node" pods in
  n <- py_len pods ;;
  Ok (PyDict [("success", PyBool true); ("pod_count", PyInt (Z.of_nat n));
              ("pods", pods)], ctx).

Definition _check_resource_usage (ctx : Context) : step_result :=
  let pods := match dict_get "pods_on_node" (scratch ctx) with
              | Some v => v
              | None => PyList []
              end in
  items <- py_iter pods ;;
  total_cpu <- py_sum (fun p => py_get p "cpu" (PyInt 0)) items ;;
  items' <- py_iter pods ;;
  total_memory <- py_sum (fun p => py_get p "memory" (PyInt 0)) items' ;;
  hog <- (if truthy pods then
            its <- py_iter pods ;;
            py_max (fun p => py_get p "memory" (PyInt 0)) its
          else Ok PyNone) ;;
  Ok (PyDict [("success", PyBool true); ("total_cpu", total_cpu);
              ("total_memory", total_memory); ("resource_hog", hog)], ctx).

Definition _analyze_evictions (ctx : Context) : step_result :=
  let node_name := ctx_get ctx "node_name" in
  evictions <- kubernetes_get_eviction_events env node_name ;;
  n <- py_len evictions ;;
  Ok (PyDict [("success", PyBool true); ("eviction_count", PyInt (Z.of_nat n));
              ("evictions", evictions)], ctx).

Definition _collect_pod_events (ctx : Context) : step_result :=
  let pod_name := ctx_get ctx "pod_name" in
  let namespace := ctx_get ctx "namespace" in
  events <- kubernetes_get_pod_events env pod_name namespace ;;
  let ctx := ctx_set ctx "pod_events" events in
  n <- py_len events ;;
  Ok (PyDict [("success", PyBool true); ("event_count", PyInt (Z.of_nat n));
              ("events", events)], ctx).

Definition _analyze_logs (ctx : Context) : step_result :=
  let pod_name := ctx_get ctx "pod_name" in
  let namespace := ctx_get ctx "namespace" in
  logs <- kubernetes_get_pod_logs env pod_name namespace ;;
  lines <- py_iter logs ;;
  errors <- filterM (fun line =>
                       l <- py_lower line ;;
                       if Str.contains "error" l then Ok true
                       else l' <- py_lower line ;; Ok (Str.contains "exception" l'))
                    lines ;;
  let ctx := ctx_set (ctx_set_logs ctx logs) "error_logs" (PyList errors) in
  Ok (PyDict [("success", PyBool true);
              ("error_count", PyInt (Z.of_nat (List.length errors)));
              ("errors", PyList (py_slice_to 5 errors))], ctx).

Definition _check_restart_count (ctx : Context) : step_result :=
  let pod_name := ctx_get ctx "pod_name" in
  let namespace := ctx_get ctx "namespace" in
  restart_count <- kubernetes_get_restart_count env pod_name namespace ;;
  frequent <- py_gt restart_count (PyInt 5) ;;
  Ok (PyDict [("success", PyBool true); ("restart_count", restart_count);
              ("frequent_restarts", PyBool frequent)], ctx).

Definition _analyze_patterns (ctx : Context) : step_result :=
  Ok (PyDict [("success", PyBool true); ("patterns", PyList [])], ctx).

Definition _recommend_remediation (ctx : Context) : step_result :=
  let recommendations := _generate_recommendations ctx None in
  Ok (PyDict [("success", PyBool true);
              ("recommendations", py_strings recommendations)], ctx).

Definition _recommend_actions (ctx : Context) : step_result :=
  Ok (PyDict [("success", PyBool true);
              ("actions", py_strings ["Review metrics"; "Check logs";
                                      "Consult runbook"])], ctx).

(** The [step_handlers] table of _execute_step *)
Definition step_handlers : list (string * (Context -> step_result)) :=
  [ ("identify_pod", _identify_pod);
    ("identify_service", _identify_service);
    ("identify_node", _identify_node);
    ("identify_resource", _identify_resource);
    ("collect_memory_metrics", _collect_memory_metrics);
    ("collect_cpu_metrics", _collect_cpu_metrics);
    ("collect_latency_metrics", _collect_latency_metrics);
    ("collect_node_metrics", _collect_node_metrics);
    ("collect_metrics", _collect_generic_metrics);
    ("check_oom_events", _check_oom_events);
    ("check_cpu_throttling", _check_cpu_throttling);
    ("analyze_traces", _analyze_traces);
    ("analyze_memory_trend", _analyze_memory_trend);
    ("analyze_request_patterns", _analyze_request_patterns);
    ("review_recent_changes", _review_recent_changes);
    ("review_resource_limits", _review_resource_limits);
    ("check_dependencies", _check_dependencies);
    ("correlate_with_resources", _correlate_with_resources);
    ("list_pods_on_node", _list_pods_on_node);
    ("check_resource_usage", _check_resource_usage);
    ("analyze_evictions", _analyze_evictions);
    ("collect_pod_events", _collect_pod_events);
    ("analyze_logs", _analyze_logs);
    ("check_restart_count", _check_restart_count);
    ("analyze_patterns", _analyze_patterns);
    ("recommend_remediation", _recommend_remediation);
    ("recommend_actions", _recommend_actions) ].

(** WorkflowEngine._execute_step *)
Definition _execute_step (step : string) (ctx : Context) : step_result :=
  match dict_get step step_handlers with
  | Some handler => handler ctx
  | None =>
      Ok (PyDict [("success", PyBool false);
                  ("error", PyStr ("No handler for step: " ++ step))], ctx)
  end.

(** [any(key in str(f) for f in findings)] *)
Definition any_finding_mentions (key : string) (findings : list pyval) : bool :=
  existsb (fun f => Str.contains key (str (float_repr env) f)) findings.

(** WorkflowEngine._determine_root_cause *)
Definition _determine_root_cause (ctx : Context) : string :=
  let workflow_name := workflow_name ctx in
  let findings := findings ctx in
  if String.eqb workflow_name "memory_leak_investigation" then
    if any_finding_mentions "oom_kill_detected" findings
    then "Memory leak causing OOMKill events"
    else if any_finding_mentions "memory_leak_likely" findings
    then "Increasing memory usage pattern detected"
    else "Memory pressure observed"
  else if String.eqb workflow_name "high_cpu_investigation" then
    if any_finding_mentions "throttling_detected" findings
    then "CPU throttling due to insufficient limits"
    else "High CPU utilization"
  else if String.eqb workflow_name "high_latency_investigation" then
    if any_finding_mentions "resource_constrained" findings
    then "Latency caused by resource constraints"
    else if any_finding_mentions "bottleneck" findings
    then "Bottleneck in downstream service"
    else "Elevated response times"
  else if String.eqb workflow_name "node_pressure_investigation" then
    "Node under resource pressure"
  else if String.eqb workflow_name "pod_crash_investigation" then
    "Pod experiencing frequent crashes"
  else "Investigation completed".

(** The [for step in workflow['steps']] loop of execute_workflow.  [n]
    counts the clock readings made so far. *)
Fixpoint run_steps (steps : list string) (n : nat) (ctx : Context)
  : res (nat * Context) :=
  match steps with
  | [] => Ok (n, ctx)
  | step :: steps' =>
      '(step_result, ctx) <- _execute_step step ctx ;;
      let finding := PyDict [("step", PyStr step);
                             ("result", step_result);
                             ("timestamp", PyStr (isoformat env (clock env n)))] in
      let ctx := ctx_append_finding ctx finding in
      continue <- py_get step_result "continue" (PyBool true) ;;
      if negb (truthy continue) then Ok (S n, ctx)
      else run_steps steps' (S n) ctx
  end.

(** The dictionary execute_workflow returns *)
Inductive WorkflowResult : Type :=
| UnknownWorkflow (error : string)
| Failed (incident_id workflow error : string)
| Succeeded (incident_id workflow root_cause : string)
            (recommendations : list string) (duration : float)
            (findings : list pyval).

(** WorkflowEngine.execute_workflow *)
Definition execute_workflow (workflow_name incident_id : string) (event : Event)
  : WorkflowResult :=
  match dict_get workflow_name _load_workflows with
  | None => UnknownWorkflow ("Unknown workflow: " ++ workflow_name)
  | Some (_, steps) =>
      let context := mkContext incident_id workflow_name event (clock env 0)
                               [] [] (PyList []) [] [] in
      match run_steps steps 1 context with
      | Raise e => Failed incident_id workflow_name (exn_str e)
      | Ok (n, context) =>
          let root_cause := _determine_root_cause context in
          let recommendations :=
            _generate_recommendations context (Some root_cause) in
          let end_time := clock env n in
          let duration :=
            Float.of_quotient (end_time - start_time context) 1000000 in
          Succeeded incident_id workflow_name root_cause recommendations
                    duration (findings context)
      end
  end.

End Steps.

End WorkflowEngine.

(* ===================================================================== *)
(** ** prometheus-mcp-server/src/query_translator.py                      *)
(* ===================================================================== *)

(** *** The part of [re] that the templates use

    Patterns are kept as text and compiled by [parse].  The syntax covered:
    literal characters, [.], [\s], [\S], an escaped punctuation character,
    the greedy quantifiers [*] and [+] on one of these, and capturing
    groups that are neither nested nor quantified.  Any other pattern is
    answered with [RegexError].  Matching is the backtracking search of
    [re]: leftmost start, greedy quantifiers giving back one character at a
    time. *)

Module Re.

Inductive cclass : Type :=
| CChar (c : ascii)
| CAny                  (* .  : any character but a newline *)
| CSpace                (* \s *)
| CNonSpace.            (* \S *)

Definition class_match (cls : cclass) (c : ascii) : bool :=
  match cls with
  | CChar a => Ascii.eqb a c
  | CAny => negb (Ascii.eqb c "010"%char)
  | CSpace => Str.isspace c
  | CNonSpace => negb (Str.isspace c)
  end.

Inductive quant : Type := QOne | QStar | QPlus.

Inductive node : Type :=
| Atom (cls : cclass) (q : quant)
| GroupOpen
| GroupClose.

Definition regex : Type := list node.

Definition is_alnum (c : ascii) : bool :=
  let n := Str.code c in
  (((48 <=? n) && (n <=? 57)) || ((65 <=? n) && (n <=? 90))
   || ((97 <=? n) && (n <=? 122)))%nat.

Definition is_special (c : ascii) : bool :=
  existsb (Ascii.eqb c) (list_ascii_of_string "[]{}|^$?").

(** Reads one quantifier, if there is one. *)
Definition read_quant (s : string) : quant * string :=
  match s with
  | String "*" s' => (QStar, s')
  | String "+" s' => (QPlus, s')
  | _ => (QOne, s)
  end.

Definition unsupported : exn := RegexError "pattern outside the modelled syntax".

(** [re.compile]; [in_group] tells whether a group is open. *)
Fixpoint parse_from (fuel : nat) (s : string) (in_group : bool) : res regex :=
  match fuel with
  | O => Raise unsupported
  | S fuel' =>
      match s with
      | EmptyString =>
          if in_group then Raise (RegexError "missing ), unterminated subpattern")
          else Ok []
      | String "(" s' =>
          if in_group then Raise unsupported
          else match s' with
               | String "?" _ => Raise unsupported
               | _ => r <- parse_from fuel' s' true ;; Ok (GroupOpen :: r)
               end
      | String ")" s' =>
          if in_group then
            match read_quant s' with
            | (QOne, _) =>
                match s' with
                | String "?" _ | String "{" _ => Raise unsupported
                | _ => r <- parse_from fuel' s' false ;; Ok (GroupClose :: r)
                end
            | _ => Raise unsupported
            end
          else Raise (RegexError "unbalanced parenthesis")
      | String "*" _ | String "+" _ => Raise (RegexError "nothing to repeat")
      | String "\" (String c s') =>
          let cls := if Ascii.eqb c "s" then Some CSpace
                     else if Ascii.eqb c "S" then Some CNonSpace
                     else if is_alnum c then None
                     else Some (CChar c) in
          match cls with
          | None => Raise unsupported
          | Some cls =>
              let '(q, rest) := read_quant s' in
              match rest with
              | String "?" _ | String "*" _ | String "+" _ | String "{" _ =>
                  Raise unsupported
              | _ => r <- parse_from fuel' rest in_group ;; Ok (Atom cls q :: r)
              end
          end
      | String "\" EmptyString => Raise (RegexError "bad escape (end of pattern)")
      | String c s' =>
          if is_special c then Raise unsupported
          else
            let cls := if Ascii.eqb c "." then CAny else CChar c in
            let '(q, rest) := read_quant s' in
            match rest with
            | String "?" _ | String "*" _ | String "+" _ | String "{" _ =>
                Raise unsupported
            | _ => r <- parse_from fuel' rest in_group ;; Ok (Atom cls q :: r)
            end
      end
  end.

Definition parse (pattern : string) : res regex :=
  parse_from (S (String.length pattern)) pattern false.

Definition push (c : ascii) (cur : option string) : option string :=
  match cur with
  | Some acc => Some (String c acc)
  | None => None
  end.

(** Matching [r] at the start of [s].  [caps] holds the text of the groups
    closed so far, [cur] the text (reversed) of the group that is open.
    The result is the list of the captured groups. *)
Fixpoint match_here (r : regex) (s : string) (caps : list string)
         (cur : option string) {struct r} : option (list string) :=
  match r with
  | [] => Some caps
  | GroupOpen :: r' => match_here r' s caps (Some "")
  | GroupClose :: r' =>
      match cur with
      | Some acc => match_here r' s (caps ++ [Str.rev acc])%list None
      | None => None
      end
  | Atom cls q :: r' =>
      let star :=
        fix star (s : string) (cur : option string) {struct s}
          : option (list string) :=
          match s with
          | String c s' =>
              if class_match cls c then
                match star s' (push c cur) with
                | Some m => Some m
                | None => match_here r' s caps cur
                end
              else match_here r' s caps cur
          | EmptyString => match_here r' s caps cur
          end in
      match q with
      | QStar => star s cur
      | QOne =>
          match s with
          | String c s' =>
              if class_match cls c then match_here r' s' caps (push c cur) else None
          | EmptyString => None
          end
      | QPlus =>
          match s with
          | String c s' =>
              if class_match cls c then star s' (push c cur) else None
          | EmptyString => None
          end
      end
  end.

(** A match object: the captured groups, in order. *)
Record Match : Type := mkMatch { groups : list string }.

(** [match.lastindex]: [None] when the pattern has no group. *)
Definition lastindex (m : Match) : option nat :=
  match groups m with
  | [] => None
  | gs => Some (List.length gs)
  end.

(** [match.group(1)] *)
Definition group1 (m : Match) : res string :=
  match groups m with
  | g :: _ => Ok g
  | [] => Raise (IndexError "no such group")
  end.

Fixpoint search_from (r : regex) (s : string) : option Match :=
  match match_here r s [] None with
  | Some caps => Some (mkMatch caps)
  | None =>
      match s with
      | EmptyString => None
      | String _ s' => search_from r s'
      end
  end.

(** [re.search(pattern, s)] *)
Definition search (pattern s : string) : res (option Match) :=
  r <- parse pattern ;; Ok (search_from r s).

End Re.

Module QueryTranslator.

(** One entry of [self.templates] *)
Record Template : Type := mkTemplate {
  pattern : string;
  promql : string;
  description : string;
  category : string
}.

Definition dq : string := String dquote "".

(** QueryTranslator._load_templates *)
Definition _load_templates : list Template :=
  [ mkTemplate "memory usage.*pod\s+(\S+)"
      ("container_memory_usage_bytes{{pod=" ++ dq ++ "{pod_name}" ++ dq ++ "}}")
      "Memory usage for a specific pod" "memory";
    mkTemplate "cpu usage.*pod\s+(\S+)"
      ("rate(container_cpu_usage_seconds_total{{pod=" ++ dq ++ "{pod_name}" ++ dq
         ++ "}}[5m])")
      "CPU usage for a specific pod" "cpu";
    mkTemplate "memory usage.*namespace\s+(\S+)"
      ("sum(container_memory_usage_bytes{{namespace=" ++ dq ++ "{namespace}" ++ dq
         ++ "}}) by (pod)")
      "Memory usage by pod in namespace" "memory";
    mkTemplate "cpu usage.*namespace\s+(\S+)"
      ("sum(rate(container_cpu_usage_seconds_total{{namespace=" ++ dq
         ++ "{namespace}" ++ dq ++ "}}[5m])) by (pod)")
      "CPU usage by pod in namespace" "cpu";
    mkTemplate "request rate.*service\s+(\S+)"
      ("rate(http_requests_total{{service=" ++ dq ++ "{service_name}" ++ dq
         ++ "}}[5m])")
      "Request rate for a service" "requests";
    mkTemplate "error rate.*service\s+(\S+)"
      ("rate(http_requests_total{{service=" ++ dq ++ "{service_name}" ++ dq
         ++ ",status=~" ++ dq ++ "5.." ++ dq ++ "}}[5m])")
      "Error rate for a service" "errors";
    mkTemplate "latency.*service\s+(\S+)"
      ("histogram_quantile(0.99, rate(http_request_duration_seconds_bucket{{service="
         ++ dq ++ "{service_name}" ++ dq ++ "}}[5m]))")
      "P99 latency for a service" "latency";
    mkTemplate "resource usage.*node\s+(\S+)"
      ("node_memory_MemAvailable_bytes{{node=" ++ dq ++ "{node_name}" ++ dq
         ++ "}} / node_memory_MemTotal_bytes{{node=" ++ dq ++ "{node_name}" ++ dq
         ++ "}}")
      "Memory availability on a node" "node";
    mkTemplate "pod count.*namespace\s+(\S+)"
      ("count(kube_pod_info{{namespace=" ++ dq ++ "{namespace}" ++ dq
         ++ "}}) by (namespace)")
      "Count of pods in namespace" "pods";
    mkTemplate "restart count.*pod\s+(\S+)"
      ("kube_pod_container_status_restarts_total{{pod=" ++ dq ++ "{pod_name}" ++ dq
         ++ "}}")
      "Container restart count for pod" "restarts" ].

(** *** [str.format] with keyword arguments

    The format string is read from left to right as CPython reads it:
    literal text with the escapes [{{] and [}}], and replacement fields
    [{name!conversion:spec}].  The arguments are keyword arguments whose
    values are strings; there is no positional argument.  A name alone,
    the conversions [!s], [!r] and [!a] and an empty format specification are
    rendered.  An attribute or an index after the name and a format
    specification that is not empty are outside the embedding: applied
    to a value that was found, they are answered with [outside_format]. *)

Definition outside_format : exn :=
  ValueError "replacement field outside the modelled syntax".

(** Where the reading of a replacement field stands: in the name, inside
    the brackets of an index, at or after the conversion character, or in
    the format specification at some depth of nested braces.  Names and
    specifications are collected in reverse. *)
Inductive field_state : Type :=
| InName (acc : string)
| InIndex (acc : string)
| AtConversion (name : string)
| AfterConversion (name : string) (c : ascii)
| InSpec (name : string) (conversion : option ascii) (acc : string) (depth : nat).

Definition all_digits (name : string) : bool :=
  forallb Str.is_digit (list_ascii_of_string name).

(** The part of a field name before its first [.] or [[], and the rest *)
Fixpoint split_first (name : string) : string * string :=
  match name with
  | EmptyString => ("", "")
  | String c name' =>
      if Ascii.eqb c "." || Ascii.eqb c "["
      then ("", name)
      else let '(first, rest) := split_first name' in (String c first, rest)
  end.

Definition decimal_value (digits : string) : Z :=
  fold_left (fun acc c => 10 * acc + Str.digit_val c)%Z
            (list_ascii_of_string digits) 0%Z.

(** [PY_SSIZE_T_MAX] on a 64-bit platform *)
Definition ssize_t_max : Z := 2 ^ 63 - 1.

(** The object a field name stands for.  An empty or numeric first part
    asks for a positional argument, and there is none. *)
Definition lookup_field (name : string) (params : list (string * string))
  : res string :=
  let '(first, rest) := split_first name in
  obj <-
    (if String.eqb first ""
     then Raise (IndexError
                   "Replacement index 0 out of range for positional args tuple")
     else if all_digits first then
       if (ssize_t_max <? decimal_value first)%Z
       then Raise (ValueError "Too many decimal digits in format string")
       else Raise (IndexError
                     ("Replacement index " ++ repr_int (decimal_value first)
                        ++ " out of range for positional args tuple"))
     else match dict_get first params with
          | Some v => Ok v
          | None => Raise (KeyError (repr_str first))
          end) ;;
  if String.eqb rest "" then Ok obj else Raise outside_format.

(** [ascii(s)] of a string: its [repr] with the characters above 127
    escaped. *)
Definition ascii_char (quote c : ascii) : string :=
  if (127 <? Str.code c)%nat
  then String backslash
         (String "x"%char
            (String (hex_digit (Str.code c / 16))
               (String (hex_digit (Str.code c mod 16)) "")))
  else repr_char quote c.

Definition ascii_str (s : string) : string :=
  let quote := if has_char squote s && negb (has_char dquote s)
               then dquote else squote in
  String quote
         (String.concat "" (map (ascii_char quote) (list_ascii_of_string s))
            ++ String quote "").

(** [%x] of a character code *)
Definition hex_code (c : ascii) : string :=
  let n := Str.code c in
  if (n <? 16)%nat then String (hex_digit n) ""
  else String (hex_digit (n / 16)) (String (hex_digit (n mod 16)) "").

(** One replacement field: the object, then the conversion, then the
    format specification. *)
Definition render_field (name : string) (conversion : option ascii)
           (spec : string) (params : list (string * string)) : res string :=
  obj <- lookup_field name params ;;
  converted <-
    match conversion with
    | None => Ok obj
    | Some c =>
        if Ascii.eqb c "000" || Ascii.eqb c "s" then Ok obj
        else if Ascii.eqb c "r" then Ok (repr_str obj)
        else if Ascii.eqb c "a" then Ok (ascii_str obj)
        else if ((32 <? Str.code c) && (Str.code c <? 127))%nat
        then Raise (ValueError ("Unknown conversion specifier " ++ String c ""))
        else Raise (ValueError ("Unknown conversion specifier "
                                  ++ String backslash "x" ++ hex_code c))
    end ;;
  if String.eqb spec "" then Ok converted else Raise outside_format.

(** [state] is [None] in running text. *)
Fixpoint format_from (s : string) (state : option field_state)
         (params : list (string * string)) : res string :=
  match state, s with
  | None, EmptyString => Ok ""
  | None, String "{" (String "{" s') =>
      r <- format_from s' None params ;; Ok (String "{" r)
  | None, String "{" EmptyString =>
      Raise (ValueError "Single '{' encountered in format string")
  | None, String "{" s' => format_from s' (Some (InName "")) params
  | None, String "}" (String "}" s') =>
      r <- format_from s' None params ;; Ok (String "}" r)
  | None, String "}" _ =>
      Raise (ValueError "Single '}' encountered in format string")
  | None, String c s' => r <- format_from s' None params ;; Ok (String c r)
  | Some (InName _), EmptyString | Some (InIndex _), EmptyString =>
      Raise (ValueError "expected '}' before end of string")
  | Some (AtConversion _), EmptyString =>
      Raise (ValueError "end of string while looking for conversion specifier")
  | Some (AfterConversion _ _), EmptyString | Some (InSpec _ _ _ _), EmptyString =>
      Raise (ValueError "unmatched '{' in format spec")
  | Some (InName acc), String c s' =>
      if Ascii.eqb c "{"
      then Raise (ValueError "unexpected '{' in field name")
      else if Ascii.eqb c "[" then format_from s' (Some (InIndex (String c acc))) params
      else if Ascii.eqb c "}" then
        v <- render_field (Str.rev acc) None "" params ;;
        r <- format_from s' None params ;; Ok (v ++ r)
      else if Ascii.eqb c ":"
      then format_from s' (Some (InSpec (Str.rev acc) None "" 0)) params
      else if Ascii.eqb c "!"
      then format_from s' (Some (AtConversion (Str.rev acc))) params
      else format_from s' (Some (InName (String c acc))) params
  | Some (InIndex acc), String c s' =>
      if Ascii.eqb c "]" then format_from s' (Some (InName (String c acc))) params
      else format_from s' (Some (InIndex (String c acc))) params
  | Some (AtConversion name), String c s' =>
      format_from s' (Some (AfterConversion name c)) params
  | Some (AfterConversion name conversion), String c s' =>
      if Ascii.eqb c "}" then
        v <- render_field name (Some conversion) "" params ;;
        r <- format_from s' None params ;; Ok (v ++ r)
      else if Ascii.eqb c ":"
      then format_from s' (Some (InSpec name (Some conversion) "" 0)) params
      else Raise (ValueError "expected ':' after conversion specifier")
  | Some (InSpec name conversion acc depth), String c s' =>
      if Ascii.eqb c "{"
      then format_from s' (Some (InSpec name conversion (String c acc) (S depth)))
                       params
      else if Ascii.eqb c "}" then
        match depth with
        | O =>
            v <- render_field name conversion (Str.rev acc) params ;;
            r <- format_from s' None params ;; Ok (v ++ r)
        | S depth' =>
            format_from s' (Some (InSpec name conversion (String c acc) depth'))
                        params
        end
      else format_from s' (Some (InSpec name conversion (String c acc) depth))
                       params
  end.

Definition format (template : string) (params : list (string * string))
  : res string :=
  format_from template None params.

(** [match.group(1) if match.lastindex >= 1 else ''] *)
Definition group1_if_any (m : Re.Match) : res string :=
  match Re.lastindex m with
  | None => Raise (TypeError
                     "'>=' not supported between instances of 'NoneType' and 'int'")
  | Some n => if (1 <=? n)%nat then Re.group1 m else Ok ""
  end.

(** QueryTranslator._extract_parameters *)
Definition _extract_parameters (m : Re.Match) (template : Template)
  : res (list (string * string)) :=
  let params := [] in
  params <- (if Str.contains "pod" (promql template)
             then g <- group1_if_any m ;; Ok (dict_set "pod_name" g params)
             else Ok params) ;;
  params <- (if Str.contains "namespace" (promql template)
             then g <- group1_if_any m ;; Ok (dict_set "namespace" g params)
             else Ok params) ;;
  params <- (if Str.contains "service" (promql template)
             then g <- group1_if_any m ;; Ok (dict_set "service_name" g params)
             else Ok params) ;;
  params <- (if Str.contains "node" (promql template)
             then g <- group1_if_any m ;; Ok (dict_set "node_name" g params)
             else Ok params) ;;
  Ok params.

(** QueryTranslator._extract_time_range *)
Definition _extract_time_range (query : string) : string :=
  let query_lower := Str.lower query in
  if Str.contains "last hour" query_lower || Str.contains "past hour" query_lower
  then "1h"
  else if Str.contains "last 30 minutes" query_lower then "30m"
  else if Str.contains "last 15 minutes" query_lower then "15m"
  else if Str.contains "last 5 minutes" query_lower then "5m"
  else if Str.contains "last day" query_lower || Str.contains "past day" query_lower
  then "1d"
  else if Str.contains "last week" query_lower then "7d"
  else "1h".

(** QueryTranslator._construct_from_keywords *)
Definition _construct_from_keywords (query : string) : option string :=
  let query_lower := Str.lower query in
  if Str.contains "memory" query_lower && Str.contains "pod" query_lower
  then Some "container_memory_usage_bytes"
  else if Str.contains "cpu" query_lower && Str.contains "pod" query_lower
  then Some "rate(container_cpu_usage_seconds_total[5m])"
  else if Str.contains "request" query_lower
  then Some "rate(http_requests_total[5m])"
  else None.

(** The dictionary translate returns; the keyword-based answer has no
    ['parameters'] entry. *)
Inductive TranslateResult : Type :=
| Translated (promql template category time_range : string)
             (parameters : option (list (string * string)))
| NotTranslated (error : string).

(** The [for template in self.templates] loop of translate: the answer of
    the first template that matches, [None] when none does. *)
Fixpoint scan_templates (templates : list Template) (query query_lower : string)
  : res (option TranslateResult) :=
  match templates with
  | [] => Ok None
  | template :: rest =>
      m <- Re.search (pattern template) query_lower ;;
      match m with
      | Some mt =>
          params <- _extract_parameters mt template ;;
          promql <- format (promql template) params ;;
          let time_range := _extract_time_range query in
          Ok (Some (Translated promql (description template) (category template)
                               time_range (Some params)))
      | None => scan_templates rest query query_lower
      end
  end.

(** QueryTranslator.translate, with [self.templates] as an argument.  The
    [context] argument is not read. *)
Definition translate (templates : list Template) (query : string)
  : TranslateResult :=
  let body : res TranslateResult :=
    let query_lower := Str.lower query in
    found <- scan_templates templates query query_lower ;;
    match found with
    | Some r => Ok r
    | None =>
        match _construct_from_keywords query with
        | Some promql =>
            Ok (Translated promql "keyword-based" "generic"
                           (_extract_time_range query) None)
        | None =>
            Ok (NotTranslated
                  "Could not translate query. Please provide more specific information.")
        end
    end in
  match body with
  | Ok r => r
  | Raise e => NotTranslated (exn_str e)
  end.

(** [s.replace(old, new)] for a non-empty [old]: the occurrences are
    replaced from left to right and do not overlap.  [skip] counts the
    characters of an occurrence that are still to be dropped. *)
Fixpoint replace_from (old new : string) (skip : nat) (s : string) : string :=
  match s with
  | EmptyString => EmptyString
  | String c s' =>
      match skip with
      | S k => replace_from old new k s'
      | O =>
          if prefix old s
          then new ++ replace_from old new (String.length old - 1) s'
          else String c (replace_from old new 0 s')
      end
  end.

Definition replace (old new s : string) : string := replace_from old new 0 s.

(** QueryTranslator._generate_example *)
Definition _generate_example (template : Template) : string :=
  let pattern := pattern template in
  if Str.contains "pod" pattern then replace "(\S+)" "my-pod-name" pattern
  else if Str.contains "namespace" pattern then replace "(\S+)" "default" pattern
  else if Str.contains "service" pattern then replace "(\S+)" "my-service" pattern
  else if Str.contains "node" pattern then replace "(\S+)" "node-1" pattern
  else pattern.

(** One entry of the list that list_templates returns *)
Record TemplateInfo : Type := mkTemplateInfo {
  ti_description : string;
  ti_category : string;
  ti_example : string
}.

(** QueryTranslator.list_templates *)
Definition list_templates (templates : list Template) : list TemplateInfo :=
  map (fun t => mkTemplateInfo (description t) (category t) (_generate_example t))
      templates.

End QueryTranslator.

(* ===================================================================== *)
(** ** prometheus-mcp-server/src/prometheus_client.py                     *)
(* ===================================================================== *)

(** Sample values are Python floats: a sample is what [float(v[1])] gave.
    [sum] adds from left to right, as CPython does up to version 3.11
    (from 3.12 on, [sum] of floats carries a compensation term). *)

Module PrometheusClient.

(** [sum(values)] on floats: the start value [0] becomes [0.0] when the
    first float is added. *)
Definition sum (values : list float) : float :=
  fold_left Float.add values Float.zero.

(** [max(values)] on a non-empty list: the first of the largest *)
Definition max_of (first : float) (rest : list float) : float :=
  fold_left (fun m x => if Float.ltb m x then x else m) rest first.

(** [min(values)] on a non-empty list: the first of the smallest *)
Definition min_of (first : float) (rest : list float) : float :=
  fold_left (fun m x => if Float.ltb x m then x else m) rest first.

(** A count as the divisor of a float *)
Definition count (n : nat) : float := Float.of_Z (Z.of_nat n).

(** PrometheusClient._calculate_trend *)
Definition _calculate_trend (values : list float) : string :=
  if (List.length values <? 2)%nat then "unknown"
  else
    let half := (List.length values / 2)%nat in
    let first_half := Float.div (sum (firstn half values)) (count half) in
    let second_half :=
      Float.div (sum (skipn half values))
                (count (List.length values - half)) in
    if Float.ltb (Float.mul first_half (Float.of_quotient 11 10)) second_half
    then "increasing"
    else if Float.ltb second_half (Float.mul first_half (Float.of_quotient 9 10))
    then "decreasing"
    else "stable".

(** One entry of [data.result] of a range answer: the labels and the
    [[timestamp, value]] pairs, each with its timestamp as it was decoded
    and the float of its value. *)
Record Series : Type := mkSeries {
  metric : pyval;
  values : list (pyval * float)
}.

(** The decoded JSON answer, as far as the parser reads it: [data] and
    [data.result] may each be missing. *)
Record RangeData : Type := mkRangeData { result : option (list Series) }.
Record RangeResponse : Type := mkRangeResponse { data : option RangeData }.

Record SeriesData : Type := mkSeriesData {
  sd_metric : pyval;
  sd_values : list float;
  sd_timestamps : list pyval
}.

(** The dictionary _parse_range_result returns.  Its four numbers are the
    [int] 0 when there is no sample, and floats otherwise. *)
Record RangeResult : Type := mkRangeResult {
  current_value : pyval;
  max_value : pyval;
  min_value : pyval;
  average_value : pyval;
  trend : string;
  rr_values : list SeriesData;
  series_count : nat
}.

(** [all_values[-1]] on a non-empty list *)
Definition last_of (first : float) (rest : list float) : float :=
  List.last rest first.

(** PrometheusClient._parse_range_result *)
Definition _parse_range_result (response : RangeResponse) : RangeResult :=
  let results :=
    match data response with
    | Some d => match result d with Some r => r | None => [] end
    | None => []
    end in
  match results with
  | [] => mkRangeResult (PyInt 0) (PyInt 0) (PyInt 0) (PyInt 0) "unknown" [] 0
  | _ =>
      let series_data :=
        map (fun item =>
               mkSeriesData (metric item) (map snd (values item))
                            (map fst (values item))) results in
      let all_values := flat_map (fun item => map snd (values item)) results in
      match all_values with
      | first :: rest =>
          mkRangeResult (PyFloat (last_of first rest))
                        (PyFloat (max_of first rest))
                        (PyFloat (min_of first rest))
                        (PyFloat (Float.div (sum all_values)
                                            (count (List.length all_values))))
                        (_calculate_trend all_values)
                        series_data (List.length series_data)
      | [] =>
          mkRangeResult (PyInt 0) (PyInt 0) (PyInt 0) (PyInt 0) "unknown"
                        series_data (List.length series_data)
      end
  end.

Local Open Scope Z_scope.

(** *** Time ranges

    A [datetime] is the number of microseconds since 0001-01-01T00:00:00,
    a [timedelta] a number of microseconds. *)

Definition datetime_max : Z := 3652059 * 86400 * 1000000 - 1.
Definition timedelta_max_days : Z := 999999999.
Definition us_per_hour : Z := 3600 * 1000000.

(** [timedelta(hours=...)], and likewise for the other units, from the
    length of one unit in microseconds.  The days of the normalized span
    must have at most nine digits; the message is that of the C
    implementation of [datetime], which reads the days as a C int first. *)
Definition timedelta (unit_us value : Z) : res Z :=
  let us := value * unit_us in
  let days := us / (86400 * 1000000) in
  if (- timedelta_max_days <=? days) && (days <=? timedelta_max_days)
  then Ok us
  else if (- 2 ^ 31 <=? days) && (days <? 2 ^ 31)
  then Raise (OverflowError ("days=" ++ repr_int days
                               ++ "; must have magnitude <= 999999999"))
  else Raise (OverflowError "Python int too large to convert to C int").

(** [end_time - delta] *)
Definition datetime_sub (end_time delta : Z) : res Z :=
  let t := end_time - delta in
  if (0 <=? t) && (t <=? datetime_max) then Ok t
  else Raise (OverflowError "date value out of range").

(** Splits [s] into [s[:-1]] and [s[-1]]. *)
Fixpoint split_last (s : string) : option (string * ascii) :=
  match s with
  | EmptyString => None
  | String c EmptyString => Some (EmptyString, c)
  | String c s' =>
      match split_last s' with
      | Some (init, l) => Some (String c init, l)
      | None => None
      end
  end.

(** *** [int] of a string

    As CPython 3.11 reads it in base ten: whitespace at both ends is
    skipped, one sign is allowed, the digits may be separated by single
    underscores, and more than 4300 digits are refused. *)

(** The whitespace that [int] skips: the ASCII whitespace and the two
    spaces above 127.  The separators 0x1c to 0x1f, which [str.isspace]
    takes for whitespace, are not skipped. *)
Definition int_space (c : ascii) : bool :=
  let n := Str.code c in
  (((9 <=? n) && (n <=? 13)) || (n =? 32) || (n =? 133) || (n =? 160))%nat.

Fixpoint lstrip (s : string) : string :=
  match s with
  | String c s' => if int_space c then lstrip s' else s
  | EmptyString => EmptyString
  end.

(** The string without the whitespace that [int] skips at its ends *)
Definition strip (s : string) : string :=
  Str.rev (lstrip (Str.rev (lstrip s))).

(** The scan of the digits and underscores at the start of [s]: the value
    read, the number of digits, and the rest of the string.  [prev] is the
    kind of the character before: [None] at the start, [Some true] after a
    digit, [Some false] after an underscore.  The scan fails on an
    underscore at the start, after another underscore, or at the end of
    the digits. *)
Fixpoint digits_from (s : string) (acc count : Z) (prev : option bool)
  : option (Z * Z * string) :=
  match s with
  | String c s' =>
      if Str.is_digit c
      then digits_from s' (10 * acc + Str.digit_val c) (count + 1) (Some true)
      else if Ascii.eqb c "_" then
        match prev with
        | Some true => digits_from s' acc count (Some false)
        | _ => None
        end
      else match prev with
           | Some false => None
           | _ => Some (acc, count, s)
           end
  | EmptyString =>
      match prev with
      | Some false => None
      | _ => Some (acc, count, s)
      end
  end.

Definition int_max_str_digits : Z := 4300.

(** [int(s)] of a string, base ten.  The message of an invalid literal
    shows at most 200 characters of the [repr] of the string. *)
Definition int_of_str (s : string) : res Z :=
  let bad := Raise (ValueError ("invalid literal for int() with base 10: "
                                  ++ Str.take 200 (repr_str s))) in
  let body := strip s in
  let '(negative, digits) :=
    match body with
    | String "-" d => (true, d)
    | String "+" d => (false, d)
    | _ => (false, body)
    end in
  match digits_from digits 0 0 None with
  | None => bad
  | Some (z, count, rest) =>
      if int_max_str_digits <? count
      then Raise (ValueError
                    ("Exceeds the limit (4300 digits) for integer string "
                       ++ "conversion: value has " ++ repr_int count
                       ++ " digits; use sys.set_int_max_str_digits() "
                       ++ "to increase the limit"))
      else if (count =? 0) || negb (String.eqb rest "") then bad
      else Ok (if negative then - z else z)
  end.

(** PrometheusClient._parse_time_range *)
Definition _parse_time_range (time_range : string) (end_time : Z) : res Z :=
  match split_last time_range with
  | None => Raise (IndexError "string index out of range")
  | Some (init, unit) =>
      value <- int_of_str init ;;
      if Ascii.eqb unit "h" then
        d <- timedelta us_per_hour value ;; datetime_sub end_time d
      else if Ascii.eqb unit "m" then
        d <- timedelta (60 * 1000000) value ;; datetime_sub end_time d
      else if Ascii.eqb unit "d" then
        d <- timedelta (86400 * 1000000) value ;; datetime_sub end_time d
      else if Ascii.eqb unit "w" then
        d <- timedelta (7 * 86400 * 1000000) value ;; datetime_sub end_time d
      else
        d <- timedelta us_per_hour 1 ;; datetime_sub end_time d
  end.

(** What query_range reaches outside: the clock, the conversion of a
    [datetime] to epoch seconds, and the signed HTTP exchange, which
    answers with a status code and the decoded body or raises. *)
Record Transport : Type := mkTransport {
  utcnow : Z;
  timestamp : Z -> float;
  send : string -> float -> float -> string -> res (nat * RangeResponse)
}.

(** The dictionary query_range returns *)
Inductive QueryRangeResult : Type :=
| RangeOk (parsed : RangeResult) (raw : RangeResponse)
| RangeFailed (error : string).

(** PrometheusClient.query_range *)
Definition query_range (t : Transport) (query time_range step : string)
  : QueryRangeResult :=
  let body : res QueryRangeResult :=
    let end_time := utcnow t in
    start_time <- _parse_time_range time_range end_time ;;
    '(status_code, answer) <-
       send t query (timestamp t start_time) (timestamp t end_time) step ;;
    if (status_code =? 200)%nat
    then Ok (RangeOk (_parse_range_result answer) answer)
    else Ok (RangeFailed ("Query range failed: "
                            ++ repr_int (Z.of_nat status_code)))
  in
  match body with
  | Ok r => r
  | Raise e => RangeFailed (exn_str e)
  end.

End PrometheusClient.

(* ===================================================================== *)
(** ** prometheus-mcp-server/src/insight_generator.py                     *)
(* ===================================================================== *)

(** The texts of the insights are kept as the bytes of the source file. *)

Module InsightGenerator.

(** [v >= c] for a numeric constant [c]; false for NaN *)
Definition py_ge_const (v : pyval) (c : Q) : res bool :=
  match py_real v with
  | Some NotANumber => Ok false
  | Some x => Ok (negb (real_ltb x (Finite c)))
  | None => Raise (TypeError ("'>=' not supported between instances of '"
                               ++ type_name v ++ "' and 'int'"))
  end.

Section Generate.

(** [format(x, '.Nf')] of a float, the fixed-point text with [N] digits
    after the point, and [repr] of a float. *)
Variable format_fixed : nat -> float -> string.
Variable float_repr : float -> string.

(** [format(v, '.Nf')] of a value: an [int] is formatted as the float it
    converts to. *)
Definition py_format_fixed (n : nat) (v : pyval) : res string :=
  match py_number v with
  | Some k => x <- to_float k ;; Ok (format_fixed n x)
  | None =>
      match v with
      | PyStr _ =>
          Raise (ValueError "Unknown format code 'f' for object of type 'str'")
      | _ => Raise (TypeError ("unsupported format string passed to "
                                 ++ type_name v ++ ".__format__"))
      end
  end.

(** InsightGenerator._check_thresholds; [average] is not read. *)
Definition _check_thresholds (query : string) (current average : pyval)
  : res (list string) :=
  let query_lower := Str.lower query in
  memory <-
    (if Str.contains "memory" query_lower then
       b90 <- py_gt_const current 90 ;;
       if b90 then Ok ["🔴 CRITICAL: Memory usage > 90% - OOMKill risk"]
       else
         b80 <- py_gt_const current 80 ;;
         if b80 then Ok ["🟠 WARNING: Memory usage > 80%"]
         else
           b70 <- py_gt_const current 70 ;;
           Ok (if b70 then ["🟡 CAUTION: Memory usage > 70%"] else [])
     else Ok []) ;;
  cpu <-
    (if Str.contains "cpu" query_lower then
       b85 <- py_gt_const current 85 ;;
       if b85 then Ok ["🔴 CRITICAL: CPU usage > 85% - throttling likely"]
       else
         b70 <- py_gt_const current 70 ;;
         Ok (if b70 then ["🟠 WARNING: CPU usage > 70%"] else [])
     else Ok []) ;;
  latency <-
    (if Str.contains "latency" query_lower || Str.contains "duration" query_lower
     then
       b3000 <- py_gt_const current 3000 ;;
       if b3000
       then Ok ["🔴 CRITICAL: Latency > 3s - user experience severely impacted"]
       else
         b1000 <- py_gt_const current 1000 ;;
         if b1000
         then Ok ["🟠 WARNING: Latency > 1s - user experience degraded"]
         else
           b500 <- py_gt_const current 500 ;;
           Ok (if b500 then ["🟡 CAUTION: Latency > 500ms"] else [])
     else Ok []) ;;
  errors <-
    (if Str.contains "error" query_lower then
       b5 <- py_gt_const current 5 ;;
       if b5 then Ok ["🔴 CRITICAL: Error rate > 5%"]
       else
         b1 <- py_gt_const current 1 ;;
         Ok (if b1 then ["🟠 WARNING: Error rate > 1%"] else [])
     else Ok []) ;;
  Ok (memory ++ cpu ++ latency ++ errors)%list.

(** The body of the [try] of InsightGenerator.generate *)
Definition generate_body (query promql : string) (data : pyval)
  : res (list string) :=
  current_value <- py_get data "current_value" (PyInt 0) ;;
  positive <- py_gt_const current_value 0 ;;
  current_insight <-
    (if positive then
       text <- py_format_fixed 2 current_value ;;
       Ok ["Current value: " ++ text]
     else Ok []) ;;
  trend <- py_get data "trend" (PyStr "unknown") ;;
  let trend_insight :=
    if py_eq trend (PyStr "increasing")
    then ["⚠️ Metric is increasing over time - monitor closely"]
    else if py_eq trend (PyStr "decreasing")
    then ["✅ Metric is decreasing - situation improving"]
    else if py_eq trend (PyStr "stable")
    then ["ℹ️ Metric is stable"]
    else [] in
  max_value <- py_get data "max_value" (PyInt 0) ;;
  min_value <- py_get data "min_value" (PyInt 0) ;;
  avg_value <- py_get data "average_value" (PyInt 0) ;;
  max_positive <- py_gt_const max_value 0 ;;
  in_range <- (if max_positive then py_ge_const min_value 0 else Ok false) ;;
  range_insight <-
    (if in_range then
       variation <-
         (if max_positive then
            difference <- py_sub max_value min_value ;;
            ratio <- py_truediv difference max_value ;;
            Ok (PyFloat (Float.mul ratio (Float.of_Z 100)))
          else Ok (PyInt 0)) ;;
       high <- py_gt_const variation 50 ;;
       if high then
         text <- py_format_fixed 1 variation ;;
         Ok ["High variability detected: " ++ text
               ++ "% variation between min and max"]
       else Ok []
     else Ok []) ;;
  thresholds <- _check_thresholds query current_value avg_value ;;
  anomalies <- py_get data "anomalies" (PyList []) ;;
  anomaly_insight <-
    (if truthy anomalies then
       n <- py_len anomalies ;;
       Ok ["🔍 " ++ repr_int (Z.of_nat n) ++ " anomalies detected"]
     else Ok []) ;;
  series_count <- py_get data "series_count" (PyInt 0) ;;
  many <- py_gt_const series_count 10 ;;
  let series_insight :=
    if many
    then ["High cardinality: " ++ str float_repr series_count
            ++ " time series returned"]
    else [] in
  let reference := "PromQL: `" ++ promql ++ "`" in
  Ok (current_insight ++ trend_insight ++ range_insight ++ thresholds
        ++ anomaly_insight ++ series_insight ++ [reference])%list.

(** InsightGenerator.generate *)
Definition generate (query promql : string) (data : pyval) : list string :=
  match generate_body query promql data with
  | Ok insights => insights
  | Raise _ => ["Unable to generate insights"]
  end.

End Generate.

End InsightGenerator.

(* ===================================================================== *)
(** ** prometheus-mcp-server/src/server.py                                *)
(* ===================================================================== *)

Module Server.

Import QueryTranslator PrometheusClient.

(** class QueryRequest *)
Record QueryRequest : Type := mkQueryRequest {
  query : string;
  context : option pyval;
  time_range : option string
}.

(** class QueryResponse *)
Record QueryResponse : Type := mkQueryResponse {
  success : bool;
  promql_query : option string;
  data : option RangeResult;
  insights : option (list string);
  error : option string
}.

(** The dictionary of _parse_range_result as a Python value *)
Definition range_result_dict (r : RangeResult) : pyval :=
  PyDict [("current_value", current_value r);
          ("max_value", max_value r);
          ("min_value", min_value r);
          ("average_value", average_value r);
          ("trend", PyStr (trend r));
          ("values",
           PyList (map (fun s => PyDict [("metric", sd_metric s);
                                         ("values", PyList (map PyFloat (sd_values s)));
                                         ("timestamps", PyList (sd_timestamps s))])
                       (rr_values r)));
          ("series_count", PyInt (Z.of_nat (series_count r)))].

Section Endpoint.

Variable format_fixed : nat -> float -> string.
Variable float_repr : float -> string.

(** The handler of [POST /api/v1/query], with the templates of the
    translator and the transport of the client as arguments.  The step of
    the range query is the default of query_range. *)
Definition query_endpoint (templates : list Template) (t : Transport)
           (request : QueryRequest) : QueryResponse :=
  match translate templates (query request) with
  | NotTranslated e => mkQueryResponse false None None None (Some e)
  | Translated promql _ _ translated_range _ =>
      let time_range :=
        match time_range request with
        | Some r => if String.eqb r "" then translated_range else r
        | None => translated_range
        end in
      match query_range t promql time_range "15s" with
      | RangeFailed e => mkQueryResponse false None None None (Some e)
      | RangeOk parsed _ =>
          let insights :=
            InsightGenerator.generate format_fixed float_repr
              (query request) promql (range_result_dict parsed) in
          mkQueryResponse true (Some promql) (Some parsed) (Some insights) None
      end
  end.

End Endpoint.

End Server.

(* ===================================================================== *)
(** ** devops-agent/src/integrations/prometheus_mcp.py                    *)
(* ===================================================================== *)

Module PrometheusMCP.

(** PrometheusMCPClient._get_fallback_metrics *)
Definition _get_fallback_metrics : pyval :=
  PyDict [("success", PyBool false);
          ("current", PyInt 0);
          ("max", PyInt 0);
          ("min", PyInt 0);
          ("average", PyInt 0);
          ("trend", PyStr "unknown");
          ("anomalies", PyList []);
          ("promql", PyStr "");
          ("insights", PyList [PyStr "MCP server unavailable, using fallback"]);
          ("values", PyList [])].

(** PrometheusMCPClient._parse_query_result *)
Definition _parse_query_result (result : pyval) : pyval :=
  let body : res pyval :=
    data <- py_get result "data" (PyDict []) ;;
    current <- py_get data "current_value" (PyInt 0) ;;
    max <- py_get data "max_value" (PyInt 0) ;;
    min <- py_get data "min_value" (PyInt 0) ;;
    average <- py_get data "average_value" (PyInt 0) ;;
    trend <- py_get data "trend" (PyStr "unknown") ;;
    anomalies <- py_get data "anomalies" (PyList []) ;;
    promql <- py_get result "promql_query" (PyStr "") ;;
    insights <- py_get result "insights" (PyList []) ;;
    values <- py_get data "values" (PyList []) ;;
    Ok (PyDict [("success", PyBool true);
                ("current", current);
                ("max", max);
                ("min", min);
                ("average", average);
                ("trend", trend);
                ("anomalies", anomalies);
                ("promql", promql);
                ("insights", insights);
                ("values", values)]) in
  match body with
  | Ok metrics => metrics
  | Raise _ => _get_fallback_metrics
  end.

(** What one [session.post] does: it raises, or it answers with a status
    and a body whose decoding as JSON gives a value or raises. *)
Definition Exchange : Type := string -> pyval -> res (nat * res pyval).

Section Client.

Variable mcp_url : string.          (* os.getenv('PROMETHEUS_MCP_URL', ...) *)
Variable cluster_name : string.     (* os.getenv('EKS_CLUSTER_NAME', ...) *)
Variable post : Exchange.

(** PrometheusMCPClient.query *)
Definition query (natural_language_query : string) : pyval :=
  let payload :=
    PyDict [("query", PyStr natural_language_query);
            ("context", PyDict [("cluster", PyStr cluster_name)])] in
  match post (mcp_url ++ "/api/v1/query") payload with
  | Ok (status, body) =>
      if (status =? 200)%nat then
        match body with
        | Ok result => _parse_query_result result
        | Raise _ => _get_fallback_metrics
        end
      else _get_fallback_metrics
  | Raise _ => _get_fallback_metrics
  end.

(** PrometheusMCPClient.get_pod_metrics *)
Definition get_pod_metrics (pod_name namespace metric_type : string) : pyval :=
  query ("Show me " ++ metric_type ++ " usage for pod " ++ pod_name
           ++ " in namespace " ++ namespace ++ " over the last hour").

(** PrometheusMCPClient.get_service_metrics *)
Definition get_service_metrics (service_name metric_type : string) : pyval :=
  query ("Show me " ++ metric_type ++ " for service " ++ service_name
           ++ " over the last hour").

(** PrometheusMCPClient.get_node_metrics *)
Definition get_node_metrics (node_name : string) : pyval :=
  query ("Show me resource usage for node " ++ node_name ++ " over the last hour").

(** PrometheusMCPClient.detect_anomalies *)
Definition detect_anomalies (metric_name resource_name : string) : pyval :=
  query ("Detect anomalies in " ++ metric_name ++ " for " ++ resource_name).

End Client.

End PrometheusMCP.

(* ===================================================================== *)
(** ** devops-agent/src/integrations/kubernetes_client.py                 *)
(* ===================================================================== *)

Module Kubernetes.

(** What get_pods_on_node reads of a pod of the API answer: the name, the
    namespace, and the phase when the pod has a status. *)
Record ApiPod : Type := mkApiPod {
  metadata_name : pyval;
  metadata_namespace : pyval;
  status_phase : option pyval
}.

(** The answer of [list_pod_for_all_namespaces]: the items, an
    ApiException, or another exception. *)
Inductive ListAnswer : Type :=
| Listed (items : list ApiPod)
| ApiException (msg : string)
| Crashed (e : exn).

Definition pod_info (pod : ApiPod) : pyval :=
  PyDict [("name", metadata_name pod);
          ("namespace", metadata_namespace pod);
          ("phase", match status_phase pod with
                    | Some phase => phase
                    | None => PyStr "Unknown"
                    end);
          ("cpu", PyInt 0);
          ("memory", PyInt 0)].

(** KubernetesIntegration.get_pods_on_node, on an initialized client *)
Definition get_pods_on_node (list_pod_for_all_namespaces : string -> ListAnswer)
           (node_name : pyval) (float_repr : float -> string) : res pyval :=
  match list_pod_for_all_namespaces
          ("spec.nodeName=" ++ str float_repr node_name) with
  | Listed items => Ok (PyList (map pod_info items))
  | ApiException _ => Ok (PyList [])
  | Crashed e => Raise e
  end.

End Kubernetes.

(* ===================================================================== *)
(** ** devops-agent/src/event_processor.py: EventProcessor._handle_event  *)
(* ===================================================================== *)

Module EventHandler.

Import EventProcessor WorkflowEngine.

(** One call of [slack.send_notification] *)
Record Notification : Type := mkNotification {
  channel : string;
  message : string;
  severity : string;
  incident : string
}.

(** [v[:8]]; a dict raises as well (TypeError up to Python 3.11). *)
Definition py_slice8 (v : pyval) : res pyval :=
  match v with
  | PyStr s => Ok (PyStr (Str.take 8 s))
  | PyList l => Ok (PyList (firstn 8 l))
  | PyDict _ => Raise (TypeError "unhashable type: 'slice'")
  | _ => Raise (TypeError ("'" ++ type_name v ++ "' object is not subscriptable"))
  end.

Definition nl : string := String "010" "".

Section Handle.

Variable env : Env.
Variable slack_channel : string.    (* os.getenv('SLACK_CHANNEL', '#eks-incidents') *)

(** What [slack.send_notification] does with a notification: it returns
    or it raises. *)
Variable send_notification : Notification -> res unit.

Definition new_incident (incident_id : string) (event : Event) : Notification :=
  mkNotification slack_channel
    ("ðŸš¨ New incident detected: `" ++ incident_id ++ "`" ++ nl
       ++ "Source: " ++ str (float_repr env) (source event) ++ nl
       ++ "Priority: " ++ name (priority event))
    (Str.lower (name (priority event)))
    incident_id.

(** The result of execute_workflow has no ['resolution'] entry, so the
    text after "Resolution:" is the default. *)
Definition resolved (incident_id root_cause : string) : Notification :=
  mkNotification slack_channel
    ("âœ… Incident `" ++ incident_id ++ "` resolved" ++ nl
       ++ "Root cause: " ++ root_cause ++ nl
       ++ "Resolution: N/A")
    "info" incident_id.

Definition investigation_failed (incident_id error : string) : Notification :=
  mkNotification slack_channel
    ("âŒ Incident `" ++ incident_id ++ "` investigation failed" ++ nl
       ++ "Error: " ++ error)
    "high" incident_id.

Definition processing_error (incident_id : string) (e : exn) : Notification :=
  mkNotification slack_channel
    ("âš ï¸ Error processing incident `" ++ incident_id ++ "`" ++ nl
       ++ "Error: " ++ exn_str e)
    "high" incident_id.

(** The [except Exception] branch: one more notification is tried, and
    whether it raises or not is passed over. *)
Definition on_error (incident_id : string) (sent : list Notification) (e : exn)
  : list Notification :=
  (sent ++ [processing_error incident_id e])%list.

(** EventProcessor._handle_event.  The result is the list of the
    notifications that Slack was asked to send, in order; [Raise] is an
    exception that leaves the coroutine. *)
Definition _handle_event (event : Event) : res (list Notification) :=
  id8 <- py_slice8 (event_id event) ;;
  let incident_id := "INC-" ++ str (float_repr env) id8 in
  let first := new_incident incident_id event in
  match send_notification first with
  | Raise e => Ok (on_error incident_id [first] e)
  | Ok _ =>
      match _determine_workflow event with
      | Raise e => Ok (on_error incident_id [first] e)
      | Ok workflow_name =>
          let second :=
            match execute_workflow env workflow_name incident_id event with
            | Succeeded _ _ root_cause _ _ _ => resolved incident_id root_cause
            | Failed _ _ error => investigation_failed incident_id error
            | UnknownWorkflow error => investigation_failed incident_id error
            end in
          match send_notification second with
          | Raise e => Ok (on_error incident_id [first; second] e)
          | Ok _ => Ok [first; second]
          end
      end
  end.

End Handle.

End EventHandler.

(* ===================================================================== *)
(** * Part II.  Properties                                                *)
(* ===================================================================== *)

Import EventProcessor.

(** ** Event priority *)

Section Priority.

Lemma py_eq_str_true (v : pyval) (s : string) :
  py_eq_str v s = true <-> v = PyStr s.
Proof.
  destruct v; simpl; split; intro H; try discriminate.
  - apply String.eqb_eq in H. now subst.
  - injection H as ->. apply String.eqb_refl.
Qed.

Lemma py_eq_str_false (v : pyval) (s : string) :
  v <> PyStr s -> py_eq_str v s = false.
Proof.
  intro H. destruct (py_eq_str v s) eqn:E; [|reflexivity].
  apply py_eq_str_true in E. contradiction.
Qed.

Definition critical_keywords : list string := ["critical"; "oom"; "node"; "down"].

(** The value of [detail.state.value] and of [detail.alarmName] once the
    defaults of [dict.get] are applied. *)
Definition state_value (st : list (string * pyval)) : pyval :=
  match dict_get "value" st with Some v => v | None => PyStr "" end.

(** The priority that the rule of the data model gives. *)
Definition priority_rule (state_value : pyval) (alarm_name : string)
  : EventPriority :=
  if py_eq_str state_value "ALARM" then
    if Str.contains_any critical_keywords (Str.lower alarm_name)
    then CRITICAL else HIGH
  else MEDIUM.

Lemma determine_priority_eq (d st : list (string * pyval)) (nm : string) :
  (dict_get "state" d = Some (PyDict st)
   \/ (dict_get "state" d = None /\ st = [])) ->
  (dict_get "alarmName" d = Some (PyStr nm)
   \/ (dict_get "alarmName" d = None /\ nm = "")) ->
  _determine_priority (PyDict d) = Ok (priority_rule (state_value st) nm).
Proof.
  intros Hst Hnm.
  unfold _determine_priority, priority_rule, state_value. simpl.
  assert (E1 : match dict_get "state" d with
               | Some x => x | None => PyDict [] end = PyDict st).
  { destruct Hst as [-> | [-> ->]]; reflexivity. }
  rewrite E1. simpl.
  destruct (py_eq_str _ "ALARM"); [|reflexivity].
  simpl.
  assert (E2 : match dict_get "alarmName" d with
               | Some x => x | None => PyStr "" end = PyStr nm).
  { destruct Hnm as [-> | [-> ->]]; reflexivity. }
  rewrite E2. simpl.
  unfold critical_keywords, Str.contains_any. simpl.
  match goal with |- context [if ?b then _ else _] => destruct b end;
    reflexivity.
Qed.

(** C6.  The priority of an event is a function of its payload alone.  For
    a payload whose [detail] has [state] absent or a dictionary and
    [alarmName] absent or a string: when [state.value] is ["ALARM"] and the
    lowercased alarm name contains one of critical, oom, node, down the
    priority is CRITICAL; when [state.value] is ["ALARM"] otherwise it is
    HIGH; in every other case it is MEDIUM.  Two events built from the same
    payload, at whatever clock readings, carry the same priority. *)
Theorem determine_priority_rule (d st : list (string * pyval)) (nm : string) :
  (dict_get "state" d = Some (PyDict st)
   \/ (dict_get "state" d = None /\ st = [])) ->
  (dict_get "alarmName" d = Some (PyStr nm)
   \/ (dict_get "alarmName" d = None /\ nm = "")) ->
  (state_value st = PyStr "ALARM" ->
   Str.contains_any critical_keywords (Str.lower nm) = true ->
   _determine_priority (PyDict d) = Ok CRITICAL)
  /\ (state_value st = PyStr "ALARM" ->
      Str.contains_any critical_keywords (Str.lower nm) = false ->
      _determine_priority (PyDict d) = Ok HIGH)
  /\ (state_value st <> PyStr "ALARM" ->
      _determine_priority (PyDict d) = Ok MEDIUM)
  /\ (forall (payload : list (string * pyval)) (now1 now2 : string)
             (e1 e2 : Event),
         dict_get "detail" payload = Some (PyDict d) ->
         Event_init now1 (PyDict payload) = Ok e1 ->
         Event_init now2 (PyDict payload) = Ok e2 ->
         priority e1 = priority e2
         /\ priority e1 = priority_rule (state_value st) nm).
Proof.
  intros Hst Hnm.
  pose proof (determine_priority_eq d st nm Hst Hnm) as E.
  repeat split.
  - intros Hv Hk. rewrite E. unfold priority_rule.
    rewrite Hv, Hk. reflexivity.
  - intros Hv Hk. rewrite E. unfold priority_rule.
    rewrite Hv, Hk. reflexivity.
  - intros Hv. rewrite E. unfold priority_rule.
    rewrite (py_eq_str_false _ _ Hv). reflexivity.
  - unfold Event_init in H0, H1. simpl in H0, H1.
    rewrite H in H0, H1. rewrite E in H0, H1. simpl in H0, H1.
    injection H0 as <-. injection H1 as <-. reflexivity.
  - unfold Event_init in H0. simpl in H0.
    rewrite H in H0. rewrite E in H0. simpl in H0.
    injection H0 as <-. reflexivity.
Qed.

Definition s1_state : list (string * pyval) := [("value", PyStr "ALARM")].
Definition s1_detail : list (string * pyval) :=
  [("alarmName", PyStr "pod-oom-critical"); ("state", PyDict s1_state)].

Lemma determine_priority_rule_witness :
  _determine_priority (PyDict s1_detail) = Ok CRITICAL.
Proof.
  exact (proj1 (determine_priority_rule s1_detail s1_state "pod-oom-critical"
                  (or_introl eq_refl) (or_introl eq_refl))
               eq_refl eq_refl).
Defined.

End Priority.

(** ** Parsing of range answers and time ranges *)

Section RangeParsing.

Import PrometheusClient.

(** C9.  A range answer whose result list is empty (also when [result] or
    [data] is missing from the answer) is parsed to current = 0, max = 0,
    min = 0, average = 0, trend = "unknown", no values and
    series_count = 0. *)
Theorem parse_range_result_empty :
  let empty :=
    mkRangeResult (PyInt 0) (PyInt 0) (PyInt 0) (PyInt 0) "unknown" [] 0 in
  _parse_range_result (mkRangeResponse (Some (mkRangeData (Some [])))) = empty
  /\ _parse_range_result (mkRangeResponse (Some (mkRangeData None))) = empty
  /\ _parse_range_result (mkRangeResponse None) = empty.
Proof.
  repeat split.
Qed.

Lemma split_last_snoc (s : string) (c : ascii) :
  split_last (s ++ String c "") = Some (s, c).
Proof.
  induction s as [|a s IH]; simpl.
  - reflexivity.
  - rewrite IH. destruct (s ++ String c "") eqn:E.
    + destruct s; discriminate.
    + reflexivity.
Qed.

Lemma datetime_sub_ok (end_time delta : Z) :
  (0 <= end_time - delta <= datetime_max)%Z ->
  datetime_sub end_time delta = Ok (end_time - delta)%Z.
Proof.
  intros [H1 H2]. unfold datetime_sub.
  apply Z.leb_le in H1, H2. rewrite H1, H2. reflexivity.
Qed.

(** The start of the window when the unit is none of h, m, d, w. *)
Lemma parse_time_range_other_unit (init : string) (unit : ascii) (v now : Z) :
  int_of_str init = Ok v ->
  unit <> "h"%char -> unit <> "m"%char -> unit <> "d"%char -> unit <> "w"%char ->
  (us_per_hour <= now <= datetime_max)%Z ->
  _parse_time_range (init ++ String unit "") now = Ok (now - us_per_hour)%Z.
Proof.
  intros Hint Hh Hm Hd Hw Hnow.
  unfold _parse_time_range. rewrite split_last_snoc, Hint.
  cbv beta iota delta [bind].
  apply Ascii.eqb_neq in Hh, Hm, Hd, Hw.
  rewrite Hh, Hm, Hd, Hw.
  change (timedelta us_per_hour 1) with (Ok us_per_hour).
  cbv beta iota delta [bind].
  apply datetime_sub_ok. unfold us_per_hour, datetime_max in *. lia.
Qed.

Lemma parse_time_range_1h (now : Z) :
  (us_per_hour <= now <= datetime_max)%Z ->
  _parse_time_range "1h" now = Ok (now - us_per_hour)%Z.
Proof.
  intros Hnow. unfold _parse_time_range.
  change (split_last "1h") with (Some ("1", "h"%char)).
  change (int_of_str "1") with (Ok 1%Z).
  cbv beta iota delta [bind].
  change (Ascii.eqb "h" "h") with true. cbv iota.
  change (timedelta us_per_hour 1) with (Ok us_per_hour).
  cbv beta iota delta [bind].
  apply datetime_sub_ok. unfold us_per_hour, datetime_max in *. lia.
Qed.

(** What [query_range] answers once the window is known: the exchange is
    made over the window, and its outcome decides. *)
Definition exchange_over (t : Transport) (query step : string) (start : Z)
  : QueryRangeResult :=
  match send t query (timestamp t start) (timestamp t (utcnow t)) step with
  | Ok (status_code, answer) =>
      if (status_code =? 200)%nat
      then RangeOk (_parse_range_result answer) answer
      else RangeFailed ("Query range failed: " ++ repr_int (Z.of_nat status_code))
  | Raise e => RangeFailed (exn_str e)
  end.

Lemma query_range_window (t : Transport) (query time_range step : string)
      (start : Z) :
  _parse_time_range time_range (utcnow t) = Ok start ->
  query_range t query time_range step = exchange_over t query step start.
Proof.
  intro E. unfold query_range, exchange_over. rewrite E.
  cbv beta iota delta [bind].
  destruct (send t query (timestamp t start) (timestamp t (utcnow t)) step)
    as [[status_code answer]|e]; [|reflexivity].
  destruct (status_code =? 200)%nat; reflexivity.
Qed.

(** C10.  For a time range made of an integer followed by a unit character
    that is none of h, m, d, w, the time range makes nothing fail:
    [_parse_time_range] returns the end minus one hour, which is also what
    it returns for the default ["1h"]; [query_range] sends its request with
    that start and the end, and answers with the parsed data whenever the
    exchange answers with status 200.  What [query_range] answers is in
    every case what the exchange over that window gives, as for ["1h"]. *)
Theorem query_range_unknown_unit_is_one_hour
        (t : Transport) (query step init : string) (unit : ascii) (v : Z) :
  int_of_str init = Ok v ->
  unit <> "h"%char -> unit <> "m"%char -> unit <> "d"%char -> unit <> "w"%char ->
  (us_per_hour <= utcnow t <= datetime_max)%Z ->
  let start := (utcnow t - us_per_hour)%Z in
  _parse_time_range (init ++ String unit "") (utcnow t) = Ok start
  /\ _parse_time_range "1h" (utcnow t) = Ok start
  /\ (forall answer,
         send t query (timestamp t start) (timestamp t (utcnow t)) step
         = Ok (200, answer) ->
         query_range t query (init ++ String unit "") step
         = RangeOk (_parse_range_result answer) answer)
  /\ query_range t query (init ++ String unit "") step
     = exchange_over t query step start
  /\ query_range t query (init ++ String unit "") step
     = query_range t query "1h" step.
Proof.
  intros Hint Hh Hm Hd Hw Hnow start.
  pose proof (parse_time_range_other_unit init unit v (utcnow t)
                Hint Hh Hm Hd Hw Hnow) as E.
  pose proof (parse_time_range_1h _ Hnow) as E1.
  pose proof (query_range_window t query _ step _ E) as Q.
  split; [exact E|]. split; [exact E1|].
  split; [|split; [exact Q|]].
  - intros answer Hsend. rewrite Q. unfold exchange_over.
    fold start. rewrite Hsend. reflexivity.
  - rewrite Q. symmetry. now apply query_range_window.
Qed.

(** A transport whose clock reads 2026-01-01T00:00:00 and whose exchange
    answers 200 with an empty result. *)
Definition quiet_transport : Transport :=
  mkTransport 63902822400000000%Z
              (fun us => Float.of_quotient us 1000000)
              (fun _ _ _ _ => Ok (200, mkRangeResponse (Some (mkRangeData (Some []))))).

Lemma query_range_unknown_unit_is_one_hour_witness :
  let t := quiet_transport in
  let start := (utcnow t - us_per_hour)%Z in
  _parse_time_range "45s" (utcnow t) = Ok start
  /\ _parse_time_range "1h" (utcnow t) = Ok start
  /\ (forall answer,
         send t "up" (timestamp t start) (timestamp t (utcnow t)) "15s"
         = Ok (200, answer) ->
         query_range t "up" "45s" "15s"
         = RangeOk (_parse_range_result answer) answer)
  /\ query_range t "up" "45s" "15s" = exchange_over t "up" "15s" start
  /\ query_range t "up" "45s" "15s" = query_range t "up" "1h" "15s".
Proof.
  refine (query_range_unknown_unit_is_one_hour
            quiet_transport "up" "15s" "45" "s"%char 45 eq_refl _ _ _ _ _);
    try discriminate.
  split; discriminate.
Defined.

End RangeParsing.

(** ** Trend of a series *)

Section Trend.

Import PrometheusClient.

(** A range answer with one series, whose samples are the floats of the
    given integers, one at every second. *)
Definition one_series (samples : list Z) : RangeResponse :=
  mkRangeResponse
    (Some (mkRangeData
             (Some [mkSeries (PyDict [])
                             (combine (map PyInt (map Z.of_nat
                                                     (seq 1 (List.length samples))))
                                      (map Float.of_Z samples))]))).

(** The answer of scenario S6 *)
Definition s6_response : RangeResponse := one_series [10; 10; 30; 30]%Z.

(** On the series of S6 the code gives what the specification says:
    current 30, min 10, max 30, average 20 and trend "increasing". *)
Lemma s6_statistics :
  let r := _parse_range_result s6_response in
  current_value r = PyFloat (Float.of_Z 30)
  /\ min_value r = PyFloat (Float.of_Z 10)
  /\ max_value r = PyFloat (Float.of_Z 30)
  /\ average_value r = PyFloat (Float.of_Z 20)
  /\ trend r = "increasing"
  /\ series_count r = 1.
Proof.
  repeat split; vm_compute; reflexivity.
Qed.

(** C5, on the code.  A constant series yields "stable" only when its
    value is not negative.  The thresholds are the multiples 1.1 f and
    0.9 f of the mean f of the first half, whatever the sign of f: for
    four samples of -10 both halves have the mean -10, the test
    -10 > -10 * 1.1 = -11 succeeds, and the trend is "increasing".  The
    same series with the value 10 yields "stable", and a list of fewer
    than two samples, whatever they are, has the trend "unknown". *)
Theorem constant_negative_series_is_increasing :
  _calculate_trend (map Float.of_Z [-10; -10; -10; -10]%Z) = "increasing"
  /\ trend (_parse_range_result (one_series [-10; -10; -10; -10]%Z))
     = "increasing"
  /\ _calculate_trend (map Float.of_Z [10; 10; 10; 10]%Z) = "stable"
  /\ _calculate_trend [] = "unknown"
  /\ forall x : float, _calculate_trend [x] = "unknown".
Proof.
  repeat split; vm_compute; reflexivity.
Qed.

End Trend.

(** ** The query translator *)

Section Translator.

Import QueryTranslator.

(** The number of capturing groups of a compiled pattern. *)
Definition group_count (r : Re.regex) : nat :=
  List.length (filter (fun n => match n with Re.GroupClose => true | _ => false end) r).

(** A successful match has captured every group of the pattern. *)
Lemma match_here_caps (r : Re.regex) :
  forall (s : string) (caps : list string) (cur : option string)
         (caps' : list string),
    Re.match_here r s caps cur = Some caps' ->
    List.length caps' = List.length caps + group_count r.
Proof.
  induction r as [|n r IH]; intros s caps cur caps' H.
  - simpl in H. injection H as <-. unfold group_count. simpl. lia.
  - destruct n as [cls q | | ].
    + change (group_count (Re.Atom cls q :: r)) with (group_count r).
      assert (Hstar : forall s cur,
                 (fix star (s : string) (cur : option string) {struct s}
                    : option (list string) :=
                    match s with
                    | String c s' =>
                        if Re.class_match cls c then
                          match star s' (Re.push c cur) with
                          | Some m => Some m
                          | None => Re.match_here r s caps cur
                          end
                        else Re.match_here r s caps cur
                    | EmptyString => Re.match_here r s caps cur
                    end) s cur = Some caps' ->
                 List.length caps' = List.length caps + group_count r).
      { clear H s cur. induction s as [|c s IHs]; intros cur H.
        - now apply IH in H.
        - destruct (Re.class_match cls c).
          + destruct ((fix star (s : string) (cur : option string) {struct s}
                         : option (list string) :=
                         match s with
                         | String c s' =>
                             if Re.class_match cls c then
                               match star s' (Re.push c cur) with
                               | Some m => Some m
                               | None => Re.match_here r s caps cur
                               end
                             else Re.match_here r s caps cur
                         | EmptyString => Re.match_here r s caps cur
                         end) s (Re.push c cur)) eqn:E.
            * injection H as <-. now apply IHs in E.
            * now apply IH in H.
          + now apply IH in H. }
      destruct q; cbn [Re.match_here] in H.
      * destruct s as [|c s]; [discriminate|].
        destruct (Re.class_match cls c); [|discriminate].
        now apply IH in H.
      * now apply Hstar in H.
      * destruct s as [|c s]; [discriminate|].
        destruct (Re.class_match cls c); [|discriminate].
        now apply Hstar in H.
    + change (group_count (Re.GroupOpen :: r)) with (group_count r).
      simpl in H. now apply IH in H.
    + change (group_count (Re.GroupClose :: r)) with (S (group_count r)).
      simpl in H. destruct cur as [acc|]; [|discriminate].
      apply IH in H. rewrite H, length_app. simpl. lia.
Qed.

Lemma search_from_caps (r : Re.regex) (s : string) (m : Re.Match) :
  Re.search_from r s = Some m -> List.length (Re.groups m) = group_count r.
Proof.
  induction s as [|c s IH]; simpl; intro H.
  - destruct (Re.match_here r "" [] None) eqn:E; [|discriminate].
    injection H as <-. now apply match_here_caps in E.
  - destruct (Re.match_here r (String c s) [] None) eqn:E.
    + injection H as <-. now apply match_here_caps in E.
    + now apply IH.
Qed.

Lemma search_groups (pattern s : string) (r : Re.regex) (m : Re.Match) :
  Re.parse pattern = Ok r ->
  Re.search pattern s = Ok (Some m) ->
  List.length (Re.groups m) = group_count r.
Proof.
  intros Hp Hs. unfold Re.search in Hs. rewrite Hp in Hs. simpl in Hs.
  injection Hs as Hs. now apply search_from_caps in Hs.
Qed.

(** Templates that do not match are passed over, in order. *)
Lemma scan_templates_skip (before rest : list Template) (query ql : string) :
  Forall (fun u => Re.search (pattern u) ql = Ok None) before ->
  scan_templates (before ++ rest) query ql = scan_templates rest query ql.
Proof.
  induction 1 as [|u before Hu _ IH]; [reflexivity|].
  simpl. rewrite Hu. simpl. exact IH.
Qed.

Lemma scan_templates_hit (t : Template) (rest : list Template)
      (query ql : string) (m : Re.Match) :
  Re.search (pattern t) ql = Ok (Some m) ->
  scan_templates (t :: rest) query ql
  = (params <- _extract_parameters m t ;;
     promql <- format (promql t) params ;;
     Ok (Some (Translated promql (description t) (category t)
                          (_extract_time_range query) (Some params)))).
Proof.
  intro H. simpl. rewrite H. reflexivity.
Qed.

(** Every template of the table compiles, and has one capturing group. *)
Lemma load_templates_one_group (t : Template) :
  In t _load_templates ->
  exists r, Re.parse (pattern t) = Ok r /\ group_count r = 1.
Proof.
  intro H. simpl in H.
  repeat (destruct H as [<- | H];
          [eexists; split; [vm_compute; reflexivity | reflexivity] |]).
  contradiction.
Qed.

(** With one captured group [g], every template of the table gets its
    parameters from [g] and its PromQL text is formatted without error. *)
Lemma load_templates_fill (t : Template) (g : string) :
  In t _load_templates ->
  exists params promql,
    _extract_parameters (Re.mkMatch [g]) t = Ok params
    /\ params <> []
    /\ (forall k v, In (k, v) params -> v = g)
    /\ format (QueryTranslator.promql t) params = Ok promql.
Proof.
  intro H. simpl in H.
  repeat (destruct H as [<- | H];
          [eexists; eexists; split; [cbv; reflexivity|];
           split; [discriminate|];
           split; [intros k v Hin; simpl in Hin;
                   repeat (destruct Hin as [Hin | Hin];
                           [now injection Hin|]); contradiction
                  | cbv; reflexivity] |]).
  contradiction.
Qed.

Definition s4_query : string :=
  "Show me memory usage for pod foo over the last hour".

(** C4.  The query of scenario S4 is translated to
    container_memory_usage_bytes{pod="foo"} with time range 1h.  In
    general the templates are tried in their order; the first one whose
    pattern matches the lowercased query gives the answer, whatever follows
    it in the list; for a template of the table the captured group is the
    value of every extracted parameter, and the PromQL text is the
    template's text formatted with these parameters. *)
Theorem translate_first_match :
  translate _load_templates s4_query
  = Translated ("container_memory_usage_bytes{pod=" ++ dq ++ "foo" ++ dq ++ "}")
               "Memory usage for a specific pod" "memory" "1h"
               (Some [("pod_name", "foo")])
  /\ forall (before after : list Template) (t : Template) (query : string)
            (m : Re.Match),
      Forall (fun u => Re.search (pattern u) (Str.lower query) = Ok None) before ->
      In t _load_templates ->
      Re.search (pattern t) (Str.lower query) = Ok (Some m) ->
      exists g params promql,
        Re.groups m = [g]
        /\ _extract_parameters m t = Ok params
        /\ params <> []
        /\ (forall k v, In (k, v) params -> v = g)
        /\ format (QueryTranslator.promql t) params = Ok promql
        /\ translate (before ++ t :: after) query
           = Translated promql (description t) (category t)
                        (_extract_time_range query) (Some params).
Proof.
  split; [vm_compute; reflexivity|].
  intros before after t query m Hbefore Hin Hm.
  destruct (load_templates_one_group t Hin) as (r & Hr & Hcount).
  pose proof (search_groups _ _ _ _ Hr Hm) as Hlen. rewrite Hcount in Hlen.
  destruct m as [gs]. simpl in Hlen.
  destruct gs as [|g [|g' gs]]; try discriminate. clear Hlen.
  destruct (load_templates_fill t g Hin) as (params & p & Hp & Hne & Hall & Hf).
  exists g, params, p. repeat split; try assumption.
  unfold translate. rewrite (scan_templates_skip _ _ _ _ Hbefore).
  rewrite (scan_templates_hit _ _ _ _ _ Hm), Hp. simpl. rewrite Hf. reflexivity.
Qed.

Lemma translate_first_match_witness :
  exists g params promql,
    Re.groups (Re.mkMatch ["bar"]) = [g]
    /\ _extract_parameters (Re.mkMatch ["bar"])
                           (mkTemplate "request rate.*service\s+(\S+)"
                              ("rate(http_requests_total{{service=" ++ dq
                                 ++ "{service_name}" ++ dq ++ "}}[5m])")
                              "Request rate for a service" "requests")
       = Ok params
    /\ params <> []
    /\ (forall k v, In (k, v) params -> v = g)
    /\ format ("rate(http_requests_total{{service=" ++ dq
                 ++ "{service_name}" ++ dq ++ "}}[5m])") params = Ok promql
    /\ translate _load_templates "Show me request rate for service bar"
       = Translated promql "Request rate for a service" "requests" "1h"
                    (Some params).
Proof.
  refine (proj2 translate_first_match
                (firstn 4 _load_templates) (skipn 5 _load_templates)
                (mkTemplate "request rate.*service\s+(\S+)"
                            ("rate(http_requests_total{{service=" ++ dq
                               ++ "{service_name}" ++ dq ++ "}}[5m])")
                            "Request rate for a service" "requests")
                "Show me request rate for service bar"
                (Re.mkMatch ["bar"]) _ _ _).
  - repeat constructor.
  - simpl. do 4 right. left. reflexivity.
  - vm_compute. reflexivity.
Defined.

Definition mentions_parameter (promql : string) : bool :=
  Str.contains "pod" promql || Str.contains "namespace" promql
  || Str.contains "service" promql || Str.contains "node" promql.

Definition lastindex_error : string :=
  "'>=' not supported between instances of 'NoneType' and 'int'".

(** Without a group, the first parameter that is looked for stops the
    extraction. *)
Lemma extract_parameters_groupless (t : Template) :
  _extract_parameters (Re.mkMatch []) t
  = if mentions_parameter (promql t)
    then Raise (TypeError lastindex_error) else Ok [].
Proof.
  unfold _extract_parameters, mentions_parameter, group1_if_any. simpl.
  destruct (Str.contains "pod" (promql t)); [reflexivity|].
  destruct (Str.contains "namespace" (promql t)); [reflexivity|].
  destruct (Str.contains "service" (promql t)); [reflexivity|].
  destruct (Str.contains "node" (promql t)); reflexivity.
Qed.

(** C8.  A template misses its capture group when its PromQL text names
    one of the parameters pod, namespace, service, node, which
    _extract_parameters fills from the group, and its pattern has no
    group.  For every query that such a template is the first to match,
    translate returns a failure with an error text and does not raise:
    the exception of the extraction is caught and becomes the error. *)
Theorem translate_groupless_template
        (before after : list Template) (t : Template) (query : string)
        (r : Re.regex) (m : Re.Match) :
  Forall (fun u => Re.search (pattern u) (Str.lower query) = Ok None) before ->
  Re.parse (pattern t) = Ok r ->
  group_count r = 0 ->
  mentions_parameter (promql t) = true ->
  Re.search (pattern t) (Str.lower query) = Ok (Some m) ->
  _extract_parameters m t = Raise (TypeError lastindex_error)
  /\ translate (before ++ t :: after) query = NotTranslated lastindex_error.
Proof.
  intros Hbefore Hr Hcount Hneeds Hm.
  pose proof (search_groups _ _ _ _ Hr Hm) as Hlen. rewrite Hcount in Hlen.
  destruct m as [gs]. simpl in Hlen. destruct gs; [|discriminate]. clear Hlen.
  assert (E : _extract_parameters (Re.mkMatch []) t
              = Raise (TypeError lastindex_error))
    by (now rewrite extract_parameters_groupless, Hneeds).
  split; [exact E|].
  unfold translate. rewrite (scan_templates_skip _ _ _ _ Hbefore).
  rewrite (scan_templates_hit _ _ _ _ _ Hm), E. reflexivity.
Qed.

Definition pod_info_template : Template :=
  mkTemplate "how many pods" "count(kube_pod_info)" "Number of pods" "pods".

Lemma translate_groupless_template_witness :
  _extract_parameters (Re.mkMatch []) pod_info_template
  = Raise (TypeError lastindex_error)
  /\ translate (firstn 3 _load_templates ++ pod_info_template
                  :: skipn 3 _load_templates)
               "How many pods are there"
     = NotTranslated lastindex_error.
Proof.
  refine (translate_groupless_template
            (firstn 3 _load_templates) (skipn 3 _load_templates)
            pod_info_template "How many pods are there"
            [Re.Atom (Re.CChar "h") Re.QOne; Re.Atom (Re.CChar "o") Re.QOne;
             Re.Atom (Re.CChar "w") Re.QOne; Re.Atom (Re.CChar " ") Re.QOne;
             Re.Atom (Re.CChar "m") Re.QOne; Re.Atom (Re.CChar "a") Re.QOne;
             Re.Atom (Re.CChar "n") Re.QOne; Re.Atom (Re.CChar "y") Re.QOne;
             Re.Atom (Re.CChar " ") Re.QOne; Re.Atom (Re.CChar "p") Re.QOne;
             Re.Atom (Re.CChar "o") Re.QOne; Re.Atom (Re.CChar "d") Re.QOne;
             Re.Atom (Re.CChar "s") Re.QOne]
            (Re.mkMatch []) _ _ _ _ _).
  - repeat constructor.
  - vm_compute. reflexivity.
  - reflexivity.
  - reflexivity.
  - vm_compute. reflexivity.
Defined.

End Translator.

(** ** The workflow engine *)

(** Inverts an equation [h ctx = Ok (r, ctx')] on the body of a step
    handler: every bind must have succeeded, and every branch is visited. *)
Ltac step_inv H :=
  repeat match type of H with
         | context [bind ?m _] =>
             let E := fresh "E" in
             destruct m eqn:E; cbn [bind] in H; [|discriminate H]
         | context [if ?b then _ else _] => destruct b
         | Ok _ = Ok _ => injection H as <- <-
         end.

Section Workflow.

Import WorkflowEngine.

Variable env : Env.

(** A step handler leaves the findings and the workflow name alone. *)
Definition keeps_findings (h : Context -> step_result) : Prop :=
  forall ctx r ctx',
    h ctx = Ok (r, ctx') ->
    findings ctx' = findings ctx /\ workflow_name ctx' = workflow_name ctx.

Ltac keeps h :=
  intros ctx r ctx' H; unfold h in H; step_inv H; split; reflexivity.

Lemma all_handlers_keep_findings :
  Forall (fun kv => keeps_findings (snd kv)) (step_handlers env).
Proof.
  unfold step_handlers.
  repeat (apply Forall_cons; [cbn [snd] | ]); try apply Forall_nil.
  - keeps _identify_pod.
  - keeps _identify_service.
  - keeps _identify_node.
  - keeps _identify_resource.
  - keeps _collect_memory_metrics.
  - keeps _collect_cpu_metrics.
  - keeps _collect_latency_metrics.
  - keeps _collect_node_metrics.
  - keeps _collect_generic_metrics.
  - keeps _check_oom_events.
  - keeps _check_cpu_throttling.
  - keeps _analyze_traces.
  - keeps _analyze_memory_trend.
  - keeps _analyze_request_patterns.
  - keeps _review_recent_changes.
  - intros ctx r ctx' H; unfold _review_resource_limits in H.
    step_inv H. split; reflexivity.
  - keeps _check_dependencies.
  - keeps _correlate_with_resources.
  - keeps _list_pods_on_node.
  - keeps _check_resource_usage.
  - keeps _analyze_evictions.
  - keeps _collect_pod_events.
  - keeps _analyze_logs.
  - keeps _check_restart_count.
  - keeps _analyze_patterns.
  - keeps _recommend_remediation.
  - keeps _recommend_actions.
Qed.

Lemma dict_get_In {V} (k : string) (d : list (string * V)) (v : V) :
  dict_get k d = Some v -> In (k, v) d.
Proof.
  induction d as [|[k' v'] d IH]; simpl; [discriminate|].
  destruct (String.eqb k k') eqn:E.
  - intro H. injection H as <-. apply String.eqb_eq in E. subst. now left.
  - intro H. right. now apply IH.
Qed.

Lemma execute_step_keeps_findings (step : string) :
  keeps_findings (_execute_step env step).
Proof.
  intros ctx r ctx' H. unfold _execute_step in H.
  destruct (dict_get step (step_handlers env)) as [h|] eqn:E.
  - apply dict_get_In in E.
    pose proof all_handlers_keep_findings as A.
    rewrite Forall_forall in A. exact (A _ E ctx r ctx' H).
  - injection H as <- <-. split; reflexivity.
Qed.

(** The step that a finding records. *)
Definition finding_step (f : pyval) : string :=
  match f with
  | PyDict (("step", PyStr s) :: _) => s
  | _ => ""
  end.

(** The loop appends one finding per executed step, in the order of the
    steps, and executes a prefix of them. *)
Lemma run_steps_findings (steps : list string) :
  forall n ctx n' ctx',
    run_steps env steps n ctx = Ok (n', ctx') ->
    exists new,
      findings ctx' = (findings ctx ++ new)%list
      /\ map finding_step new = firstn (List.length new) steps
      /\ List.length new <= List.length steps
      /\ workflow_name ctx' = workflow_name ctx.
Proof.
  induction steps as [|step steps IH]; intros n ctx n' ctx' H.
  - simpl in H. injection H as <- <-. exists []. rewrite app_nil_r.
    repeat split; auto.
  - cbn [run_steps] in H.
    destruct (_execute_step env step ctx) as [[r ctx1]|] eqn:E;
      cbn [bind] in H; [|discriminate H].
    destruct (execute_step_keeps_findings step _ _ _ E) as [Hf Hw].
    destruct (py_get r "continue" (PyBool true)) as [c|] eqn:Ec;
      cbn [bind] in H; [|discriminate H].
    set (f := PyDict [("step", PyStr step); ("result", r);
                      ("timestamp", PyStr (isoformat env (clock env n)))]) in *.
    destruct (negb (truthy c)).
    + injection H as <- <-. exists [f]. cbn. rewrite Hf.
      repeat split; auto. lia.
    + apply IH in H. destruct H as (new & H1 & H2 & H3 & H4).
      exists (f :: new). cbn in H1, H4 |- *.
      rewrite H1, Hf, <- app_assoc, H2, H4, Hw. repeat split; auto. lia.
Qed.

Lemma generate_recommendations_nonempty (ctx : Context) (rc : option string) :
  _generate_recommendations ctx rc <> [].
Proof.
  unfold _generate_recommendations.
  repeat match goal with
         | |- context [if ?b then _ else _] => destruct b
         end; discriminate.
Qed.

(** C7.  When a workflow execution finishes with a result that carries a
    root cause, the findings are at most as many as the steps of the
    workflow, they record a prefix of these steps in their order (one
    finding per executed step), and the recommendations are not empty. *)
Theorem execute_workflow_findings_and_recommendations
        (wf inc : string) (ev : Event)
        (iid w rc : string) (recs : list string) (dur : float) (fs : list pyval) :
  execute_workflow env wf inc ev = Succeeded iid w rc recs dur fs ->
  exists title steps,
    dict_get wf _load_workflows = Some (title, steps)
    /\ List.length fs <= List.length steps
    /\ map finding_step fs = firstn (List.length fs) steps
    /\ recs <> [].
Proof.
  unfold execute_workflow. intro H.
  destruct (dict_get wf _load_workflows) as [[title steps]|] eqn:E;
    [|discriminate H].
  destruct (run_steps env steps 1 _) as [[n ctx]|] eqn:R; [|discriminate H].
  injection H as _ _ _ Hrecs _ Hfs.
  apply run_steps_findings in R. destruct R as (new & H1 & H2 & H3 & _).
  cbn in H1. rewrite H1 in Hfs. subst fs.
  exists title, steps. repeat split; auto.
  rewrite <- Hrecs. apply generate_recommendations_nonempty.
Qed.

End Workflow.

(** ** The root cause of a memory-leak investigation *)

Section RootCause.

Import WorkflowEngine.

Variable env : Env.

(** No step handler puts a ['continue'] entry in its result, so the loop
    of execute_workflow never breaks. *)
Definition never_stops (h : Context -> step_result) : Prop :=
  forall ctx r ctx',
    h ctx = Ok (r, ctx') -> py_get r "continue" (PyBool true) = Ok (PyBool true).

Ltac stops h :=
  intros ctx r ctx' H; unfold h in H; step_inv H; reflexivity.

Lemma all_handlers_never_stop :
  Forall (fun kv => never_stops (snd kv)) (step_handlers env).
Proof.
  unfold step_handlers.
  repeat (apply Forall_cons; [cbn [snd] | ]); try apply Forall_nil.
  - stops _identify_pod.
  - stops _identify_service.
  - stops _identify_node.
  - stops _identify_resource.
  - stops _collect_memory_metrics.
  - stops _collect_cpu_metrics.
  - stops _collect_latency_metrics.
  - stops _collect_node_metrics.
  - stops _collect_generic_metrics.
  - stops _check_oom_events.
  - stops _check_cpu_throttling.
  - stops _analyze_traces.
  - stops _analyze_memory_trend.
  - stops _analyze_request_patterns.
  - stops _review_recent_changes.
  - stops _review_resource_limits.
  - stops _check_dependencies.
  - stops _correlate_with_resources.
  - stops _list_pods_on_node.
  - stops _check_resource_usage.
  - stops _analyze_evictions.
  - stops _collect_pod_events.
  - stops _analyze_logs.
  - stops _check_restart_count.
  - stops _analyze_patterns.
  - stops _recommend_remediation.
  - stops _recommend_actions.
Qed.

Lemma execute_step_never_stops (step : string) :
  never_stops (_execute_step env step).
Proof.
  intros ctx r ctx' H. unfold _execute_step in H.
  destruct (dict_get step (step_handlers env)) as [h|] eqn:E.
  - apply dict_get_In in E.
    pose proof all_handlers_never_stop as A.
    rewrite Forall_forall in A. exact (A _ E ctx r ctx' H).
  - injection H as <- <-. reflexivity.
Qed.

(** [f] is the finding that the loop records for [step]. *)
Definition records (step : string) (f : pyval) : Prop :=
  exists ctx1 r ctx2 ts,
    _execute_step env step ctx1 = Ok (r, ctx2)
    /\ f = PyDict [("step", PyStr step); ("result", r); ("timestamp", PyStr ts)].

(** When the loop ends without an exception it has run every step. *)
Lemma run_steps_all (steps : list string) :
  forall n ctx n' ctx',
    run_steps env steps n ctx = Ok (n', ctx') ->
    exists new,
      findings ctx' = (findings ctx ++ new)%list
      /\ Forall2 records steps new
      /\ workflow_name ctx' = workflow_name ctx.
Proof.
  induction steps as [|step steps IH]; intros n ctx n' ctx' H.
  - simpl in H. injection H as <- <-. exists []. rewrite app_nil_r.
    repeat split; auto.
  - cbn [run_steps] in H.
    destruct (_execute_step env step ctx) as [[r ctx1]|] eqn:E;
      cbn [bind] in H; [|discriminate H].
    destruct (execute_step_keeps_findings env step _ _ _ E) as [Hf Hw].
    rewrite (execute_step_never_stops step _ _ _ E) in H.
    cbn [bind truthy negb] in H.
    apply IH in H. destruct H as (new & H1 & H2 & H3).
    eexists (_ :: new). cbn in H1, H3 |- *.
    rewrite H1, Hf, <- app_assoc, H3, Hw. repeat split; auto.
    constructor; [|exact H2].
    exists ctx, r, ctx1. eexists. split; [exact E|reflexivity].
Qed.

Lemma Forall2_nth_error_l {A B} (R : A -> B -> Prop) (l : list A) (l' : list B)
      (i : nat) (a : A) :
  Forall2 R l l' -> nth_error l i = Some a ->
  exists b, nth_error l' i = Some b /\ R a b.
Proof.
  intro H. revert i. induction H as [|x y l l' Hxy _ IH]; intros i Hi.
  - destruct i; discriminate.
  - destruct i as [|i]; simpl in *.
    + injection Hi as ->. now exists y.
    + now apply IH.
Qed.

Lemma check_oom_events_result (ctx ctx' : Context) (r : pyval) :
  _execute_step env "check_oom_events" ctx = Ok (r, ctx') ->
  exists b k, r = PyDict [("success", PyBool true);
                          ("oom_kill_detected", PyBool b);
                          ("oom_count", PyInt k)].
Proof.
  change (_execute_step env "check_oom_events" ctx)
    with (_check_oom_events env ctx).
  unfold _check_oom_events. intro H. step_inv H.
  eexists. eexists. reflexivity.
Qed.

(** The text of the finding of check_oom_events has the key
    oom_kill_detected in it, whatever the value under the key. *)
Lemma oom_finding_mentions_key (b : bool) (k : Z) (ts : string) :
  Str.contains "oom_kill_detected"
    (str (float_repr env)
         (PyDict [("step", PyStr "check_oom_events");
                  ("result", PyDict [("success", PyBool true);
                                     ("oom_kill_detected", PyBool b);
                                     ("oom_count", PyInt k)]);
                  ("timestamp", PyStr ts)])) = true.
Proof.
  destruct b; vm_compute; reflexivity.
Qed.

(** C1, as the code has it.  Every memory_leak_investigation that
    completes reports the root cause "Memory leak causing OOMKill events":
    the finding of check_oom_events is always among the findings, and its
    text contains the key oom_kill_detected whether the value is True or
    False. *)
Theorem memory_leak_root_cause_ignores_oom_value
        (inc : string) (ev : EventProcessor.Event)
        (iid w rc : string) (recs : list string) (dur : float) (fs : list pyval) :
  execute_workflow env "memory_leak_investigation" inc ev
  = Succeeded iid w rc recs dur fs ->
  rc = "Memory leak causing OOMKill events"
  /\ exists b k ts,
      nth_error fs 2
      = Some (PyDict [("step", PyStr "check_oom_events");
                      ("result", PyDict [("success", PyBool true);
                                         ("oom_kill_detected", PyBool b);
                                         ("oom_count", PyInt k)]);
                      ("timestamp", PyStr ts)]).
Proof.
  unfold execute_workflow.
  change (dict_get "memory_leak_investigation" _load_workflows)
    with (Some ("Memory Leak Investigation",
                ["identify_pod"; "collect_memory_metrics"; "check_oom_events";
                 "analyze_memory_trend"; "review_recent_changes";
                 "recommend_remediation"])).
  cbv beta iota. intro H.
  destruct (run_steps env _ 1 _) as [[n ctx]|] eqn:R; [|discriminate H].
  injection H as _ _ Hrc _ _ Hfs.
  apply run_steps_all in R. destruct R as (new & H1 & H2 & H3).
  cbn in H1, H3. rewrite H1 in Hfs. subst fs.
  destruct (Forall2_nth_error_l _ _ _ 2 "check_oom_events" H2 eq_refl)
    as (f & Hnth & ctx1 & r & ctx2 & ts & Hstep & Hf).
  destruct (check_oom_events_result _ _ _ Hstep) as (b & k & Hr).
  subst r f.
  split.
  - rewrite <- Hrc. unfold _determine_root_cause. rewrite H3, H1.
    change (String.eqb "memory_leak_investigation" "memory_leak_investigation")
      with true. cbv iota.
    replace (any_finding_mentions env "oom_kill_detected" new) with true;
      [reflexivity|].
    symmetry. apply existsb_exists. eexists. split.
    + exact (nth_error_In _ _ Hnth).
    + apply oom_finding_mentions_key.
  - exists b, k, ts. exact Hnth.
Qed.

End RootCause.

(** An environment in which nothing is wrong: the pod has no events, no
    recent change, and the memory metrics are flat. *)
Definition quiet_env : WorkflowEngine.Env :=
  WorkflowEngine.mkEnv
    (fun _ => "0.0")
    (fun n => (63902822400000000 + Z.of_nat n * 1000000)%Z)
    (fun _ => "2026-01-01T00:00:00")
    (fun _ => Ok (PyDict [("success", PyBool true); ("current", PyInt 100);
                          ("trend", PyStr "stable")]))
    (fun _ => Ok (PyDict []))
    (fun _ => Ok (PyDict []))
    (fun _ _ => Ok (PyList []))
    (fun _ => Ok (PyList []))
    (fun _ _ => Ok (PyDict []))
    (fun _ => Ok (PyList []))
    (fun _ => Ok (PyList []))
    (fun _ _ => Ok (PyList []))
    (fun _ _ => Ok (PyInt 0))
    (fun _ => Ok (PyList []))
    (fun _ => Ok (PyDict [])).

(** The event of scenario S1 *)
Definition s1_event : EventProcessor.Event :=
  EventProcessor.mkEvent
    (PyStr "e1") (PyStr "2026-01-01T00:00:00") (PyStr "") (PyStr "")
    (PyDict s1_detail) EventProcessor.CRITICAL
    (PyDict [("id", PyStr "e1"); ("detail", PyDict s1_detail)]).

Definition s1_result : WorkflowEngine.WorkflowResult :=
  WorkflowEngine.execute_workflow quiet_env "memory_leak_investigation"
                                  "INC-e1" s1_event.

(** Scenario S1 with no OOM event: check_oom_events reports
    oom_kill_detected = False, no finding has memory_leak_likely = True,
    and the reported root cause is the OOMKill one all the same. *)
Lemma s1_without_oom_event :
  exists dur f1 f2 f4 f5 f6,
    s1_result
    = WorkflowEngine.Succeeded
        "INC-e1" "memory_leak_investigation"
        "Memory leak causing OOMKill events"
        ["Restart pod to clear memory"; "Increase memory limit to 512Mi";
         "Review application code for memory leaks"; "Enable memory profiling"]
        dur
        [f1; f2;
         PyDict [("step", PyStr "check_oom_events");
                 ("result", PyDict [("success", PyBool true);
                                    ("oom_kill_detected", PyBool false);
                                    ("oom_count", PyInt 0)]);
                 ("timestamp", PyStr "2026-01-01T00:00:00")];
         f4; f5; f6]
    /\ f4 = PyDict [("step", PyStr "analyze_memory_trend");
                    ("result", PyDict [("success", PyBool true);
                                       ("trend", PyStr "stable");
                                       ("memory_leak_likely", PyBool false)]);
                    ("timestamp", PyStr "2026-01-01T00:00:00")].
Proof.
  do 6 eexists. split; vm_compute; reflexivity.
Qed.

Definition result_root_cause (r : WorkflowEngine.WorkflowResult) : string :=
  match r with WorkflowEngine.Succeeded _ _ rc _ _ _ => rc | _ => "" end.

Definition result_recommendations (r : WorkflowEngine.WorkflowResult)
  : list string :=
  match r with WorkflowEngine.Succeeded _ _ _ recs _ _ => recs | _ => [] end.

Definition result_duration (r : WorkflowEngine.WorkflowResult) : float :=
  match r with WorkflowEngine.Succeeded _ _ _ _ d _ => d | _ => Float.zero end.

Definition result_findings (r : WorkflowEngine.WorkflowResult) : list pyval :=
  match r with WorkflowEngine.Succeeded _ _ _ _ _ fs => fs | _ => [] end.

Lemma s1_result_succeeded :
  WorkflowEngine.execute_workflow quiet_env "memory_leak_investigation"
                                  "INC-e1" s1_event
  = WorkflowEngine.Succeeded
      "INC-e1" "memory_leak_investigation" (result_root_cause s1_result)
      (result_recommendations s1_result) (result_duration s1_result)
      (result_findings s1_result).
Proof.
  vm_compute. reflexivity.
Qed.

Lemma memory_leak_root_cause_ignores_oom_value_witness :
  result_root_cause s1_result = "Memory leak causing OOMKill events"
  /\ exists b k ts,
      nth_error (result_findings s1_result) 2
      = Some (PyDict [("step", PyStr "check_oom_events");
                      ("result", PyDict [("success", PyBool true);
                                         ("oom_kill_detected", PyBool b);
                                         ("oom_count", PyInt k)]);
                      ("timestamp", PyStr ts)]).
Proof.
  exact (memory_leak_root_cause_ignores_oom_value
           quiet_env "INC-e1" s1_event
           "INC-e1" "memory_leak_investigation" (result_root_cause s1_result)
           (result_recommendations s1_result) (result_duration s1_result)
           (result_findings s1_result) s1_result_succeeded).
Defined.

Lemma execute_workflow_findings_and_recommendations_witness :
  exists title steps,
    dict_get "memory_leak_investigation" WorkflowEngine._load_workflows
    = Some (title, steps)
    /\ List.length (result_findings s1_result) <= List.length steps
    /\ map finding_step (result_findings s1_result)
       = firstn (List.length (result_findings s1_result)) steps
    /\ result_recommendations s1_result <> [].
Proof.
  exact (execute_workflow_findings_and_recommendations
           quiet_env "memory_leak_investigation" "INC-e1" s1_event
           "INC-e1" "memory_leak_investigation" (result_root_cause s1_result)
           (result_recommendations s1_result) (result_duration s1_result)
           (result_findings s1_result) s1_result_succeeded).
Defined.

(** ** The event queue *)

Section EventQueue.

(** An alarm payload with the given id, alarm name and state. *)
Definition alarm (id alarm_name state : string) : pyval :=
  PyDict [("id", PyStr id);
          ("detail", PyDict [("alarmName", PyStr alarm_name);
                             ("state", PyDict [("value", PyStr state)])])].

Definition submit (payload : pyval) (st : Processor) : Processor :=
  process_event "2026-01-01T00:00:00" payload st.

(** One turn of the dispatch loop with the default cap of three handlers,
    none of which has finished yet. *)
Definition tick (st : Processor) : Processor :=
  _process_events_iter 3 (fun _ => false) st.

Definition queued_ids (st : Processor) : list (Z * pyval) :=
  map (fun it => (fst it, event_id (snd it))) (event_queue st).

Definition started_ids (st : Processor) : list pyval :=
  map event_id (started st).

Definition event_lt_error : exn :=
  TypeError "'<' not supported between instances of 'Event' and 'Event'".

(** The failures that the two loops have logged, in order. *)
Definition logged_errors (st : Processor) : list LogEntry :=
  filter (fun l => match l with ReceivedEvent _ => false | _ => true end) (log st).

(** Two queued tuples of equal rank cannot be compared. *)
Lemma tuple_lt_equal_rank (a b : item) :
  fst a = fst b -> tuple_lt a b = Raise event_lt_error.
Proof.
  intro H. unfold tuple_lt. rewrite H, Z.eqb_refl. reflexivity.
Qed.

(** Whatever two events of equal priority are, putting the second one
    behind the first raises. *)
Lemma heappush_equal_priority (e1 e2 : Event) :
  priority e1 = priority e2 ->
  heappush [(value (priority e1), e1)] (value (priority e2), e2)
  = ([(value (priority e1), e1); (value (priority e2), e2)],
     Raise event_lt_error).
Proof.
  intro H. unfold heappush, _siftdown. cbn.
  rewrite tuple_lt_equal_rank by (cbn; now rewrite H). reflexivity.
Qed.

(** Three CRITICAL alarms *)
Definition three_critical : Processor :=
  submit (alarm "e3" "pod-oom-critical" "ALARM")
    (submit (alarm "e2" "pod-oom-critical" "ALARM")
       (submit (alarm "e1" "pod-oom-critical" "ALARM") Processor_init)).

(** C2, on the code.  Three alarms of equal priority are submitted to an
    empty processor.  The second and the third [put] raise TypeError, which
    process_event logs; the first turn of the dispatch loop raises TypeError
    in [get], takes the event e1 out of the queue and starts no handler;
    the next two turns start the handlers of e2 and e3; after that the
    queue is empty and a further turn changes nothing.  No handler is ever
    started for e1. *)
Theorem equal_priority_event_is_dropped :
  logged_errors three_critical
  = [FailedToProcess event_lt_error; FailedToProcess event_lt_error]
  /\ queued_ids three_critical
     = [(1%Z, PyStr "e1"); (1%Z, PyStr "e2"); (1%Z, PyStr "e3")]
  /\ started_ids (tick three_critical) = []
  /\ queued_ids (tick three_critical) = [(1%Z, PyStr "e2"); (1%Z, PyStr "e3")]
  /\ logged_errors (tick three_critical)
     = [FailedToProcess event_lt_error; FailedToProcess event_lt_error;
        LoopError event_lt_error]
  /\ started_ids (tick (tick (tick three_critical))) = [PyStr "e2"; PyStr "e3"]
  /\ queued_ids (tick (tick (tick three_critical))) = []
  /\ tick (tick (tick (tick three_critical))) = tick (tick (tick three_critical)).
Proof.
  repeat split; vm_compute; reflexivity.
Qed.

(** Alarms of ranks 1, 2, 3, 3: a is CRITICAL, b is HIGH, c and d are
    MEDIUM, submitted in this order. *)
Definition mixed_ranks : Processor :=
  submit (alarm "d" "disk-usage" "OK")
    (submit (alarm "c" "disk-usage" "OK")
       (submit (alarm "b" "disk-usage" "ALARM")
          (submit (alarm "a" "pod-oom-critical" "ALARM") Processor_init))).

(** C3, on the code.  The four alarms are queued without an error.  The
    first turn of the dispatch loop dequeues a.  The second turn raises
    TypeError in [get] and loses b, which no turn dequeues afterwards.  The
    third turn dequeues d and the fourth dequeues c: d, which was inserted
    after c with the same rank, leaves the queue before c, and both leave
    it although b, of a smaller rank, was never dequeued. *)
Theorem equal_rank_breaks_queue_order :
  logged_errors mixed_ranks = []
  /\ queued_ids mixed_ranks
     = [(1%Z, PyStr "a"); (2%Z, PyStr "b"); (3%Z, PyStr "c"); (3%Z, PyStr "d")]
  /\ started_ids (tick mixed_ranks) = [PyStr "a"]
  /\ started_ids (tick (tick mixed_ranks)) = [PyStr "a"]
  /\ logged_errors (tick (tick mixed_ranks)) = [LoopError event_lt_error]
  /\ queued_ids (tick (tick mixed_ranks)) = [(3%Z, PyStr "d"); (3%Z, PyStr "c")]
  /\ started_ids (tick (tick (tick mixed_ranks))) = [PyStr "a"; PyStr "d"]
  /\ started_ids (tick (tick (tick (tick mixed_ranks))))
     = [PyStr "a"; PyStr "d"; PyStr "c"]
  /\ queued_ids (tick (tick (tick (tick mixed_ranks)))) = [].
Proof.
  repeat split; vm_compute; reflexivity.
Qed.

End EventQueue.

(* ===================================================================== *)
(** * Part III.  Further properties of the code                           *)
(* ===================================================================== *)

(** ** Completed workflows *)

Section CompletedWorkflow.

Import WorkflowEngine.

Variable env : Env.

Lemma records_finding_step (step : string) (f : pyval) :
  records env step f -> finding_step f = step.
Proof.
  intros (ctx1 & r & ctx2 & ts & _ & ->). reflexivity.
Qed.

Lemma Forall2_records_steps (steps : list string) (new : list pyval) :
  Forall2 (records env) steps new -> map finding_step new = steps.
Proof.
  induction 1 as [|s f steps new Hsf _ IH]; [reflexivity|].
  simpl. now rewrite (records_finding_step _ _ Hsf), IH.
Qed.

(** X1.  No step handler asks the loop to stop, so a workflow that
    completes has run all of its steps: the result echoes the incident id
    and the workflow name, and its findings record exactly the steps of the
    workflow, one finding per step and in their order. *)
Theorem completed_workflow_runs_every_step
        (wf inc : string) (ev : Event)
        (iid w rc : string) (recs : list string) (dur : float) (fs : list pyval) :
  execute_workflow env wf inc ev = Succeeded iid w rc recs dur fs ->
  iid = inc /\ w = wf
  /\ exists title steps,
      dict_get wf _load_workflows = Some (title, steps)
      /\ map finding_step fs = steps
      /\ List.length fs = List.length steps.
Proof.
  unfold execute_workflow. intro H.
  destruct (dict_get wf _load_workflows) as [[title steps]|] eqn:E;
    [|discriminate H].
  destruct (run_steps env steps 1 _) as [[n ctx]|] eqn:R; [|discriminate H].
  injection H as <- <- _ _ _ Hfs.
  apply run_steps_all in R. destruct R as (new & H1 & H2 & _).
  cbn in H1. rewrite H1 in Hfs. subst fs.
  split; [reflexivity|]. split; [reflexivity|].
  exists title, steps. split; [reflexivity|].
  pose proof (Forall2_records_steps _ _ H2) as Hm.
  split; [exact Hm|]. rewrite <- Hm. now rewrite length_map.
Qed.

(** The root cause that a completed run of each workflow reports. *)
Definition root_cause_of (wf : string) : string :=
  if String.eqb wf "memory_leak_investigation"
  then "Memory leak causing OOMKill events"
  else if String.eqb wf "high_cpu_investigation"
  then "CPU throttling due to insufficient limits"
  else if String.eqb wf "high_latency_investigation"
  then "Latency caused by resource constraints"
  else if String.eqb wf "node_pressure_investigation"
  then "Node under resource pressure"
  else if String.eqb wf "pod_crash_investigation"
  then "Pod experiencing frequent crashes"
  else "Investigation completed".

Lemma check_cpu_throttling_result (ctx ctx' : Context) (r : pyval) :
  _execute_step env "check_cpu_throttling" ctx = Ok (r, ctx') ->
  exists b x, r = PyDict [("success", PyBool true);
                          ("throttling_detected", PyBool b);
                          ("throttling_ratio", x)].
Proof.
  change (_execute_step env "check_cpu_throttling" ctx)
    with (_check_cpu_throttling ctx).
  unfold _check_cpu_throttling. intro H. step_inv H.
  eexists. eexists. reflexivity.
Qed.

Lemma correlate_with_resources_result (ctx ctx' : Context) (r : pyval) :
  _execute_step env "correlate_with_resources" ctx = Ok (r, ctx') ->
  r = PyDict [("success", PyBool true); ("correlation", PyStr "high");
              ("resource_constrained", PyBool true)].
Proof.
  change (_execute_step env "correlate_with_resources" ctx)
    with (_correlate_with_resources ctx).
  unfold _correlate_with_resources. intro H. now injection H as <- _.
Qed.

(** The text of a finding starts with the step and the keys of its result
    up to the first value that is not a constant; a key in that part is
    found whatever follows. *)
Lemma cpu_finding_mentions_key (b : bool) (x : pyval) (ts : string) :
  Str.contains "throttling_detected"
    (str (float_repr env)
         (PyDict [("step", PyStr "check_cpu_throttling");
                  ("result", PyDict [("success", PyBool true);
                                     ("throttling_detected", PyBool b);
                                     ("throttling_ratio", x)]);
                  ("timestamp", PyStr ts)])) = true.
Proof.
  destruct b; vm_compute; reflexivity.
Qed.

Lemma latency_finding_mentions_key (ts : string) :
  Str.contains "resource_constrained"
    (str (float_repr env)
         (PyDict [("step", PyStr "correlate_with_resources");
                  ("result", PyDict [("success", PyBool true);
                                     ("correlation", PyStr "high");
                                     ("resource_constrained", PyBool true)]);
                  ("timestamp", PyStr ts)])) = true.
Proof.
  vm_compute. reflexivity.
Qed.

Lemma any_finding_mentions_nth (key : string) (fs : list pyval) (i : nat)
      (f : pyval) :
  nth_error fs i = Some f ->
  Str.contains key (str (float_repr env) f) = true ->
  any_finding_mentions env key fs = true.
Proof.
  intros Hn Hc. apply existsb_exists. exists f. split; [|exact Hc].
  exact (nth_error_In _ _ Hn).
Qed.

Lemma load_workflows_names (wf title : string) (steps : list string) :
  dict_get wf _load_workflows = Some (title, steps) ->
  In (wf, steps)
     [ ("memory_leak_investigation",
        ["identify_pod"; "collect_memory_metrics"; "check_oom_events";
         "analyze_memory_trend"; "review_recent_changes";
         "recommend_remediation"]);
       ("high_cpu_investigation",
        ["identify_pod"; "collect_cpu_metrics"; "check_cpu_throttling";
         "analyze_request_patterns"; "review_resource_limits";
         "recommend_remediation"]);
       ("high_latency_investigation",
        ["identify_service"; "collect_latency_metrics"; "analyze_traces";
         "check_dependencies"; "correlate_with_resources";
         "recommend_remediation"]);
       ("node_pressure_investigation",
        ["identify_node"; "collect_node_metrics"; "list_pods_on_node";
         "check_resource_usage"; "analyze_evictions"; "recommend_remediation"]);
       ("pod_crash_investigation",
        ["identify_pod"; "collect_pod_events"; "analyze_logs";
         "check_restart_count"; "review_resource_limits";
         "recommend_remediation"]);
       ("generic_investigation",
        ["identify_resource"; "collect_metrics"; "analyze_patterns";
         "recommend_actions"]) ].
Proof.
  intro H. apply dict_get_In in H. simpl in H.
  repeat (destruct H as [H | H];
          [injection H as <- _ <-; simpl; tauto|]).
  contradiction.
Qed.

(** A completed run reports the root cause of its workflow name. *)
Lemma root_cause_of_completed_run
        (wf inc : string) (ev : Event)
        (iid w rc : string) (recs : list string) (dur : float) (fs : list pyval) :
  execute_workflow env wf inc ev = Succeeded iid w rc recs dur fs ->
  rc = root_cause_of wf.
Proof.
  unfold execute_workflow. intro H.
  destruct (dict_get wf _load_workflows) as [[title steps]|] eqn:E;
    [|discriminate H].
  destruct (run_steps env steps 1 _) as [[n ctx]|] eqn:R; [|discriminate H].
  injection H as _ _ Hrc _ _ _. subst rc.
  apply run_steps_all in R. destruct R as (new & H1 & H2 & H3).
  cbn in H1, H3.
  apply load_workflows_names in E. simpl in E.
  unfold _determine_root_cause. rewrite H3, H1.
  destruct E as [E|[E|[E|[E|[E|[E|[]]]]]]]; injection E as <- <-;
    unfold root_cause_of; cbn [String.eqb Ascii.eqb Bool.eqb]; cbv iota.
  - destruct (Forall2_nth_error_l _ _ _ 2 "check_oom_events" H2 eq_refl)
      as (f & Hnth & ctx1 & r & ctx2 & ts & Hstep & Hf).
    destruct (check_oom_events_result env _ _ _ Hstep) as (b & k & Hr).
    subst r f.
    now rewrite (any_finding_mentions_nth _ _ _ _ Hnth
                   (oom_finding_mentions_key env b k ts)).
  - destruct (Forall2_nth_error_l _ _ _ 2 "check_cpu_throttling" H2 eq_refl)
      as (f & Hnth & ctx1 & r & ctx2 & ts & Hstep & Hf).
    destruct (check_cpu_throttling_result _ _ _ Hstep) as (b & x & Hr).
    subst r f.
    now rewrite (any_finding_mentions_nth _ _ _ _ Hnth
                   (cpu_finding_mentions_key b x ts)).
  - destruct (Forall2_nth_error_l _ _ _ 4 "correlate_with_resources" H2 eq_refl)
      as (f & Hnth & ctx1 & r & ctx2 & ts & Hstep & Hf).
    apply correlate_with_resources_result in Hstep. subst r f.
    now rewrite (any_finding_mentions_nth _ _ _ _ Hnth
                   (latency_finding_mentions_key ts)).
  - reflexivity.
  - reflexivity.
  - reflexivity.
Qed.

(** X2.  The root cause of a completed run is a function of the workflow
    name alone.  The findings are searched for the text of a key, and the
    finding that carries the key is recorded in every completed run: a
    memory investigation always reports the OOMKill cause, a CPU
    investigation always reports throttling, a latency investigation always
    reports resource constraints; the other three workflows have a single
    answer.  The second alternatives ("Increasing memory usage pattern
    detected", "Memory pressure observed", "High CPU utilization",
    "Bottleneck in downstream service", "Elevated response times") are
    never reported. *)
Theorem root_cause_depends_on_workflow_only
        (wf inc : string) (ev : Event)
        (iid w rc : string) (recs : list string) (dur : float) (fs : list pyval) :
  execute_workflow env wf inc ev = Succeeded iid w rc recs dur fs ->
  rc = root_cause_of wf.
Proof.
  apply root_cause_of_completed_run.
Qed.

End CompletedWorkflow.

Lemma completed_workflow_runs_every_step_witness :
  "INC-e1" = "INC-e1" /\ "memory_leak_investigation" = "memory_leak_investigation"
  /\ exists title steps,
      dict_get "memory_leak_investigation" WorkflowEngine._load_workflows
      = Some (title, steps)
      /\ map finding_step (result_findings s1_result) = steps
      /\ List.length (result_findings s1_result) = List.length steps.
Proof.
  exact (completed_workflow_runs_every_step
           quiet_env "memory_leak_investigation" "INC-e1" s1_event
           "INC-e1" "memory_leak_investigation" (result_root_cause s1_result)
           (result_recommendations s1_result) (result_duration s1_result)
           (result_findings s1_result) s1_result_succeeded).
Defined.

(** A CPU investigation in the quiet environment: no throttling ratio is
    reported, and the run completes. *)
Definition cpu_result : WorkflowEngine.WorkflowResult :=
  WorkflowEngine.execute_workflow quiet_env "high_cpu_investigation"
                                  "INC-e1" s1_event.

Lemma cpu_result_succeeded :
  WorkflowEngine.execute_workflow quiet_env "high_cpu_investigation"
                                  "INC-e1" s1_event
  = WorkflowEngine.Succeeded
      "INC-e1" "high_cpu_investigation" (result_root_cause cpu_result)
      (result_recommendations cpu_result) (result_duration cpu_result)
      (result_findings cpu_result).
Proof.
  vm_compute. reflexivity.
Qed.

Lemma root_cause_depends_on_workflow_only_witness :
  result_root_cause cpu_result = root_cause_of "high_cpu_investigation".
Proof.
  exact (root_cause_depends_on_workflow_only
           quiet_env "high_cpu_investigation" "INC-e1" s1_event
           "INC-e1" "high_cpu_investigation" (result_root_cause cpu_result)
           (result_recommendations cpu_result) (result_duration cpu_result)
           (result_findings cpu_result) cpu_result_succeeded).
Defined.

(** ** Intake of events *)

Section Intake.

Lemma determine_priority_range (detail : pyval) (p : EventPriority) :
  _determine_priority detail = Ok p -> In p [CRITICAL; HIGH; MEDIUM].
Proof.
  unfold _determine_priority. intro H.
  repeat match type of H with
         | context [bind ?m _] =>
             let E := fresh "E" in
             destruct m eqn:E; cbn [bind] in H; [|discriminate H]
         | context [if ?b then _ else _] => destruct b
         end;
    injection H as <-; simpl; tauto.
Qed.

(** X3.  No event is ever given the priority LOW: an event that
    [Event.__init__] builds is CRITICAL, HIGH or MEDIUM, so the rank it is
    queued with is 1, 2 or 3. *)
Theorem priority_is_never_low (now_iso : string) (event_data : pyval) (e : Event) :
  Event_init now_iso event_data = Ok e ->
  In (priority e) [CRITICAL; HIGH; MEDIUM]
  /\ (1 <= value (priority e) <= 3)%Z.
Proof.
  unfold Event_init. intro H.
  repeat match type of H with
         | context [bind ?m _] =>
             let E := fresh "E" in
             destruct m eqn:E; cbn [bind] in H; [|discriminate H]
         end.
  injection H as <-. cbn [priority].
  match goal with E : _determine_priority _ = Ok _ |- _ =>
    apply determine_priority_range in E; simpl in E end.
  split; [simpl; tauto|].
  repeat match goal with H : _ \/ _ |- _ => destruct H as [<- | H] end;
    try contradiction; simpl; lia.
Qed.

Lemma priority_is_never_low_witness :
  In CRITICAL [CRITICAL; HIGH; MEDIUM] /\ (1 <= value CRITICAL <= 3)%Z.
Proof.
  exact (priority_is_never_low
           "2026-01-01T00:00:00"
           (PyDict [("id", PyStr "e1"); ("detail", PyDict s1_detail)])
           (mkEvent (PyStr "e1") (PyStr "2026-01-01T00:00:00") (PyStr "")
                    (PyStr "") (PyDict s1_detail) CRITICAL
                    (PyDict [("id", PyStr "e1"); ("detail", PyDict s1_detail)]))
           eq_refl).
Defined.

Definition no_get (v : pyval) : exn :=
  AttributeError ("'" ++ type_name v ++ "' object has no attribute 'get'").

Definition rejected (st : Processor) (e : exn) : Processor :=
  mkProcessor (event_queue st) (active_tasks st) (started st)
              (log st ++ [FailedToProcess e]).

(** X4.  A payload that is not an object, or whose [detail] is not an
    object, never reaches the queue: [Event.__init__] raises
    AttributeError, process_event logs the failure, and the queue, the
    running handlers and the started events are unchanged. *)
Theorem malformed_event_is_rejected
        (now_iso : string) (event_data : pyval) (st : Processor) :
  ((forall d, event_data <> PyDict d) ->
   process_event now_iso event_data st = rejected st (no_get event_data))
  /\ (forall d v,
         event_data = PyDict d ->
         dict_get "detail" d = Some v ->
         (forall x, v <> PyDict x) ->
         process_event now_iso event_data st = rejected st (no_get v)).
Proof.
  split.
  - intro H. unfold process_event, Event_init.
    destruct event_data; try reflexivity. now destruct (H d).
  - intros d v -> Hd Hv. unfold process_event, Event_init.
    simpl. rewrite Hd. simpl.
    unfold _determine_priority.
    destruct v; try reflexivity. now destruct (Hv d0).
Qed.

Lemma malformed_event_is_rejected_witness :
  process_event "2026-01-01T00:00:00"
                (PyDict [("id", PyStr "e9"); ("detail", PyStr "ALARM")])
                Processor_init
  = rejected Processor_init (no_get (PyStr "ALARM")).
Proof.
  refine (proj2 (malformed_event_is_rejected
                   "2026-01-01T00:00:00"
                   (PyDict [("id", PyStr "e9"); ("detail", PyStr "ALARM")])
                   Processor_init)
                [("id", PyStr "e9"); ("detail", PyStr "ALARM")]
                (PyStr "ALARM") eq_refl eq_refl _).
  intros x H. discriminate H.
Defined.

(** Every running handler belongs to an event that was started, and at
    most [cap] handlers run. *)
Definition within_cap (cap : nat) (st : Processor) : Prop :=
  List.length (active_tasks st) <= cap
  /\ incl (active_tasks st) (started st).

Lemma filter_length_le {A} (f : A -> bool) (l : list A) :
  List.length (filter f l) <= List.length l.
Proof.
  induction l as [|x l IH]; simpl; [lia|]. destruct (f x); simpl; lia.
Qed.

(** X5.  The dispatch loop never has more than [max_concurrent_events]
    handlers in flight: if at most [cap] handlers run before a turn of the
    loop, at most [cap] run after it, whichever handlers have finished and
    whatever the queue holds, and accepting an event does not touch the
    handlers. *)
Theorem dispatch_respects_cap
        (cap : nat) (done : Event -> bool) (st : Processor)
        (now_iso : string) (event_data : pyval) :
  within_cap cap st ->
  within_cap cap (_process_events_iter cap done st)
  /\ within_cap cap (process_event now_iso event_data st).
Proof.
  intros [Hlen Hincl]. split.
  - unfold _process_events_iter.
    set (active := filter (fun t => negb (done t)) (active_tasks st)).
    assert (Hal : List.length active <= List.length (active_tasks st))
      by apply filter_length_le.
    assert (Hai : incl active (started st)).
    { intros x Hx. apply Hincl. unfold active in Hx.
      apply filter_In in Hx. tauto. }
    destruct (List.length active <? cap)%nat eqn:E.
    + apply Nat.ltb_lt in E.
      destruct (event_queue st) as [|it q] eqn:Q.
      * split; simpl; [lia|exact Hai].
      * destruct (heappop (it :: q)) as [q' [[r ev]|e]]; split; simpl.
        -- rewrite length_app. simpl. lia.
        -- intros x Hx. apply in_app_or in Hx. apply in_or_app.
           destruct Hx as [Hx|Hx]; [left; now apply Hai | now right].
        -- lia.
        -- exact Hai.
    + split; simpl; [lia|exact Hai].
  - unfold process_event.
    destruct (Event_init now_iso event_data) as [ev|e].
    + destruct (heappush _ _) as [q [u|e]]; split; assumption.
    + split; assumption.
Qed.

(** A processor at its cap of one handler: the handler of the first alarm
    runs, and the second alarm waits in the queue. *)
Definition at_cap : Processor :=
  _process_events_iter 1 (fun _ => false)
    (submit (alarm "b" "disk-usage" "ALARM")
       (submit (alarm "a" "pod-oom-critical" "ALARM") Processor_init)).

Lemma dispatch_respects_cap_witness :
  within_cap 1 (_process_events_iter 1 (fun _ => false) at_cap)
  /\ within_cap 1 (process_event "2026-01-01T00:00:00"
                                 (alarm "c" "node-down" "ALARM") at_cap).
Proof.
  refine (dispatch_respects_cap 1 (fun _ => false) at_cap
            "2026-01-01T00:00:00" (alarm "c" "node-down" "ALARM") _).
  split; [vm_compute; lia | vm_compute; intros x H; exact H].
Defined.

End Intake.

(** ** The queue when the priorities differ *)


Section DistinctPriorities.

(** No rank occurs twice. *)
Fixpoint distinct (l : list Z) : bool :=
  match l with
  | [] => true
  | x :: l' => negb (existsb (Z.eqb x) l') && distinct l'
  end.

(** The invariant of heapq, for ranks that differ: every item is larger
    than its parent, [heap[(i - 1) // 2] < heap[i]] for [0 < i]. *)
Definition heap_ok (h : list item) : bool :=
  forallb (fun i => match nth_error h i, nth_error h ((i - 1) / 2) with
                    | Some c, Some p => (fst p <? fst c)%Z
                    | _, _ => true
                    end)
          (seq 1 (List.length h - 1)).

(** The items are the tuples that process_event builds. *)
Definition ranked (h : list item) : Prop :=
  Forall (fun it => fst it = value (priority (snd it))) h.

Definition well_queued (h : list item) : Prop :=
  ranked h /\ distinct (map fst h) = true /\ heap_ok h = true.

Lemma distinct_NoDup (l : list Z) : distinct l = true -> NoDup l.
Proof.
  induction l as [|x l IH]; simpl; intro H; [constructor|].
  apply andb_prop in H. destruct H as [H1 H2].
  constructor; [|now apply IH].
  intro Hin. apply negb_true_iff in H1.
  assert (existsb (Z.eqb x) l = true); [|congruence].
  apply existsb_exists. exists x. split; [exact Hin|apply Z.eqb_refl].
Qed.

Lemma ranked_range (h : list item) :
  ranked h -> Forall (fun it => In (fst it) [1; 2; 3; 4]%Z) h.
Proof.
  intro H. eapply Forall_impl; [|exact H].
  intros [r e] Hr. simpl in *. rewrite Hr.
  destruct (priority e); simpl; tauto.
Qed.

(** Four priorities: a queue of different ranks holds at most four items. *)
Lemma distinct_at_most_four (h : list item) :
  ranked h -> distinct (map fst h) = true -> List.length h <= 4.
Proof.
  intros Hr Hd. apply distinct_NoDup in Hd.
  assert (L : List.length (map fst h) <= List.length [1; 2; 3; 4]%Z);
    [|now rewrite length_map in L].
  apply NoDup_incl_length; [exact Hd|].
  intros r Hin. apply in_map_iff in Hin. destruct Hin as (it & <- & Hit).
  apply ranked_range in Hr. rewrite Forall_forall in Hr. now apply Hr.
Qed.

Ltac perm_small :=
  repeat first
    [ apply perm_nil
    | apply perm_skip
    | apply (Permutation_cons_app [_] _ _); cbn [app]
    | apply (Permutation_cons_app [_; _] _ _); cbn [app]
    | apply (Permutation_cons_app [_; _; _] _ _); cbn [app]
    | apply (Permutation_cons_app [_; _; _; _] _ _); cbn [app] ].

Ltac enum_ranks :=
  repeat match goal with
         | H : Forall _ (_ :: _) |- _ => inversion H; subst; clear H
         | H : Forall _ [] |- _ => clear H
         | H : In _ (_ :: _) |- _ => cbn [In fst] in H
         | H : In _ [] |- _ => contradiction H
         | H : _ \/ _ |- _ => destruct H as [H|H]
         | H : False |- _ => contradiction H
         | H : (_ = ?r)%Z |- _ => is_var r; subst r
         end.

Lemma heappush_new_rank (h : list item) (x : item) :
  Forall (fun it => In (fst it) [1; 2; 3; 4]%Z) (x :: h) ->
  List.length h <= 4 ->
  distinct (map fst h) = true -> heap_ok h = true ->
  existsb (Z.eqb (fst x)) (map fst h) = false ->
  exists h', heappush h x = (h', Ok tt)
             /\ distinct (map fst h') = true /\ heap_ok h' = true
             /\ Permutation h' (x :: h).
Proof.
  intros Hr Hlen Hd Hh Hx. destruct x as [r e].
  destruct h as [|[r1 e1] [|[r2 e2] [|[r3 e3] [|[r4 e4] [|? ?]]]]];
    [ | | | | | simpl in Hlen; lia ];
    enum_ranks;
    vm_compute in Hd, Hh, Hx; try discriminate;
    (eexists; split; [vm_compute; reflexivity|];
     split; [reflexivity|]; split; [reflexivity|]; perm_small).
Qed.

Lemma heappop_smallest (h : list item) :
  Forall (fun it => In (fst it) [1; 2; 3; 4]%Z) h ->
  List.length h <= 4 ->
  distinct (map fst h) = true -> heap_ok h = true ->
  h <> [] ->
  exists m h', heappop h = (h', Ok m)
               /\ (forall x, In x h -> (fst m <= fst x)%Z)
               /\ distinct (map fst h') = true /\ heap_ok h' = true
               /\ Permutation h (m :: h').
Proof.
  intros Hr Hlen Hd Hh Hne.
  destruct h as [|[r1 e1] [|[r2 e2] [|[r3 e3] [|[r4 e4] [|? ?]]]]];
    [ now destruct Hne | | | | | simpl in Hlen; lia ];
    enum_ranks;
    vm_compute in Hd, Hh; try discriminate;
    (eexists; eexists; split; [vm_compute; reflexivity|];
     split; [cbn [In]; intros x Hx;
             repeat (destruct Hx as [<-|Hx]; [cbn [fst]; lia|]);
             contradiction Hx|];
     split; [reflexivity|]; split; [reflexivity|]; perm_small).
Qed.

Lemma ranked_perm (h h' : list item) :
  Permutation h h' -> ranked h -> ranked h'.
Proof.
  intros Hp Hr. unfold ranked in *. rewrite Forall_forall in *.
  intros x Hx. apply Hr. eapply Permutation_in; [|exact Hx].
  now apply Permutation_sym.
Qed.

(** X6.  process_event on a queue of pairwise different priorities, for an
    event whose priority is not in the queue yet: the [put] does not raise,
    nothing but the reception is logged, the queue holds the new tuple and
    the ones it held, and it is a heap of different ranks again. *)
Theorem put_with_new_priority
        (now_iso : string) (event_data : pyval) (e : Event) (st : Processor) :
  well_queued (event_queue st) ->
  Event_init now_iso event_data = Ok e ->
  existsb (Z.eqb (value (priority e))) (map fst (event_queue st)) = false ->
  let st' := process_event now_iso event_data st in
  well_queued (event_queue st')
  /\ Permutation (event_queue st') ((value (priority e), e) :: event_queue st)
  /\ log st' = (log st ++ [ReceivedEvent e])%list
  /\ active_tasks st' = active_tasks st /\ started st' = started st.
Proof.
  intros (Hr & Hd & Hh) He Hnew st'. subst st'.
  unfold process_event. rewrite He.
  assert (Hrx : ranked ((value (priority e), e) :: event_queue st))
    by (constructor; [reflexivity|exact Hr]).
  destruct (heappush_new_rank (event_queue st) (value (priority e), e)
              (ranked_range _ Hrx) (distinct_at_most_four _ Hr Hd) Hd Hh Hnew)
    as (h' & Hpush & Hd' & Hh' & Hp).
  rewrite Hpush. cbn.
  repeat split; try assumption.
  apply (ranked_perm _ _ (Permutation_sym Hp) Hrx).
Qed.

(** X7.  A turn of the dispatch loop on a non-empty queue of pairwise
    different priorities, with a free handler slot: the [get] does not
    raise, the event that is started has the smallest rank of the queue,
    nothing is logged, and the queue keeps the other tuples as a heap of
    different ranks. *)
Theorem get_takes_smallest_rank
        (cap : nat) (done : Event -> bool) (st : Processor) :
  well_queued (event_queue st) ->
  event_queue st <> [] ->
  List.length (filter (fun t => negb (done t)) (active_tasks st)) < cap ->
  exists r e,
    let st' := _process_events_iter cap done st in
    started st' = (started st ++ [e])%list
    /\ active_tasks st'
       = (filter (fun t => negb (done t)) (active_tasks st) ++ [e])%list
    /\ log st' = log st
    /\ (forall x, In x (event_queue st) -> (r <= fst x)%Z)
    /\ Permutation (event_queue st) ((r, e) :: event_queue st')
    /\ well_queued (event_queue st').
Proof.
  intros (Hr & Hd & Hh) Hne Hcap.
  destruct (heappop_smallest (event_queue st)
              (ranked_range _ Hr) (distinct_at_most_four _ Hr Hd) Hd Hh Hne)
    as ([r e] & h' & Hpop & Hmin & Hd' & Hh' & Hp).
  exists r, e. unfold _process_events_iter.
  apply Nat.ltb_lt in Hcap. rewrite Hcap.
  destruct (event_queue st) as [|it q] eqn:Q; [now destruct Hne|].
  rewrite Hpop. cbn.
  repeat split; try assumption.
  pose proof (ranked_perm _ _ Hp Hr) as Hr'.
  now inversion Hr'.
Qed.

End DistinctPriorities.

(** A processor that holds one CRITICAL event, and one that holds a
    CRITICAL and a HIGH event. *)
Definition one_queued : Processor :=
  submit (alarm "a" "pod-oom-critical" "ALARM") Processor_init.

Definition two_queued : Processor :=
  submit (alarm "b" "disk-usage" "ALARM") one_queued.

Lemma one_queued_well : well_queued (event_queue one_queued).
Proof.
  split; [|split]; [vm_compute; repeat constructor | reflexivity | reflexivity].
Qed.

Lemma two_queued_well : well_queued (event_queue two_queued).
Proof.
  split; [|split]; [vm_compute; repeat constructor | reflexivity | reflexivity].
Qed.

Lemma put_with_new_priority_witness :
  well_queued (event_queue two_queued)
  /\ List.length (event_queue two_queued) = 2.
Proof.
  split; [|reflexivity].
  exact (proj1 (put_with_new_priority
                  "2026-01-01T00:00:00" (alarm "b" "disk-usage" "ALARM")
                  (mkEvent (PyStr "b") (PyStr "2026-01-01T00:00:00") (PyStr "")
                           (PyStr "")
                           (PyDict [("alarmName", PyStr "disk-usage");
                                    ("state", PyDict [("value", PyStr "ALARM")])])
                           HIGH (alarm "b" "disk-usage" "ALARM"))
                  one_queued one_queued_well eq_refl eq_refl)).
Defined.

Lemma get_takes_smallest_rank_witness :
  exists r e,
    started (tick two_queued) = (started two_queued ++ [e])%list
    /\ active_tasks (tick two_queued)
       = (filter (fun t => negb false) (active_tasks two_queued) ++ [e])%list
    /\ log (tick two_queued) = log two_queued
    /\ (forall x, In x (event_queue two_queued) -> (r <= fst x)%Z)
    /\ Permutation (event_queue two_queued) ((r, e) :: event_queue (tick two_queued))
    /\ well_queued (event_queue (tick two_queued)).
Proof.
  refine (get_takes_smallest_rank 3 (fun _ => false) two_queued
            two_queued_well _ _).
  - discriminate.
  - vm_compute. repeat constructor.
Defined.

(** ** Handling of a dequeued event *)

Section Handling.

Import WorkflowEngine EventHandler.

Lemma determine_workflow_known (e : Event) (wf : string) :
  _determine_workflow e = Ok wf ->
  exists title steps, dict_get wf _load_workflows = Some (title, steps).
Proof.
  unfold _determine_workflow. intro H.
  repeat match type of H with
         | context [bind ?m _] =>
             let E := fresh "E" in
             destruct m eqn:E; cbn [bind] in H; [|discriminate H]
         | context [if ?b then _ else _] => destruct b
         end;
    injection H as <-; eexists; eexists; reflexivity.
Qed.

Lemma known_workflow_is_run (env : Env) (e : Event) (wf inc msg : string) :
  (exists title steps, dict_get wf _load_workflows = Some (title, steps)) ->
  execute_workflow env wf inc e <> UnknownWorkflow msg.
Proof.
  intros (title & steps & K).
  unfold execute_workflow. rewrite K.
  destruct (run_steps env steps 1 _) as [[n ctx]|]; discriminate.
Qed.

(** X8.  The workflow that the processor chooses for an event is always one
    that the engine knows: whatever the alarm name, the name that
    _determine_workflow returns is a key of the workflow table, so
    execute_workflow never answers "Unknown workflow" to the processor. *)
Theorem dispatched_workflow_is_known
        (env : Env) (e : Event) (wf inc : string) :
  _determine_workflow e = Ok wf ->
  (exists title steps, dict_get wf _load_workflows = Some (title, steps))
  /\ forall msg, execute_workflow env wf inc e <> UnknownWorkflow msg.
Proof.
  intro H. pose proof (determine_workflow_known e wf H) as K.
  split; [exact K|].
  intros msg. now apply known_workflow_is_run.
Qed.

Lemma dispatched_workflow_is_known_witness :
  (exists title steps,
      dict_get "memory_leak_investigation" _load_workflows = Some (title, steps))
  /\ forall msg,
      execute_workflow quiet_env "memory_leak_investigation" "INC-e1" s1_event
      <> UnknownWorkflow msg.
Proof.
  exact (dispatched_workflow_is_known
           quiet_env s1_event "memory_leak_investigation" "INC-e1" eq_refl).
Defined.

Variable env : Env.
Variable slack_channel : string.
Variable send_notification : Notification -> res unit.

Lemma failed_echo (wf inc : string) (ev : Event) (i w err : string) :
  execute_workflow env wf inc ev = Failed i w err -> i = inc /\ w = wf.
Proof.
  unfold execute_workflow.
  destruct (dict_get wf _load_workflows) as [[title steps]|]; [|discriminate].
  destruct (run_steps env steps 1 _) as [[n ctx]|]; [discriminate|].
  intro H. now injection H as <- <- _.
Qed.

(** X9.  An event with a text id whose workflow can be chosen, with a Slack
    that accepts every message: _handle_event sends exactly two
    notifications.  The first announces the incident "INC-" followed by the
    first eight characters of the id, with the lowercased priority as
    severity.  The second is either the resolution, whose root cause is the
    one of the workflow name, or the failure of the investigation with the
    error text of the engine. *)
Theorem handled_event_is_notified_twice (event : Event) (s wf : string) :
  event_id event = PyStr s ->
  (forall n, send_notification n = Ok tt) ->
  _determine_workflow event = Ok wf ->
  let incident_id := "INC-" ++ Str.take 8 s in
  exists second,
    _handle_event env slack_channel send_notification event
    = Ok [new_incident env slack_channel incident_id event; second]
    /\ (second = resolved slack_channel incident_id (root_cause_of wf)
        \/ exists err,
            execute_workflow env wf incident_id event
            = Failed incident_id wf err
            /\ second = investigation_failed slack_channel incident_id err).
Proof.
  intros Hid Hsend Hwf incident_id.
  unfold _handle_event. rewrite Hid. cbn [py_slice8 bind str].
  fold incident_id. rewrite Hsend, Hwf.
  destruct (execute_workflow env wf incident_id event)
    as [msg | i w err | i w rc recs dur fs] eqn:E.
  - exfalso.
    exact (known_workflow_is_run env event wf incident_id msg
             (determine_workflow_known event wf Hwf) E).
  - destruct (failed_echo _ _ _ _ _ _ E) as [-> ->].
    rewrite Hsend. eexists. split; [reflexivity|].
    right. exists err. split; reflexivity.
  - rewrite Hsend. eexists. split; [reflexivity|].
    left. now rewrite (root_cause_of_completed_run env _ _ _ _ _ _ _ _ _ E).
Qed.

(** X10.  Whatever Slack does with the messages, an event with a text id
    is handled without an exception leaving the handler: between one and
    three notifications are tried, the first one announces the incident,
    and all of them carry the incident id and go to the configured
    channel.  An event whose id is a number, a boolean or null is not
    handled at all: the slice of the id raises TypeError before the [try],
    and no notification is tried. *)
Theorem handle_event_outcomes (event : Event) :
  (forall s, event_id event = PyStr s ->
     let incident_id := "INC-" ++ Str.take 8 s in
     exists rest,
       _handle_event env slack_channel send_notification event
       = Ok (new_incident env slack_channel incident_id event :: rest)
       /\ List.length rest <= 2
       /\ Forall (fun n => incident n = incident_id /\ channel n = slack_channel)
                 rest)
  /\ ((event_id event = PyNone
       \/ (exists b, event_id event = PyBool b)
       \/ (exists z, event_id event = PyInt z)
       \/ (exists q, event_id event = PyFloat q)) ->
      _handle_event env slack_channel send_notification event
      = Raise (TypeError ("'" ++ type_name (event_id event)
                              ++ "' object is not subscriptable"))).
Proof.
  split.
  - intros s Hid incident_id.
    unfold _handle_event. rewrite Hid. cbn [py_slice8 bind str].
    fold incident_id.
    destruct (send_notification (new_incident env slack_channel incident_id event)).
    + destruct (_determine_workflow event) as [wf|e].
      * match goal with
          |- context [send_notification ?n] =>
            destruct (send_notification n) eqn:E2;
            assert (Hn : incident n = incident_id /\ channel n = slack_channel)
              by (destruct (execute_workflow env wf incident_id event);
                  split; reflexivity)
        end.
        -- eexists. split; [reflexivity|]. split; [simpl; lia|].
           repeat constructor; apply Hn.
        -- eexists. split; [reflexivity|]. split; [simpl; lia|].
           constructor; [exact Hn|]. repeat constructor.
      * eexists. split; [reflexivity|]. split; [simpl; lia|].
        repeat constructor.
    + eexists. split; [reflexivity|]. split; [simpl; lia|].
      repeat constructor.
  - intros [H|[[b H]|[[z H]|[q H]]]]; unfold _handle_event; rewrite H;
      reflexivity.
Qed.

End Handling.

Lemma handled_event_is_notified_twice_witness :
  exists second,
    EventHandler._handle_event quiet_env "#eks-incidents" (fun _ => Ok tt) s1_event
    = Ok [EventHandler.new_incident quiet_env "#eks-incidents" "INC-e1" s1_event;
          second]
    /\ (second = EventHandler.resolved "#eks-incidents" "INC-e1"
                   (root_cause_of "memory_leak_investigation")
        \/ exists err,
            WorkflowEngine.execute_workflow
              quiet_env "memory_leak_investigation" "INC-e1" s1_event
            = WorkflowEngine.Failed "INC-e1" "memory_leak_investigation" err
            /\ second = EventHandler.investigation_failed
                          "#eks-incidents" "INC-e1" err).
Proof.
  exact (handled_event_is_notified_twice
           quiet_env "#eks-incidents" (fun _ => Ok tt) s1_event
           "e1" "memory_leak_investigation" eq_refl (fun _ => eq_refl) eq_refl).
Defined.

(** ** Insights *)

Section Insights.

Import InsightGenerator.

Variable format_fixed : nat -> float -> string.
Variable float_repr : float -> string.

Lemma bind_ok_inv {A B} (m : res A) (k : A -> res B) (r : B) :
  bind m k = Ok r -> exists a, m = Ok a /\ k a = Ok r.
Proof.
  destruct m as [a|e]; cbn [bind]; intro H; [now exists a|discriminate H].
Qed.

Lemma py_num_real (v : pyval) (c : Q) :
  py_num v = Some c -> py_real v = Some (Finite c).
Proof.
  unfold py_num. destruct (py_real v) as [[q| |]|]; intro H;
    try discriminate H. now injection H as ->.
Qed.

Ltac block_inv H :=
  repeat match type of H with
         | context [bind ?m _] =>
             let E := fresh "E" in
             destruct m eqn:E; cbn [bind] in H; [|discriminate H]
         | context [if ?b then _ else _] => destruct b
         end;
  try discriminate H; injection H as <-; simpl; lia.

Ltac all_ifs :=
  cbv zeta;
  repeat match goal with |- context [if ?b then _ else _] => destruct b end;
  simpl; lia.

Lemma check_thresholds_length (query : string) (current average : pyval)
      (l : list string) :
  _check_thresholds query current average = Ok l -> List.length l <= 4.
Proof.
  unfold _check_thresholds. intro H.
  apply bind_ok_inv in H as (memory & E1 & H).
  apply bind_ok_inv in H as (cpu & E2 & H).
  apply bind_ok_inv in H as (latency & E3 & H).
  apply bind_ok_inv in H as (errors & E4 & H).
  injection H as <-.
  assert (L1 : List.length memory <= 1) by (clear - E1; block_inv E1).
  assert (L2 : List.length cpu <= 1) by (clear - E2; block_inv E2).
  assert (L3 : List.length latency <= 1) by (clear - E3; block_inv E3).
  assert (L4 : List.length errors <= 1) by (clear - E4; block_inv E4).
  rewrite !length_app. lia.
Qed.

(** The threshold checks never raise on a number, be it an infinity or
    NaN. *)
Lemma check_thresholds_real (query : string) (current average : pyval)
      (x : real) :
  py_real current = Some x ->
  exists l, _check_thresholds query current average = Ok l.
Proof.
  intro Hx. unfold _check_thresholds, py_gt_const. rewrite Hx.
  repeat match goal with
         | |- context [if ?b then _ else _] => destruct b; cbn [bind]
         end;
    eexists; reflexivity.
Qed.

Lemma check_thresholds_numeric (query : string) (current average : pyval) (c : Q) :
  py_num current = Some c ->
  exists l, _check_thresholds query current average = Ok l.
Proof.
  intro Hc. exact (check_thresholds_real _ _ _ _ (py_num_real _ _ Hc)).
Qed.

Definition reference_line (promql : string) : string :=
  "PromQL: `" ++ promql ++ "`".

Lemma generate_body_shape (query promql : string) (data : pyval)
      (insights : list string) :
  generate_body format_fixed float_repr query promql data = Ok insights ->
  exists before,
    insights = (before ++ [reference_line promql])%list
    /\ List.length before <= 9.
Proof.
  unfold generate_body. intro H.
  apply bind_ok_inv in H as (current_value & _ & H).
  apply bind_ok_inv in H as (positive & _ & H).
  apply bind_ok_inv in H as (current_insight & Ec & H).
  apply bind_ok_inv in H as (trend & _ & H). cbv zeta in H.
  apply bind_ok_inv in H as (max_value & _ & H).
  apply bind_ok_inv in H as (min_value & _ & H).
  apply bind_ok_inv in H as (avg_value & _ & H).
  apply bind_ok_inv in H as (max_positive & _ & H).
  apply bind_ok_inv in H as (in_range & _ & H).
  apply bind_ok_inv in H as (range_insight & Er & H).
  apply bind_ok_inv in H as (thresholds & Et & H).
  apply bind_ok_inv in H as (anomalies & _ & H).
  apply bind_ok_inv in H as (anomaly_insight & Ea & H).
  apply bind_ok_inv in H as (series_count & _ & H).
  apply bind_ok_inv in H as (many & _ & H).
  cbv zeta in H. injection H as <-.
  match goal with
  | |- exists before, (?a ++ ?b ++ ?c ++ ?d ++ ?e ++ ?f ++ [?r])%list = _ /\ _ =>
      exists (a ++ b ++ c ++ d ++ e ++ f)%list
  end.
  split; [now rewrite <- !app_assoc|].
  rewrite !length_app.
  apply check_thresholds_length in Et.
  assert (Lc : List.length current_insight <= 1) by (clear - Ec; block_inv Ec).
  assert (Lr : List.length range_insight <= 1) by (clear - Er; block_inv Er).
  assert (La : List.length anomaly_insight <= 1) by (clear - Ea; block_inv Ea).
  match goal with
  | |- _ + (List.length ?b + (_ + (_ + (_ + List.length ?f)))) <= 9 =>
      assert (Lb : List.length b <= 1) by all_ifs;
      assert (Lf : List.length f <= 1) by all_ifs
  end.
  lia.
Qed.

(** X11.  InsightGenerator.generate always answers with a list that is
    not empty: either the single line "Unable to generate insights", when
    something in the data could not be compared or measured, or at most
    nine insights followed by the line that quotes the PromQL query. *)
Theorem generate_always_answers (query promql : string) (data : pyval) :
  generate format_fixed float_repr query promql data
  = ["Unable to generate insights"]
  \/ exists before,
      generate format_fixed float_repr query promql data
      = (before ++ [reference_line promql])%list
      /\ List.length before <= 9.
Proof.
  unfold generate.
  destruct (generate_body format_fixed float_repr query promql data)
    as [insights|e] eqn:E; [right|left; reflexivity].
  exact (generate_body_shape _ _ _ _ E).
Qed.

Lemma check_thresholds_small (query : string) (current average : pyval) (c : Q) :
  py_num current = Some c -> (c <= 1)%Q ->
  _check_thresholds query current average = Ok [].
Proof.
  intros Hc Hle. unfold _check_thresholds, py_gt_const.
  rewrite (py_num_real _ _ Hc). cbn [real_ltb].
  assert (F : forall k : Q, (1 <= k)%Q -> Qltb k c = false).
  { intros k Hk. unfold Qltb. apply negb_false_iff.
    apply Qle_bool_iff. now apply Qle_trans with 1%Q. }
  rewrite (F 90%Q), (F 80%Q), (F 70%Q), (F 85%Q), (F 3000%Q), (F 1000%Q),
    (F 500%Q), (F 5%Q), (F 1%Q) by (unfold Qle; simpl; lia).
  repeat match goal with
         | |- context [if ?b then _ else _] => destruct b; cbn [bind]
         end;
    reflexivity.
Qed.

(** X12.  The threshold checks compare the current value only under a
    word of the query.  A query that names none of memory, cpu, latency,
    duration, error gives no threshold insight whatever the current value
    is, even one that cannot be compared; with a number as current value
    the checks never raise, give at most four insights (one per family),
    and give none when the number is at most 1. *)
Theorem check_thresholds_edges (query : string) (current average : pyval) :
  (Str.contains "memory" (Str.lower query) = false ->
   Str.contains "cpu" (Str.lower query) = false ->
   Str.contains "latency" (Str.lower query) = false ->
   Str.contains "duration" (Str.lower query) = false ->
   Str.contains "error" (Str.lower query) = false ->
   _check_thresholds query current average = Ok [])
  /\ (forall c, py_num current = Some c ->
        exists l, _check_thresholds query current average = Ok l
                  /\ List.length l <= 4
                  /\ ((c <= 1)%Q -> l = [])).
Proof.
  split.
  - intros H1 H2 H3 H4 H5. unfold _check_thresholds.
    now rewrite H1, H2, H3, H4, H5.
  - intros c Hc.
    destruct (check_thresholds_numeric query current average c Hc) as (l & Hl).
    exists l. split; [exact Hl|].
    split; [now apply check_thresholds_length in Hl|].
    intro Hle. rewrite (check_thresholds_small _ _ _ _ Hc Hle) in Hl.
    now injection Hl as <-.
Qed.

Lemma check_thresholds_edges_witness :
  exists l, _check_thresholds "memory of pod x" (PyInt 1) PyNone = Ok l
            /\ List.length l <= 4
            /\ ((1 <= 1)%Q -> l = []).
Proof.
  refine (proj2 (check_thresholds_edges "memory of pod x" (PyInt 1) PyNone)
                1%Q eq_refl).
Defined.

Import PrometheusClient Server.

(** The four numbers of a parsed answer: all the [int] 0, or all floats *)
Definition zeros_or_floats (r : RangeResult) : Prop :=
  (current_value r = PyInt 0 /\ max_value r = PyInt 0
   /\ min_value r = PyInt 0 /\ average_value r = PyInt 0)
  \/ exists c M m a,
      current_value r = PyFloat c /\ max_value r = PyFloat M
      /\ min_value r = PyFloat m /\ average_value r = PyFloat a.

Lemma parse_range_result_numbers (response : RangeResponse) :
  zeros_or_floats (_parse_range_result response).
Proof.
  unfold _parse_range_result.
  destruct (PrometheusClient.data response) as [[[[|item results]|]]|];
    cbn [result]; try (left; repeat split; fail).
  destruct (flat_map (fun item => map snd (values item)) (item :: results))
    as [|first rest]; [left; repeat split|].
  right. repeat eexists.
Qed.

(** A strictly positive float is not a zero. *)
Lemma positive_not_zero (x : float) :
  real_ltb (Finite 0) (Float.to_real x) = true -> Float.is_zero x = false.
Proof.
  destruct x; try reflexivity. discriminate.
Qed.

(** On zeros or floats nothing in the body of generate raises. *)
Lemma generate_body_numbers (query promql : string) (r : RangeResult) :
  zeros_or_floats r ->
  exists insights,
    generate_body format_fixed float_repr query promql (range_result_dict r)
    = Ok insights.
Proof.
  intro Hr. unfold generate_body, range_result_dict.
  cbn [py_get dict_get String.eqb Ascii.eqb Bool.eqb bind truthy py_len].
  destruct Hr as [(-> & -> & -> & _) | (c & M & m & a & -> & -> & -> & _)].
  - change (py_gt_const (PyInt 0) 0) with (Ok false). cbn [bind].
    destruct (check_thresholds_numeric query (PyInt 0) (average_value r) 0%Q
                eq_refl) as (l & ->).
    cbn [bind py_gt_const py_real]. eexists. reflexivity.
  - destruct (check_thresholds_real query (PyFloat c) (average_value r)
                (Float.to_real c) eq_refl) as (l & Hl).
    repeat first
      [ progress cbn [bind py_gt_const py_real py_format_fixed py_number
                      to_float py_sub py_truediv]
      | rewrite Hl
      | match goal with
        | H : real_ltb (Finite 0) (Float.to_real ?x) = true
          |- context [Float.is_zero ?x] => rewrite (positive_not_zero x H)
        | |- context [py_ge_const (PyFloat ?x) ?k] =>
            unfold py_ge_const; cbn [py_real];
            destruct (Float.to_real x) eqn:?
        | |- context [if ?b then _ else _] => destruct b eqn:?
        end ];
      eexists; reflexivity.
Qed.

Lemma parsed_range_generates (query promql : string) (response : RangeResponse) :
  exists before,
    generate format_fixed float_repr query promql
             (range_result_dict (_parse_range_result response))
    = (before ++ [reference_line promql])%list.
Proof.
  unfold generate.
  destruct (generate_body_numbers query promql _
              (parse_range_result_numbers response)) as (insights & E).
  rewrite E.
  destruct (generate_body_shape _ _ _ _ E) as (before & -> & _).
  now exists before.
Qed.

(** X13.  What _parse_range_result returns can always be turned into
    insights: for every answer of Prometheus, generate on the parsed data
    does not fall back to "Unable to generate insights" but ends with the
    line that quotes the PromQL query; for an answer without any series
    that line is the only insight. *)
Theorem parsed_data_yields_insights (query promql : string) :
  (forall response : RangeResponse,
      exists before,
        generate format_fixed float_repr query promql
                 (range_result_dict (_parse_range_result response))
        = (before ++ [reference_line promql])%list)
  /\ generate format_fixed float_repr query promql
              (range_result_dict
                 (_parse_range_result
                    (mkRangeResponse (Some (mkRangeData (Some []))))))
     = [reference_line promql].
Proof.
  split; [intro response; apply parsed_range_generates|].
  change (_parse_range_result (mkRangeResponse (Some (mkRangeData (Some [])))))
    with (mkRangeResult (PyInt 0) (PyInt 0) (PyInt 0) (PyInt 0) "unknown" [] 0).
  unfold generate, generate_body, range_result_dict.
  cbn [current_value max_value min_value
       average_value trend rr_values series_count map
       py_get dict_get String.eqb Ascii.eqb Bool.eqb bind truthy py_len].
  change (py_gt_const (PyInt 0) 0) with (Ok false). cbn [bind].
  rewrite (check_thresholds_small query (PyInt 0) (PyInt 0) 0%Q eq_refl)
    by (unfold Qle; simpl; lia).
  cbn [bind].
  reflexivity.
Qed.

End Insights.

(** ** The query endpoint *)

Section QueryEndpoint.

Import QueryTranslator PrometheusClient InsightGenerator Server.

Variable format_fixed : nat -> float -> string.
Variable float_repr : float -> string.

Lemma scan_templates_time_range (templates : list Template) (q ql : string)
      (p d c tr : string) (ps : option (list (string * string))) :
  scan_templates templates q ql = Ok (Some (Translated p d c tr ps)) ->
  tr = _extract_time_range q.
Proof.
  induction templates as [|t templates IH]; simpl; [discriminate|].
  destruct (Re.search (pattern t) ql) as [[m|]|]; cbn [bind];
    [| exact IH | discriminate].
  destruct (_extract_parameters m t); cbn [bind]; [|discriminate].
  destruct (format (promql t) a); cbn [bind]; [|discriminate].
  intro H. now injection H as _ _ _ <- _.
Qed.

(** Whatever the templates, a translation carries the time range that
    _extract_time_range reads in the query. *)
Lemma translate_time_range (templates : list Template) (q : string)
      (p d c tr : string) (ps : option (list (string * string))) :
  translate templates q = Translated p d c tr ps ->
  tr = _extract_time_range q.
Proof.
  unfold translate.
  destruct (scan_templates templates q (Str.lower q)) as [[r|]|] eqn:E;
    cbn [bind].
  - intros ->. now apply scan_templates_time_range in E.
  - destruct (_construct_from_keywords q); intro H;
      [now injection H as _ _ _ <- _ | discriminate].
  - discriminate.
Qed.

(** The data of a successful range query are the parse of the answer. *)
Lemma query_range_parsed (t : Transport) (q tr step : string)
      (parsed : RangeResult) (raw : RangeResponse) :
  query_range t q tr step = RangeOk parsed raw ->
  parsed = _parse_range_result raw.
Proof.
  unfold query_range.
  destruct (_parse_time_range tr (utcnow t)) as [start|e]; cbn [bind];
    [|discriminate].
  destruct (send t q (timestamp t start) (timestamp t (utcnow t)) step)
    as [[status answer]|e]; cbn [bind]; [|discriminate].
  destruct (status =? 200)%nat; intro H;
    [now injection H as <- <- | discriminate H].
Qed.

(** The window of the range query: the [time_range] of the request when it
    is given and not empty, and otherwise what the text of the query says. *)
Definition effective_time_range (request : QueryRequest) : string :=
  match time_range request with
  | Some r => if String.eqb r "" then _extract_time_range (query request) else r
  | None => _extract_time_range (query request)
  end.

(** X14.  The answer of [POST /api/v1/query] has one of two shapes.  A
    success carries the PromQL text of the translation of the query, the
    parse of the range answer that Prometheus gave for that text over the
    effective time range, and insights that end with the line quoting the
    PromQL text; it has no error.  A failure carries an error text and
    nothing else: the error of the translator, in which case nothing is
    asked of Prometheus, or the error of the range query. *)
Theorem endpoint_answer_shape
        (templates : list Template) (t : Transport) (request : QueryRequest) :
  let response := query_endpoint format_fixed float_repr templates t request in
  (success response = true ->
   exists promql d c ps parsed raw before,
     translate templates (query request)
     = Translated promql d c (_extract_time_range (query request)) ps
     /\ promql_query response = Some promql
     /\ query_range t promql (effective_time_range request) "15s"
        = RangeOk parsed raw
     /\ data response = Some parsed
     /\ insights response = Some (before ++ [reference_line promql])%list
     /\ error response = None)
  /\ (success response = false ->
      exists e,
        response = mkQueryResponse false None None None (Some e)
        /\ (translate templates (query request) = NotTranslated e
            \/ exists promql d c ps,
                translate templates (query request)
                = Translated promql d c (_extract_time_range (query request)) ps
                /\ query_range t promql (effective_time_range request) "15s"
                   = RangeFailed e)).
Proof.
  unfold query_endpoint.
  destruct (translate templates (query request))
    as [promql d c tr ps | e] eqn:T.
  - pose proof (translate_time_range _ _ _ _ _ _ _ T) as Htr. subst tr.
    fold (effective_time_range request).
    destruct (query_range t promql (effective_time_range request) "15s")
      as [parsed raw | e] eqn:R; cbn; split; intro H; try discriminate H.
    + pose proof (query_range_parsed _ _ _ _ _ _ R) as Hp. subst parsed.
      destruct (parsed_range_generates format_fixed float_repr
                  (query request) promql raw) as (before & Hb).
      exists promql, d, c, ps, (_parse_range_result raw), raw, before.
      rewrite Hb.
      repeat split; try reflexivity. exact R.
    + exists e. split; [reflexivity|]. right.
      exists promql, d, c, ps. split; [reflexivity|exact R].
  - cbn. split; intro H; [discriminate H|].
    exists e. split; [reflexivity|now left].
Qed.

End QueryEndpoint.

(** ** The client of the metrics query gateway *)

Section McpClient.

Import PrometheusMCP WorkflowEngine.

(** The keys of the dictionary that the client returns, in order. *)
Definition metrics_keys : list string :=
  ["success"; "current"; "max"; "min"; "average"; "trend"; "anomalies";
   "promql"; "insights"; "values"].

Definition field (k : string) (default : pyval) (d : list (string * pyval))
  : pyval :=
  match dict_get k d with Some v => v | None => default end.

Lemma parse_query_result_keys (result : pyval) :
  exists d, _parse_query_result result = PyDict d /\ map fst d = metrics_keys.
Proof.
  unfold _parse_query_result.
  destruct result as [| | | | | |r];
    try (eexists; split; reflexivity).
  cbn [py_get bind].
  destruct (match dict_get "data" r with Some x => x | None => PyDict [] end)
    as [| | | | | |d];
    try (eexists; split; reflexivity).
Qed.

(** X15.  PrometheusMCPClient._parse_query_result never raises and always
    returns a dictionary with the same ten keys.  When the answer of the
    server is an object whose [data] is an object or is missing, the
    result says success = True whatever the answer's own [success] entry
    is, and every missing number is 0, a missing trend is "unknown"; when
    the answer is not an object, or its [data] is anything but an object
    (null in a failure answer), the result is the fallback with
    success = False. *)
Theorem parse_query_result_total (result : pyval) :
  (exists d, _parse_query_result result = PyDict d /\ map fst d = metrics_keys)
  /\ (forall r data,
         result = PyDict r ->
         field "data" (PyDict []) r = PyDict data ->
         _parse_query_result result
         = PyDict [("success", PyBool true);
                   ("current", field "current_value" (PyInt 0) data);
                   ("max", field "max_value" (PyInt 0) data);
                   ("min", field "min_value" (PyInt 0) data);
                   ("average", field "average_value" (PyInt 0) data);
                   ("trend", field "trend" (PyStr "unknown") data);
                   ("anomalies", field "anomalies" (PyList []) data);
                   ("promql", field "promql_query" (PyStr "") r);
                   ("insights", field "insights" (PyList []) r);
                   ("values", field "values" (PyList []) data)])
  /\ (((forall r, result <> PyDict r)
       \/ exists r, result = PyDict r
                    /\ forall data, field "data" (PyDict []) r <> PyDict data) ->
      _parse_query_result result = _get_fallback_metrics).
Proof.
  split; [apply parse_query_result_keys|]. split.
  - intros r data -> Hd. unfold _parse_query_result, field in *.
    cbn [py_get bind]. rewrite Hd. reflexivity.
  - intros [H | (r & -> & H)]; unfold _parse_query_result.
    + destruct result; try reflexivity. now destruct (H d).
    + cbn [py_get bind]. unfold field in H.
      destruct (match dict_get "data" r with Some x => x | None => PyDict [] end);
        try reflexivity.
      now destruct (H d).
Qed.

Lemma parse_query_result_total_witness :
  _parse_query_result
    (PyDict [("success", PyBool false); ("error", PyStr "Query range failed: 500")])
  = PyDict [("success", PyBool true);
            ("current", PyInt 0); ("max", PyInt 0); ("min", PyInt 0);
            ("average", PyInt 0); ("trend", PyStr "unknown");
            ("anomalies", PyList []); ("promql", PyStr "");
            ("insights", PyList []); ("values", PyList [])].
Proof.
  exact (proj1 (proj2 (parse_query_result_total
                         (PyDict [("success", PyBool false);
                                  ("error", PyStr "Query range failed: 500")])))
               [("success", PyBool false); ("error", PyStr "Query range failed: 500")]
               [] eq_refl eq_refl).
Defined.

Variable mcp_url : string.
Variable cluster_name : string.
Variable post : Exchange.

Lemma query_keys (q : string) :
  exists d, query mcp_url cluster_name post q = PyDict d
            /\ map fst d = metrics_keys.
Proof.
  unfold query.
  destruct (post _ _) as [[status [result|e]]|e];
    try (eexists; split; reflexivity).
  - destruct (status =? 200)%nat; [apply parse_query_result_keys|].
    eexists; split; reflexivity.
  - destruct (status =? 200)%nat; eexists; split; reflexivity.
Qed.

(** The body of the request that carries the query [q]. *)
Definition request_of (q : string) : pyval :=
  PyDict [("query", PyStr q);
          ("context", PyDict [("cluster", PyStr cluster_name)])].

(** X27.  Every method of PrometheusMCPClient answers with a dictionary
    of the same ten keys, whatever the gateway does.  Unless the gateway
    answers the request with status 200 and a body that decodes, in which
    case the answer is what _parse_query_result makes of the body, the
    answer is the fallback, whose success is False. *)
Theorem client_answers_keep_shape
        (pod namespace kind service node metric resource : string) :
  (forall answer,
      In answer [get_pod_metrics mcp_url cluster_name post pod namespace kind;
                 get_service_metrics mcp_url cluster_name post service kind;
                 get_node_metrics mcp_url cluster_name post node;
                 detect_anomalies mcp_url cluster_name post metric resource] ->
      exists d, answer = PyDict d /\ map fst d = metrics_keys)
  /\ (forall q,
         query mcp_url cluster_name post q = _get_fallback_metrics
         \/ exists result,
             post (mcp_url ++ "/api/v1/query") (request_of q)
             = Ok (200, Ok result)
             /\ query mcp_url cluster_name post q = _parse_query_result result).
Proof.
  split.
  - intros answer [<- | [<- | [<- | [<- | []]]]]; apply query_keys.
  - intro q. unfold query. fold (request_of q).
    destruct (post (mcp_url ++ "/api/v1/query") (request_of q))
      as [[status [result|e]]|e]; try (now left).
    + destruct (status =? 200)%nat eqn:E; [|now left].
      apply Nat.eqb_eq in E. subst status. right. now exists result.
    + left. now destruct (status =? 200)%nat.
Qed.

Lemma keyed_dict (d : list (string * pyval)) :
  map fst d = metrics_keys ->
  exists v1 v2 v3 v4 v5 v6 v7 v8 v9 v10,
    d = [("success", v1); ("current", v2); ("max", v3); ("min", v4);
         ("average", v5); ("trend", v6); ("anomalies", v7); ("promql", v8);
         ("insights", v9); ("values", v10)].
Proof.
  unfold metrics_keys. intro H.
  repeat (destruct d as [|[? ?] d]; [discriminate H|];
          cbn [map fst] in H; injection H as <- H).
  destruct d; [|discriminate H].
  repeat eexists.
Qed.

Lemma dict_get_set {V} (k : string) (x : V) (m : list (string * V)) :
  dict_get k (dict_set k x m) = Some x.
Proof.
  induction m as [|[k' v] m IH]; cbn [dict_set dict_get].
  - now rewrite String.eqb_refl.
  - destruct (String.eqb k k') eqn:E; cbn [dict_get].
    + now rewrite String.eqb_refl.
    + now rewrite E.
Qed.

Variable env : Env.

(** X16.  With PrometheusMCPClient as the Prometheus adapter of the
    engine, collect_cpu_metrics never fails, whatever the gateway answers
    or however the exchange breaks; and since the dictionary of the client
    has neither a [throttling] nor a [throttling_ratio] entry, the step
    reports throttling = False and the following check_cpu_throttling
    reports throttling_detected = False with a ratio of 0, for every
    answer. *)
Theorem cpu_throttling_is_never_detected (ctx : Context) :
  (forall q, prometheus_mcp_query env q
             = Ok (query mcp_url cluster_name post q)) ->
  exists usage ctx1,
    _collect_cpu_metrics env ctx
    = Ok (PyDict [("success", PyBool true); ("cpu_usage", usage);
                  ("throttling", PyBool false)], ctx1)
    /\ _check_cpu_throttling ctx1
       = Ok (PyDict [("success", PyBool true);
                     ("throttling_detected", PyBool false);
                     ("throttling_ratio", PyInt 0)], ctx1).
Proof.
  intro Henv. unfold _collect_cpu_metrics. rewrite Henv.
  destruct (query_keys ("Show me CPU usage for pod "
                          ++ str (float_repr env) (ctx_get ctx "pod_name")
                          ++ " over the last hour")) as (d & -> & Hk).
  destruct (keyed_dict d Hk)
    as (v1 & v2 & v3 & v4 & v5 & v6 & v7 & v8 & v9 & v10 & ->).
  cbn [bind py_get dict_get String.eqb Ascii.eqb Bool.eqb].
  eexists. eexists. split; [reflexivity|].
  unfold _check_cpu_throttling, ctx_metric, ctx_set_metric.
  cbn [metrics].
  rewrite dict_get_set. reflexivity.
Qed.

End McpClient.

(** The quiet environment with PrometheusMCPClient in front of a gateway
    that cannot be reached. *)
Definition unreachable_gateway : PrometheusMCP.Exchange :=
  fun _ _ => Raise (AdapterError "Cannot connect to host").

Definition mcp_env : WorkflowEngine.Env :=
  WorkflowEngine.mkEnv
    (WorkflowEngine.float_repr quiet_env)
    (WorkflowEngine.clock quiet_env)
    (WorkflowEngine.isoformat quiet_env)
    (fun q => Ok (PrometheusMCP.query "http://prometheus-mcp-server:8080"
                    "PetAdoptions-EKS" unreachable_gateway q))
    (WorkflowEngine.cloudwatch_get_service_metrics quiet_env)
    (WorkflowEngine.kubernetes_get_node_metrics quiet_env)
    (WorkflowEngine.kubernetes_get_pod_events quiet_env)
    (WorkflowEngine.kubernetes_get_recent_changes quiet_env)
    (WorkflowEngine.kubernetes_get_resource_limits quiet_env)
    (WorkflowEngine.kubernetes_get_pods_on_node quiet_env)
    (WorkflowEngine.kubernetes_get_eviction_events quiet_env)
    (WorkflowEngine.kubernetes_get_pod_logs quiet_env)
    (WorkflowEngine.kubernetes_get_restart_count quiet_env)
    (WorkflowEngine.xray_get_slow_traces quiet_env)
    (WorkflowEngine.xray_get_service_map quiet_env).

Definition fresh_context : WorkflowEngine.Context :=
  WorkflowEngine.mkContext "INC-e1" "high_cpu_investigation" s1_event
                           0%Z [] [] (PyList []) [] [].

Lemma cpu_throttling_is_never_detected_witness :
  exists usage ctx1,
    WorkflowEngine._collect_cpu_metrics mcp_env fresh_context
    = Ok (PyDict [("success", PyBool true); ("cpu_usage", usage);
                  ("throttling", PyBool false)], ctx1)
    /\ WorkflowEngine._check_cpu_throttling ctx1
       = Ok (PyDict [("success", PyBool true);
                     ("throttling_detected", PyBool false);
                     ("throttling_ratio", PyInt 0)], ctx1).
Proof.
  exact (cpu_throttling_is_never_detected
           "http://prometheus-mcp-server:8080" "PetAdoptions-EKS"
           unreachable_gateway mcp_env fresh_context (fun _ => eq_refl)).
Defined.

(** ** Resource usage on a node *)

Section NodeUsage.

Import WorkflowEngine.

(** The entry [k] of a pod, as check_resource_usage reads it. *)
Definition usage (k : string) (p : pyval) : res pyval := py_get p k (PyInt 0).

(** The integer under [k], 0 when there is none. *)
Definition usage_int (k : string) (p : pyval) : Z :=
  match usage k p with Ok (PyInt z) => z | _ => 0%Z end.

(** A pod whose cpu and memory entries are integers, or are missing. *)
Definition int_pod (p : pyval) : Prop :=
  (exists c, usage "cpu" p = Ok (PyInt c))
  /\ (exists m, usage "memory" p = Ok (PyInt m)).

Definition total (k : string) (pods : list pyval) : Z :=
  fold_left Z.add (map (usage_int k) pods) 0%Z.

Lemma Qltb_inject_Z (a b : Z) : Qltb (inject_Z a) (inject_Z b) = (a <? b)%Z.
Proof.
  unfold Qltb, Qle_bool, inject_Z. simpl. rewrite !Z.mul_1_r.
  rewrite Z.ltb_antisym. reflexivity.
Qed.

Lemma py_sum_from_ints (k : string) (pods : list pyval) :
  Forall (fun p => exists z, usage k p = Ok (PyInt z)) pods ->
  forall acc,
    py_sum_from (usage k) (PyInt acc) pods
    = Ok (PyInt (fold_left Z.add (map (usage_int k) pods) acc)).
Proof.
  induction 1 as [|p pods (z & Hz) _ IH]; intro acc; [reflexivity|].
  cbn [py_sum_from map fold_left]. unfold usage_int. rewrite Hz.
  cbn [bind py_add]. apply IH.
Qed.

(** The first of the largest: what is before it is smaller, what is after
    it is not larger. *)
Definition first_largest (k : string) (h : pyval) (l : list pyval) : Prop :=
  exists before after,
    l = (before ++ h :: after)%list
    /\ (forall p, In p before -> (usage_int k p < usage_int k h)%Z)
    /\ (forall p, In p after -> (usage_int k p <= usage_int k h)%Z).

Lemma py_max_from_ints (k : string) (rest : list pyval) :
  Forall (fun p => exists z, usage k p = Ok (PyInt z)) rest ->
  forall best,
    exists h,
      py_max_from (usage k) (best, PyInt (usage_int k best)) rest = Ok h
      /\ first_largest k h (best :: rest).
Proof.
  induction 1 as [|x rest (z & Hz) _ IH]; intro best.
  - exists best. split; [reflexivity|].
    exists [], []. repeat split; intros p [].
  - cbn [py_max_from]. rewrite Hz. cbn [bind py_gt py_real real_ltb snd].
    rewrite Qltb_inject_Z.
    assert (Hx : usage_int k x = z) by (unfold usage_int; now rewrite Hz).
    destruct (usage_int k best <? z)%Z eqn:E.
    + apply Z.ltb_lt in E. rewrite <- Hx.
      destruct (IH x) as (h & Hh & before & after & Hsplit & Hb & Ha).
      exists h. split; [exact Hh|].
      exists (best :: before), after. split; [now rewrite Hsplit|].
      split; [|exact Ha].
      intros p [<- | Hp]; [|now apply Hb].
      destruct before as [|b before]; cbn [app] in Hsplit.
      * injection Hsplit as <- _. lia.
      * injection Hsplit as <- _.
        specialize (Hb x (or_introl eq_refl)). lia.
    + apply Z.ltb_ge in E.
      destruct (IH best) as (h & Hh & before & after & Hsplit & Hb & Ha).
      exists h. split; [exact Hh|].
      destruct before as [|b before]; cbn [app] in Hsplit.
      * injection Hsplit as <- <-.
        exists [], (x :: rest). split; [reflexivity|].
        split; [intros p []|].
        intros p [<- | Hp]; [lia|now apply Ha].
      * injection Hsplit as <- ->.
        exists (best :: x :: before), after. split; [reflexivity|].
        split; [|exact Ha].
        intros p [<- | [<- | Hp]].
        -- apply Hb. now left.
        -- specialize (Hb best (or_introl eq_refl)). lia.
        -- apply Hb. now right.
Qed.

Variable env : Env.

(** The context entry that list_pods_on_node leaves. *)
Definition pods_on_node (ctx : Context) : option pyval :=
  dict_get "pods_on_node" (scratch ctx).

Lemma check_resource_usage_ints (ctx : Context) (pods : list pyval) :
  pods_on_node ctx = Some (PyList pods) ->
  Forall int_pod pods ->
  exists hog,
    _check_resource_usage ctx
    = Ok (PyDict [("success", PyBool true);
                  ("total_cpu", PyInt (total "cpu" pods));
                  ("total_memory", PyInt (total "memory" pods));
                  ("resource_hog", hog)], ctx)
    /\ match pods with
       | [] => hog = PyNone
       | _ => first_largest "memory" hog pods
       end.
Proof.
  intros Hp Hints. unfold _check_resource_usage.
  unfold pods_on_node in Hp. rewrite Hp. cbn [py_iter bind].
  assert (Hc : Forall (fun p => exists z, usage "cpu" p = Ok (PyInt z)) pods)
    by (eapply Forall_impl; [|exact Hints]; intros p [H _]; exact H).
  assert (Hm : Forall (fun p => exists z, usage "memory" p = Ok (PyInt z)) pods)
    by (eapply Forall_impl; [|exact Hints]; intros p [_ H]; exact H).
  unfold py_sum.
  change (fun p : pyval => py_get p "cpu" (PyInt 0)) with (usage "cpu").
  change (fun p : pyval => py_get p "memory" (PyInt 0)) with (usage "memory").
  rewrite (py_sum_from_ints "cpu" pods Hc 0%Z),
    (py_sum_from_ints "memory" pods Hm 0%Z).
  cbn [bind]. fold (total "cpu" pods). fold (total "memory" pods).
  destruct pods as [|first rest].
  - exists PyNone. split; reflexivity.
  - cbn [truthy py_max bind].
    inversion Hm as [|? ? (m & Hfirst) Hrest]; subst.
    rewrite Hfirst. cbn [bind].
    destruct (py_max_from_ints "memory" rest Hrest first) as (h & Hh & Hfl).
    unfold usage_int in Hh at 1. rewrite Hfirst in Hh.
    rewrite Hh. cbn [bind].
    exists h. split; [reflexivity|exact Hfl].
Qed.

(** X17.  check_resource_usage on pods whose cpu and memory entries are
    integers (or missing, which counts as 0): the totals are the sums of
    the entries, and the resource hog is the first of the pods with the
    largest memory: every pod before it has less memory, no pod after it
    has more.  With no pod at all the totals are 0 and there is no hog. *)
Theorem resource_hog_is_first_largest (ctx : Context) (pods : list pyval) :
  pods_on_node ctx = Some (PyList pods) ->
  Forall int_pod pods ->
  exists hog,
    _check_resource_usage ctx
    = Ok (PyDict [("success", PyBool true);
                  ("total_cpu", PyInt (total "cpu" pods));
                  ("total_memory", PyInt (total "memory" pods));
                  ("resource_hog", hog)], ctx)
    /\ match pods with
       | [] => hog = PyNone
       | _ => first_largest "memory" hog pods
       end.
Proof.
  apply check_resource_usage_ints.
Qed.

Import Kubernetes.

Variable list_pod_for_all_namespaces : string -> ListAnswer.

Lemma pod_info_int (pod : ApiPod) : int_pod (pod_info pod).
Proof.
  split; eexists; reflexivity.
Qed.

Lemma total_pod_info (k : string) (items : list ApiPod) :
  k = "cpu" \/ k = "memory" -> total k (map pod_info items) = 0%Z.
Proof.
  intro Hk. unfold total.
  assert (G : forall acc, fold_left Z.add (map (usage_int k) (map pod_info items)) acc
                          = acc).
  { induction items as [|p items IH]; intro acc; [reflexivity|].
    cbn [map fold_left].
    replace (usage_int k (pod_info p)) with 0%Z
      by (destruct Hk as [-> | ->]; reflexivity).
    rewrite Z.add_0_r. apply IH. }
  apply G.
Qed.

(** X18.  With KubernetesIntegration.get_pods_on_node as the adapter of
    the engine: every pod that it lists carries cpu = 0 and memory = 0, so
    after list_pods_on_node the step check_resource_usage always reports
    total_cpu = 0 and total_memory = 0, and names as resource hog the
    first pod of the list, whatever the pods use; when the API call fails
    with an ApiException, or lists nothing, there is no hog. *)
Theorem node_usage_is_always_zero (ctx : Context) :
  (forall n, kubernetes_get_pods_on_node env n
             = get_pods_on_node list_pod_for_all_namespaces n (float_repr env)) ->
  (forall e, list_pod_for_all_namespaces
               ("spec.nodeName=" ++ str (float_repr env) (ctx_get ctx "node_name"))
             <> Crashed e) ->
  exists r1 ctx1 pods,
    _list_pods_on_node env ctx = Ok (r1, ctx1)
    /\ pods_on_node ctx1 = Some (PyList pods)
    /\ _check_resource_usage ctx1
       = Ok (PyDict [("success", PyBool true);
                     ("total_cpu", PyInt 0);
                     ("total_memory", PyInt 0);
                     ("resource_hog", match pods with
                                      | [] => PyNone
                                      | first :: _ => first
                                      end)], ctx1).
Proof.
  intros Henv Hok. unfold _list_pods_on_node. rewrite Henv.
  unfold get_pods_on_node.
  destruct (list_pod_for_all_namespaces _) as [items | msg | e] eqn:A;
    [| | now destruct (Hok e)]; cbn [bind py_len].
  - eexists. eexists. exists (map pod_info items).
    split; [reflexivity|].
    assert (Hp : pods_on_node (ctx_set ctx "pods_on_node" (PyList (map pod_info items)))
                 = Some (PyList (map pod_info items)))
      by (unfold pods_on_node, ctx_set; cbn [scratch]; apply dict_get_set).
    split; [exact Hp|].
    destruct (check_resource_usage_ints _ _ Hp) as (hog & Hr & Hhog).
    { apply Forall_forall. intros p Hin. apply in_map_iff in Hin.
      destruct Hin as (pod & <- & _). apply pod_info_int. }
    rewrite Hr. rewrite !total_pod_info by tauto.
    destruct items as [|first rest]; cbn [map] in *.
    + now rewrite Hhog.
    + destruct Hhog as (before & after & Hsplit & Hb & _).
      destruct before as [|b before]; cbn [app] in Hsplit.
      * now injection Hsplit as <- _.
      * injection Hsplit as <- Hrest.
        specialize (Hb (pod_info first) (or_introl eq_refl)).
        exfalso. revert Hb.
        assert (Hin : In hog (map pod_info rest)).
        { rewrite Hrest. apply in_or_app. right. now left. }
        apply in_map_iff in Hin. destruct Hin as (pod & <- & _).
        cbv. discriminate.
  - eexists. eexists. exists [].
    split; [reflexivity|].
    assert (Hp : pods_on_node (ctx_set ctx "pods_on_node" (PyList [])) = Some (PyList []))
      by (unfold pods_on_node, ctx_set; cbn [scratch]; apply dict_get_set).
    split; [exact Hp|].
    destruct (check_resource_usage_ints _ _ Hp (Forall_nil _)) as (hog & Hr & ->).
    exact Hr.
Qed.

End NodeUsage.

Definition three_pods : list pyval :=
  [PyDict [("name", PyStr "a"); ("cpu", PyInt 1); ("memory", PyInt 5)];
   PyDict [("name", PyStr "b"); ("cpu", PyInt 2); ("memory", PyInt 9)];
   PyDict [("name", PyStr "c"); ("memory", PyInt 9)]].

Definition node_context (pods : list pyval) : WorkflowEngine.Context :=
  WorkflowEngine.mkContext "INC-e1" "node_pressure_investigation" s1_event
                           0%Z [] [] (PyList []) []
                           [("pods_on_node", PyList pods)].

Lemma resource_hog_is_first_largest_witness :
  exists hog,
    WorkflowEngine._check_resource_usage (node_context three_pods)
    = Ok (PyDict [("success", PyBool true);
                  ("total_cpu", PyInt (total "cpu" three_pods));
                  ("total_memory", PyInt (total "memory" three_pods));
                  ("resource_hog", hog)], node_context three_pods)
    /\ first_largest "memory" hog three_pods.
Proof.
  refine (resource_hog_is_first_largest (node_context three_pods) three_pods
            eq_refl _).
  repeat constructor; eexists; reflexivity.
Defined.

(** An API that lists two running pods on every node. *)
Definition two_pods_api : string -> Kubernetes.ListAnswer :=
  fun _ => Kubernetes.Listed
             [Kubernetes.mkApiPod (PyStr "web-1") (PyStr "default")
                                  (Some (PyStr "Running"));
              Kubernetes.mkApiPod (PyStr "web-2") (PyStr "default") None].

Definition k8s_env : WorkflowEngine.Env :=
  WorkflowEngine.mkEnv
    (WorkflowEngine.float_repr quiet_env)
    (WorkflowEngine.clock quiet_env)
    (WorkflowEngine.isoformat quiet_env)
    (WorkflowEngine.prometheus_mcp_query quiet_env)
    (WorkflowEngine.cloudwatch_get_service_metrics quiet_env)
    (WorkflowEngine.kubernetes_get_node_metrics quiet_env)
    (WorkflowEngine.kubernetes_get_pod_events quiet_env)
    (WorkflowEngine.kubernetes_get_recent_changes quiet_env)
    (WorkflowEngine.kubernetes_get_resource_limits quiet_env)
    (fun n => Kubernetes.get_pods_on_node two_pods_api n
                (WorkflowEngine.float_repr quiet_env))
    (WorkflowEngine.kubernetes_get_eviction_events quiet_env)
    (WorkflowEngine.kubernetes_get_pod_logs quiet_env)
    (WorkflowEngine.kubernetes_get_restart_count quiet_env)
    (WorkflowEngine.xray_get_slow_traces quiet_env)
    (WorkflowEngine.xray_get_service_map quiet_env).

Lemma node_usage_is_always_zero_witness :
  exists r1 ctx1 pods,
    WorkflowEngine._list_pods_on_node k8s_env (node_context []) = Ok (r1, ctx1)
    /\ pods_on_node ctx1 = Some (PyList pods)
    /\ WorkflowEngine._check_resource_usage ctx1
       = Ok (PyDict [("success", PyBool true);
                     ("total_cpu", PyInt 0);
                     ("total_memory", PyInt 0);
                     ("resource_hog", match pods with
                                      | [] => PyNone
                                      | first :: _ => first
                                      end)], ctx1).
Proof.
  refine (node_usage_is_always_zero k8s_env two_pods_api (node_context [])
            (fun _ => eq_refl) _).
  intros e H. discriminate H.
Defined.

(** ** The range query: windows *)

Section Windows.

Import PrometheusClient.

Local Open Scope Z_scope.

(** The length in microseconds of the unit that a time range ends with. *)
Definition unit_length (unit : ascii) : option Z :=
  if Ascii.eqb unit "h" then Some us_per_hour
  else if Ascii.eqb unit "m" then Some (60 * 1000000)
  else if Ascii.eqb unit "d" then Some (86400 * 1000000)
  else if Ascii.eqb unit "w" then Some (7 * 86400 * 1000000)
  else None.

Lemma parse_time_range_unit (init : string) (unit : ascii) (v len now : Z) :
  unit_length unit = Some len ->
  int_of_str init = Ok v ->
  _parse_time_range (init ++ String unit "") now
  = (d <- timedelta len v ;; datetime_sub now d).
Proof.
  intros Hu Hv. unfold _parse_time_range.
  rewrite split_last_snoc, Hv. cbn [bind].
  unfold unit_length in Hu.
  destruct (Ascii.eqb unit "h"); [now injection Hu as <-|].
  destruct (Ascii.eqb unit "m"); [now injection Hu as <-|].
  destruct (Ascii.eqb unit "d"); [now injection Hu as <-|].
  destruct (Ascii.eqb unit "w"); [now injection Hu as <-|].
  discriminate Hu.
Qed.

(** X19.  For a time range made of an integer count and one of the units
    h, m, d, w, when the span fits a timedelta and the start fits a
    datetime, _parse_time_range returns the end minus count times the
    unit.  The sign of the count is not checked: a count of 0 gives an
    empty window, and a negative count gives a start that lies after the
    end. *)
Theorem window_start (init : string) (unit : ascii) (v len now : Z) :
  unit_length unit = Some len ->
  int_of_str init = Ok v ->
  - timedelta_max_days <= v * len / (86400 * 1000000) <= timedelta_max_days ->
  0 <= now - v * len <= datetime_max ->
  _parse_time_range (init ++ String unit "") now = Ok (now - v * len)
  /\ (v = 0 -> now - v * len = now)
  /\ (v < 0 -> now < now - v * len).
Proof.
  intros Hu Hv Hspan Hstart.
  rewrite (parse_time_range_unit _ _ _ _ _ Hu Hv).
  unfold timedelta.
  assert (E : ((- timedelta_max_days <=? v * len / (86400 * 1000000))
               && (v * len / (86400 * 1000000) <=? timedelta_max_days))%bool
              = true).
  { apply andb_true_intro. split; apply Z.leb_le; lia. }
  rewrite E. cbn [bind]. rewrite (datetime_sub_ok _ _ Hstart).
  split; [reflexivity|]. split; [intros ->; lia|].
  intro Hneg.
  assert (0 < len).
  { unfold unit_length in Hu.
    repeat match type of Hu with
           | context [if ?b then _ else _] => destruct b
           end;
      try discriminate Hu; injection Hu as <-;
      unfold us_per_hour; lia. }
  nia.
Qed.

Lemma window_start_witness :
  _parse_time_range "-2h" 63902822400000000
  = Ok (63902822400000000 - (-2) * us_per_hour)
  /\ (-2 = 0 -> 63902822400000000 - (-2) * us_per_hour = 63902822400000000)
  /\ (-2 < 0 -> 63902822400000000 < 63902822400000000 - (-2) * us_per_hour).
Proof.
  refine (window_start "-2" "h"%char (-2) us_per_hour 63902822400000000
            eq_refl eq_refl _ _).
  - split; discriminate.
  - split; discriminate.
Defined.

(** X20.  The units agree with one another: a count of weeks gives the
    window of seven times as many days, a count of days the window of
    twenty-four times as many hours, a count of hours the window of sixty
    times as many minutes, with the same answer or the same exception for
    every end time. *)
Theorem time_units_agree (a b : string) (v : Z) (now : Z) :
  int_of_str a = Ok v ->
  (int_of_str b = Ok (7 * v) ->
   _parse_time_range (a ++ "w") now = _parse_time_range (b ++ "d") now)
  /\ (int_of_str b = Ok (24 * v) ->
      _parse_time_range (a ++ "d") now = _parse_time_range (b ++ "h") now)
  /\ (int_of_str b = Ok (60 * v) ->
      _parse_time_range (a ++ "h") now = _parse_time_range (b ++ "m") now).
Proof.
  intro Ha.
  assert (G : forall (ua ub : ascii) (la lb k : Z),
             unit_length ua = Some la -> unit_length ub = Some lb ->
             la = k * lb ->
             int_of_str b = Ok (k * v) ->
             _parse_time_range (a ++ String ua "") now
             = _parse_time_range (b ++ String ub "") now).
  { intros ua ub la lb k Hua Hub Hl Hb.
    rewrite (parse_time_range_unit _ _ _ _ _ Hua Ha),
      (parse_time_range_unit _ _ _ _ _ Hub Hb).
    unfold timedelta.
    replace (k * v * lb) with (v * la) by (subst la; ring).
    reflexivity. }
  repeat split; intro Hb.
  - apply (G "w"%char "d"%char _ _ 7 eq_refl eq_refl); [reflexivity|exact Hb].
  - apply (G "d"%char "h"%char _ _ 24 eq_refl eq_refl); [reflexivity|exact Hb].
  - apply (G "h"%char "m"%char _ _ 60 eq_refl eq_refl); [reflexivity|exact Hb].
Qed.

Lemma time_units_agree_witness :
  (int_of_str "7" = Ok (7 * 1) ->
   _parse_time_range ("1" ++ "w") 63902822400000000
   = _parse_time_range ("7" ++ "d") 63902822400000000)
  /\ (int_of_str "7" = Ok (24 * 1) ->
      _parse_time_range ("1" ++ "d") 63902822400000000
      = _parse_time_range ("7" ++ "h") 63902822400000000)
  /\ (int_of_str "7" = Ok (60 * 1) ->
      _parse_time_range ("1" ++ "h") 63902822400000000
      = _parse_time_range ("7" ++ "m") 63902822400000000).
Proof.
  exact (time_units_agree "1" "7" 1 63902822400000000 eq_refl).
Defined.

(** X21.  A time range that cannot be read is answered without asking
    Prometheus anything: for the empty text the answer is the failure
    "string index out of range", and when the text before the last
    character is not an integer (as in "h", "1.5h" or "last hour") it is
    the failure that carries the ValueError of [int]; both hold for every
    transport, so nothing depends on what a request would have returned. *)
Theorem unreadable_time_range_fails
        (t : Transport) (query step : string) :
  query_range t query "" step = RangeFailed "string index out of range"
  /\ forall init unit e,
      int_of_str init = Raise e ->
      query_range t query (init ++ String unit "") step
      = RangeFailed (exn_str e).
Proof.
  split; [reflexivity|].
  intros init unit e He. unfold query_range, _parse_time_range.
  rewrite split_last_snoc, He. reflexivity.
Qed.

Lemma unreadable_time_range_fails_witness :
  query_range quiet_transport "up" "1.5h" "15s"
  = RangeFailed "invalid literal for int() with base 10: '1.5'".
Proof.
  exact (proj2 (unreadable_time_range_fails quiet_transport "up" "15s")
               "1.5" "h"%char
               (ValueError "invalid literal for int() with base 10: '1.5'")
               eq_refl).
Defined.

End Windows.

(** ** The range query: the statistics of an answer *)

Section Statistics.

Import PrometheusClient.

Local Open Scope Z_scope.

(** The place of a float in the order of [<]: the sign class first, then
    the exponent and the mantissa, both reversed below zero.  NaN has no
    place. *)
Definition key (x : float) : option (Z * Z * Z) :=
  match x with
  | S754_nan => None
  | S754_infinity true => Some (-2, 0, 0)
  | S754_finite true m e => Some (-1, - e, - Zpos m)
  | S754_zero _ => Some (0, 0, 0)
  | S754_finite false m e => Some (1, e, Zpos m)
  | S754_infinity false => Some (2, 0, 0)
  end.

Definition key_lt (a b : Z * Z * Z) : Prop :=
  let '(a1, a2, a3) := a in
  let '(b1, b2, b3) := b in
  a1 < b1 \/ (a1 = b1 /\ (a2 < b2 \/ (a2 = b2 /\ a3 < b3))).

Lemma ltb_key (a b : float) :
  Float.ltb a b = true
  <-> match key a, key b with
      | Some ka, Some kb => key_lt ka kb
      | _, _ => False
      end.
Proof.
  unfold Float.ltb, SFltb, SFcompare.
  destruct a as [sa|sa| |sa ma ea], b as [sb|sb| |sb mb eb];
    try destruct sa; try destruct sb; cbn [key key_lt];
    try (split; [discriminate|intros H; exfalso; lia]);
    try (split; [discriminate|tauto]);
    try (split; [intros _; lia|reflexivity]);
    change (Pos.compare_cont Eq ma mb) with (Pos.compare ma mb);
    destruct (Z.compare_spec ea eb) as [He|He|He];
    destruct (Pos.compare_spec ma mb) as [Hm|Hm|Hm]; cbn [CompOpp];
    try (split; [discriminate|intros H; exfalso; lia]);
    try (split; [intros _; lia|reflexivity]).
Qed.

Lemma ltb_irrefl (a : float) : Float.ltb a a = false.
Proof.
  destruct (Float.ltb a a) eqn:E; [|reflexivity].
  apply ltb_key in E. destruct (key a) as [[[a1 a2] a3]|]; [|destruct E].
  cbn [key_lt] in E. lia.
Qed.

Lemma ltb_trans (a b c : float) :
  Float.ltb a b = true -> Float.ltb b c = true -> Float.ltb a c = true.
Proof.
  intros H1 H2. apply ltb_key in H1, H2. apply ltb_key.
  destruct (key a) as [[[a1 a2] a3]|], (key b) as [[[b1 b2] b3]|],
    (key c) as [[[c1 c2] c3]|]; cbn [key_lt] in *; try tauto; lia.
Qed.

(** What lies above [m] is not below anything that [m] is not below. *)
Lemma not_above (m y x : float) :
  Float.ltb m y = true -> Float.ltb m x = false -> Float.ltb y x = false.
Proof.
  intros Hmy Hmx. destruct (Float.ltb y x) eqn:E; [|reflexivity].
  now rewrite (ltb_trans _ _ _ Hmy E) in Hmx.
Qed.

Lemma not_below (m y x : float) :
  Float.ltb y m = true -> Float.ltb x m = false -> Float.ltb x y = false.
Proof.
  intros Hym Hxm. destruct (Float.ltb x y) eqn:E; [|reflexivity].
  now rewrite (ltb_trans _ _ _ E Hym) in Hxm.
Qed.

Local Close Scope Z_scope.

Lemma max_of_seen (rest : list float) :
  forall (m : float) (seen : list float),
    In m seen ->
    (forall x, In x seen -> Float.ltb m x = false) ->
    In (max_of m rest) (seen ++ rest)
    /\ forall x, In x (seen ++ rest) -> Float.ltb (max_of m rest) x = false.
Proof.
  induction rest as [|y rest IH]; intros m seen Hin Hall.
  - rewrite app_nil_r. now split.
  - change (max_of m (y :: rest))
      with (max_of (if Float.ltb m y then y else m) rest).
    replace (seen ++ y :: rest)%list with ((seen ++ [y]) ++ rest)%list
      by (now rewrite <- app_assoc).
    apply IH.
    + apply in_or_app. destruct (Float.ltb m y); [right; now left|now left].
    + intros x Hx. apply in_app_or in Hx.
      destruct (Float.ltb m y) eqn:E.
      * destruct Hx as [Hx | [<- | []]]; [|apply ltb_irrefl].
        exact (not_above m y x E (Hall x Hx)).
      * destruct Hx as [Hx | [<- | []]]; [now apply Hall|exact E].
Qed.

Lemma min_of_seen (rest : list float) :
  forall (m : float) (seen : list float),
    In m seen ->
    (forall x, In x seen -> Float.ltb x m = false) ->
    In (min_of m rest) (seen ++ rest)
    /\ forall x, In x (seen ++ rest) -> Float.ltb x (min_of m rest) = false.
Proof.
  induction rest as [|y rest IH]; intros m seen Hin Hall.
  - rewrite app_nil_r. now split.
  - change (min_of m (y :: rest))
      with (min_of (if Float.ltb y m then y else m) rest).
    replace (seen ++ y :: rest)%list with ((seen ++ [y]) ++ rest)%list
      by (now rewrite <- app_assoc).
    apply IH.
    + apply in_or_app. destruct (Float.ltb y m); [right; now left|now left].
    + intros x Hx. apply in_app_or in Hx.
      destruct (Float.ltb y m) eqn:E.
      * destruct Hx as [Hx | [<- | []]]; [|apply ltb_irrefl].
        exact (not_below m y x E (Hall x Hx)).
      * destruct Hx as [Hx | [<- | []]]; [now apply Hall|exact E].
Qed.

Lemma last_default {A} (l : list A) (d d' : A) :
  l <> [] -> List.last l d = List.last l d'.
Proof.
  induction l as [|y l IH]; intro H; [now destruct H|].
  destruct l as [|z l]; [reflexivity|].
  apply IH. discriminate.
Qed.

(** The samples of an answer, in the order of the series. *)
Definition samples (response : RangeResponse) : list float :=
  match data response with
  | Some d =>
      match result d with
      | Some r => flat_map (fun item => map snd (values item)) r
      | None => []
      end
  | None => []
  end.

Definition series_of (response : RangeResponse) : list Series :=
  match data response with
  | Some d => match result d with Some r => r | None => [] end
  | None => []
  end.

Lemma parse_range_result_stats (response : RangeResponse) (first : float)
      (rest : list float) :
  samples response = first :: rest ->
  _parse_range_result response
  = mkRangeResult (PyFloat (last_of first rest))
                  (PyFloat (max_of first rest))
                  (PyFloat (min_of first rest))
                  (PyFloat (Float.div (sum (first :: rest))
                                      (count (List.length (first :: rest)))))
                  (_calculate_trend (first :: rest))
                  (map (fun item =>
                          mkSeriesData (metric item) (map snd (values item))
                                       (map fst (values item)))
                       (series_of response))
                  (List.length (series_of response)).
Proof.
  unfold samples, series_of, _parse_range_result.
  destruct (data response) as [d|]; [|discriminate].
  destruct (result d) as [r|]; [|discriminate].
  destruct r as [|item r]; [discriminate|].
  intros ->. now rewrite length_map.
Qed.

(** X22.  The statistics of a range answer that has at least one sample
    are floats: current is the last sample, max and min are samples, no
    sample is above max and none is below min, whatever the samples are,
    NaN and the infinities included; and series_count is the number of
    series of the answer.  The average is the float quotient of the sum of
    the samples, added in their order from 0.0, by the float of their
    number; it is not bounded by min and max, since rounding can take it
    beyond them. *)
Theorem range_statistics_are_bounded (response : RangeResponse) :
  samples response <> [] ->
  let r := _parse_range_result response in
  exists current largest smallest,
    current_value r = PyFloat current
    /\ max_value r = PyFloat largest
    /\ min_value r = PyFloat smallest
    /\ current = List.last (samples response) Float.zero
    /\ In largest (samples response)
    /\ In smallest (samples response)
    /\ (forall x, In x (samples response) ->
          Float.ltb largest x = false /\ Float.ltb x smallest = false)
    /\ average_value r
       = PyFloat (Float.div (sum (samples response))
                            (count (List.length (samples response))))
    /\ series_count r = List.length (series_of response).
Proof.
  intros Hne r. subst r.
  destruct (samples response) as [|first rest] eqn:S; [now destruct Hne|].
  rewrite (parse_range_result_stats response first rest S).
  cbn [current_value max_value min_value average_value series_count].
  destruct (max_of_seen rest first [first] (or_introl eq_refl)) as [Hmax_in Hmax].
  { intros x [<- | []]. apply ltb_irrefl. }
  destruct (min_of_seen rest first [first] (or_introl eq_refl)) as [Hmin_in Hmin].
  { intros x [<- | []]. apply ltb_irrefl. }
  exists (last_of first rest), (max_of first rest), (min_of first rest).
  repeat split; try assumption.
  - unfold last_of. destruct rest as [|y rest]; [reflexivity|].
    change (List.last (first :: y :: rest) Float.zero)
      with (List.last (y :: rest) Float.zero).
    apply last_default. discriminate.
  - now apply Hmax.
  - now apply Hmin.
Qed.

(** An answer whose average lies above its largest sample: three samples
    of 0.1. *)
Definition three_tenths : RangeResponse :=
  mkRangeResponse
    (Some (mkRangeData
             (Some [mkSeries (PyDict [])
                             [(PyInt 1, Float.of_quotient 1 10);
                              (PyInt 2, Float.of_quotient 1 10);
                              (PyInt 3, Float.of_quotient 1 10)]]))).

Lemma three_tenths_average :
  let r := _parse_range_result three_tenths in
  max_value r = PyFloat (Float.of_quotient 1 10)
  /\ exists average,
      average_value r = PyFloat average
      /\ Float.ltb (Float.of_quotient 1 10) average = true.
Proof.
  split; [vm_compute; reflexivity|].
  eexists. split; [reflexivity|]. vm_compute. reflexivity.
Qed.

Lemma range_statistics_are_bounded_witness :
  let r := _parse_range_result three_tenths in
  exists current largest smallest,
    current_value r = PyFloat current
    /\ max_value r = PyFloat largest
    /\ min_value r = PyFloat smallest
    /\ current = List.last (samples three_tenths) Float.zero
    /\ In largest (samples three_tenths)
    /\ In smallest (samples three_tenths)
    /\ (forall x, In x (samples three_tenths) ->
          Float.ltb largest x = false /\ Float.ltb x smallest = false)
    /\ average_value r
       = PyFloat (Float.div (sum (samples three_tenths))
                            (count (List.length (samples three_tenths))))
    /\ series_count r = List.length (series_of three_tenths).
Proof.
  refine (range_statistics_are_bounded three_tenths _).
  discriminate.
Defined.

End Statistics.

(** ** The translator on its own templates *)

Section BuiltinTemplates.

Import QueryTranslator.

Definition is_atom (n : Re.node) : bool :=
  match n with Re.Atom _ _ => true | _ => false end.

(** The group [(\S+)] that ends every pattern of the table. *)
Definition word_group : Re.regex :=
  [Re.GroupOpen; Re.Atom Re.CNonSpace Re.QPlus; Re.GroupClose].

Definition all_chars (P : ascii -> bool) (s : string) : bool :=
  forallb P (list_ascii_of_string s).

Definition nonspace (c : ascii) : bool := negb (Str.isspace c).

(** [c.lower() == c] *)
Definition is_lowered (c : ascii) : bool := Ascii.eqb (Str.lower_char c) c.

Lemma rev_acc_all (P : ascii -> bool) (s acc : string) :
  all_chars P (Str.rev_acc s acc) = all_chars P s && all_chars P acc.
Proof.
  revert acc. induction s as [|c s IH]; intro acc; [reflexivity|].
  cbn [Str.rev_acc]. rewrite IH. unfold all_chars.
  cbn [list_ascii_of_string forallb].
  destruct (P c), (forallb P (list_ascii_of_string s)); reflexivity.
Qed.

Lemma rev_acc_nonempty (s acc : string) :
  acc <> "" -> Str.rev_acc s acc <> "".
Proof.
  revert acc. induction s as [|c s IH]; intros acc H; [exact H|].
  cbn [Str.rev_acc]. apply IH. discriminate.
Qed.

Lemma lower_char_idempotent (c : ascii) :
  Str.lower_char (Str.lower_char c) = Str.lower_char c.
Proof.
  destruct c as [[] [] [] [] [] [] [] []]; reflexivity.
Qed.

Lemma lower_all_lowered (s : string) : all_chars is_lowered (Str.lower s) = true.
Proof.
  induction s as [|c s IH]; [reflexivity|].
  unfold all_chars in *. cbn [Str.lower list_ascii_of_string forallb].
  rewrite IH. unfold is_lowered.
  now rewrite lower_char_idempotent, Ascii.eqb_refl.
Qed.

Lemma all_lowered_lower (s : string) :
  all_chars is_lowered s = true -> Str.lower s = s.
Proof.
  induction s as [|c s IH]; [reflexivity|].
  unfold all_chars in *. cbn [Str.lower list_ascii_of_string forallb].
  intro H. apply andb_prop in H as [Hc Hs].
  apply Ascii.eqb_eq in Hc. now rewrite Hc, IH.
Qed.

Lemma all_chars_tail (P : ascii -> bool) (c : ascii) (s : string) :
  all_chars P (String c s) = true -> P c = true /\ all_chars P s = true.
Proof.
  unfold all_chars. cbn [list_ascii_of_string forallb]. apply andb_prop.
Qed.

(** A pattern prefix without groups consumes characters and captures
    nothing: what follows it is matched on a later part of the text. *)
Lemma match_here_prefix (P : ascii -> bool) (pre tail : Re.regex) :
  forallb is_atom pre = true ->
  forall (s : string) (caps caps' : list string),
    all_chars P s = true ->
    Re.match_here (pre ++ tail)%list s caps None = Some caps' ->
    exists s', all_chars P s' = true
               /\ Re.match_here tail s' caps None = Some caps'.
Proof.
  induction pre as [|n pre IH]; intros Hpre s caps caps' Hs H.
  - now exists s.
  - cbn [forallb] in Hpre. apply andb_prop in Hpre as [Hn Hpre].
    destruct n as [cls q | | ]; try discriminate Hn. clear Hn.
    specialize (IH Hpre).
    change ((Re.Atom cls q :: pre) ++ tail)%list
      with (Re.Atom cls q :: (pre ++ tail)%list)%list in H.
    assert (Hstar : forall s,
               all_chars P s = true ->
               (fix star (s : string) (cur : option string) {struct s}
                  : option (list string) :=
                  match s with
                  | String c s' =>
                      if Re.class_match cls c then
                        match star s' (Re.push c cur) with
                        | Some m => Some m
                        | None => Re.match_here (pre ++ tail)%list s caps cur
                        end
                      else Re.match_here (pre ++ tail)%list s caps cur
                  | EmptyString => Re.match_here (pre ++ tail)%list s caps cur
                  end) s None = Some caps' ->
               exists s', all_chars P s' = true
                          /\ Re.match_here tail s' caps None = Some caps').
    { clear H Hs s. induction s as [|c s IHs]; intros Hs H.
      - now apply IH in H.
      - destruct (Re.class_match cls c).
        + cbn [Re.push] in H.
          destruct ((fix star (s : string) (cur : option string) {struct s}
                       : option (list string) :=
                       match s with
                       | String c s' =>
                           if Re.class_match cls c then
                             match star s' (Re.push c cur) with
                             | Some m => Some m
                             | None => Re.match_here (pre ++ tail)%list s caps cur
                             end
                           else Re.match_here (pre ++ tail)%list s caps cur
                       | EmptyString => Re.match_here (pre ++ tail)%list s caps cur
                       end) s None) eqn:E.
          * injection H as <-. apply IHs; [|reflexivity].
            now apply all_chars_tail in Hs.
          * now apply IH in H.
        + now apply IH in H. }
    destruct q; cbn [Re.match_here] in H.
    + destruct s as [|c s]; [discriminate|].
      destruct (Re.class_match cls c); [|discriminate].
      cbn [Re.push] in H. apply IH in H; [exact H|].
      now apply all_chars_tail in Hs.
    + now apply Hstar in H.
    + destruct s as [|c s]; [discriminate|].
      destruct (Re.class_match cls c); [|discriminate].
      cbn [Re.push] in H. apply Hstar in H; [exact H|].
      now apply all_chars_tail in Hs.
Qed.

(** What [(\S+)] captures: one text, not empty, made of characters of the
    subject that are not whitespace. *)
Lemma match_here_word (P : ascii -> bool) (s : string)
      (caps caps' : list string) :
  all_chars P s = true ->
  Re.match_here word_group s caps None = Some caps' ->
  exists g, caps' = (caps ++ [g])%list
            /\ g <> ""
            /\ all_chars nonspace g = true
            /\ all_chars P g = true.
Proof.
  intros Hs H. unfold word_group in H. cbn [Re.match_here] in H.
  assert (Hstar : forall s acc,
             all_chars P s = true ->
             acc <> "" ->
             all_chars nonspace acc = true ->
             all_chars P acc = true ->
             (fix star (s : string) (cur : option string) {struct s}
                : option (list string) :=
                match s with
                | String c s' =>
                    if Re.class_match Re.CNonSpace c then
                      match star s' (Re.push c cur) with
                      | Some m => Some m
                      | None =>
                          match cur with
                          | Some acc => Some (caps ++ [Str.rev acc])%list
                          | None => None
                          end
                      end
                    else match cur with
                         | Some acc => Some (caps ++ [Str.rev acc])%list
                         | None => None
                         end
                | EmptyString =>
                    match cur with
                    | Some acc => Some (caps ++ [Str.rev acc])%list
                    | None => None
                    end
                end) s (Some acc) = Some caps' ->
             exists g, caps' = (caps ++ [g])%list
                       /\ g <> ""
                       /\ all_chars nonspace g = true
                       /\ all_chars P g = true).
  { assert (Hend : forall acc,
               acc <> "" ->
               all_chars nonspace acc = true ->
               all_chars P acc = true ->
               Some (caps ++ [Str.rev acc])%list = Some caps' ->
               exists g, caps' = (caps ++ [g])%list
                         /\ g <> ""
                         /\ all_chars nonspace g = true
                         /\ all_chars P g = true).
    { intros acc Hne Hsp Hp E. injection E as <-.
      exists (Str.rev acc). split; [reflexivity|]. unfold Str.rev.
      rewrite !rev_acc_all, Hsp, Hp.
      repeat split.
      destruct acc as [|c acc]; [now destruct Hne|].
      cbn [Str.rev_acc]. apply rev_acc_nonempty. discriminate. }
    clear H Hs s. induction s as [|c s IHs]; intros acc Hs Hne Hsp Hp H.
    - now apply (Hend acc).
    - apply all_chars_tail in Hs as [Hc Hs].
      destruct (Re.class_match Re.CNonSpace c) eqn:Ecls.
      + cbn [Re.push] in H.
        destruct ((fix star (s : string) (cur : option string) {struct s}
                     : option (list string) :=
                     match s with
                     | String c s' =>
                         if Re.class_match Re.CNonSpace c then
                           match star s' (Re.push c cur) with
                           | Some m => Some m
                           | None =>
                               match cur with
                               | Some acc => Some (caps ++ [Str.rev acc])%list
                               | None => None
                               end
                           end
                         else match cur with
                              | Some acc => Some (caps ++ [Str.rev acc])%list
                              | None => None
                              end
                     | EmptyString =>
                         match cur with
                         | Some acc => Some (caps ++ [Str.rev acc])%list
                         | None => None
                         end
                     end) s (Some (String c acc))) eqn:E.
        * injection H as <-.
          apply (IHs (String c acc)); try assumption; [discriminate| |].
          -- unfold all_chars in *. cbn [list_ascii_of_string forallb].
             rewrite Hsp. unfold nonspace. cbn [Re.class_match] in Ecls.
             now rewrite Ecls.
          -- unfold all_chars in *. cbn [list_ascii_of_string forallb].
             now rewrite Hc, Hp.
        * now apply (Hend acc).
      + now apply (Hend acc). }
  destruct s as [|c s]; [discriminate|].
  destruct (Re.class_match Re.CNonSpace c) eqn:Ecls; [|discriminate].
  cbn [Re.push] in H.
  apply all_chars_tail in Hs as [Hc Hs].
  apply (Hstar s (String c "")); try assumption; [discriminate| |].
  - unfold all_chars, nonspace. cbn [list_ascii_of_string forallb].
    cbn [Re.class_match] in Ecls. now rewrite Ecls.
  - unfold all_chars. cbn [list_ascii_of_string forallb]. now rewrite Hc.
Qed.

Lemma search_from_word (P : ascii -> bool) (pre : Re.regex) (s : string)
      (m : Re.Match) :
  forallb is_atom pre = true ->
  all_chars P s = true ->
  Re.search_from (pre ++ word_group)%list s = Some m ->
  exists g, m = Re.mkMatch [g]
            /\ g <> ""
            /\ all_chars nonspace g = true
            /\ all_chars P g = true.
Proof.
  intro Hpre.
  assert (Hhere : forall s caps',
             all_chars P s = true ->
             Re.match_here (pre ++ word_group)%list s [] None = Some caps' ->
             exists g, Re.mkMatch caps' = Re.mkMatch [g]
                       /\ g <> ""
                       /\ all_chars nonspace g = true
                       /\ all_chars P g = true).
  { intros t caps' Ht H.
    destruct (match_here_prefix P pre word_group Hpre t [] caps' Ht H)
      as (t' & Ht' & H').
    destruct (match_here_word P t' [] caps' Ht' H') as (g & -> & Hg).
    now exists g. }
  induction s as [|c s IH]; cbn [Re.search_from]; intros Hs H.
  - destruct (Re.match_here (pre ++ word_group)%list "" [] None) eqn:E;
      [|discriminate].
    injection H as <-. now apply (Hhere "").
  - destruct (Re.match_here (pre ++ word_group)%list (String c s) [] None) eqn:E.
    + injection H as <-. now apply (Hhere (String c s)).
    + apply IH; [|exact H]. now apply all_chars_tail in Hs.
Qed.

(** Every pattern of the table is a sequence of atoms followed by the
    group [(\S+)]. *)
Lemma load_templates_word_group (t : Template) :
  In t _load_templates ->
  exists pre, Re.parse (pattern t) = Ok (pre ++ word_group)%list
              /\ forallb is_atom pre = true.
Proof.
  intro H. simpl in H.
  repeat (destruct H as [<- | H];
          [match goal with
           | |- exists pre, Re.parse ?p = _ /\ _ =>
               exists (match Re.parse p with
                       | Ok r => firstn (List.length r - 3) r
                       | Raise _ => []
                       end)
           end; split; vm_compute; reflexivity |]).
  contradiction.
Qed.

(** The parameter that a template of the table captures. *)
Definition word (g : string) : Prop :=
  g <> "" /\ all_chars nonspace g = true /\ Str.lower g = g.

(** The scan of templates of the table never raises; when one matches, it
    has captured a word, which is the value of every parameter. *)
Lemma scan_builtin (ts : list Template) (q s : string) :
  (forall t, In t ts -> In t _load_templates) ->
  scan_templates ts q (Str.lower s) = Ok None
  \/ exists t g params promql,
      In t ts
      /\ word g
      /\ _extract_parameters (Re.mkMatch [g]) t = Ok params
      /\ params <> []
      /\ (forall k v, In (k, v) params -> v = g)
      /\ format (QueryTranslator.promql t) params = Ok promql
      /\ scan_templates ts q (Str.lower s)
         = Ok (Some (Translated promql (description t) (category t)
                                (_extract_time_range q) (Some params))).
Proof.
  induction ts as [|t ts IH]; intro Hin; [now left|].
  cbn [scan_templates].
  destruct (load_templates_word_group t (Hin t (or_introl eq_refl)))
    as (pre & Hparse & Hpre).
  unfold Re.search. rewrite Hparse. cbn [bind].
  destruct (Re.search_from (pre ++ word_group)%list (Str.lower s)) as [m|] eqn:E.
  - right.
    destruct (search_from_word is_lowered pre _ m Hpre (lower_all_lowered s) E)
      as (g & -> & Hne & Hsp & Hlow).
    destruct (load_templates_fill t g (Hin t (or_introl eq_refl)))
      as (params & p & Hp & Hpne & Hall & Hf).
    exists t, g, params, p.
    split; [now left|].
    split; [repeat split; [exact Hne|exact Hsp|now apply all_lowered_lower]|].
    split; [exact Hp|]. split; [exact Hpne|]. split; [exact Hall|].
    split; [exact Hf|].
    rewrite Hp. cbn [bind]. rewrite Hf. reflexivity.
  - destruct (IH (fun u Hu => Hin u (or_intror Hu)))
      as [-> | (u & g & params & p & Hu & Hrest)]; [now left|].
    right. exists u, g, params, p. split; [now right|exact Hrest].
Qed.

Definition not_translated : string :=
  "Could not translate query. Please provide more specific information.".

(** X23.  With the templates of the table, translate never takes its
    exception path, whatever the query is.  The answer is one of three:
    the text of a template of the table formatted with the captured
    parameters, together with that template's description and category;
    or the keyword-based text, without parameters; or the fixed message
    "Could not translate query...".  In the first two the time range is the
    one that _extract_time_range reads in the query. *)
Theorem builtin_translation_outcomes (q : string) :
  (exists t params promql,
      In t _load_templates
      /\ format (QueryTranslator.promql t) params = Ok promql
      /\ translate _load_templates q
         = Translated promql (description t) (category t)
                      (_extract_time_range q) (Some params))
  \/ (exists promql,
         _construct_from_keywords q = Some promql
         /\ translate _load_templates q
            = Translated promql "keyword-based" "generic"
                         (_extract_time_range q) None)
  \/ (_construct_from_keywords q = None
      /\ translate _load_templates q = NotTranslated not_translated).
Proof.
  unfold translate.
  destruct (scan_builtin _load_templates q q (fun t H => H))
    as [-> | (t & g & params & p & Ht & _ & _ & _ & _ & Hf & ->)];
    cbn [bind].
  - right. destruct (_construct_from_keywords q) as [p|].
    + left. now exists p.
    + right. now split.
  - left. now exists t, params, p.
Qed.

(** X24.  Every parameter that translate extracts with the templates of
    the table is one word of the lowercased query: all parameters of an
    answer have the same value, which is not empty, holds no whitespace,
    and is its own lowercase, whatever the case of the query was. *)
Theorem translated_parameters_are_words
        (q promql d c tr : string) (params : list (string * string)) :
  translate _load_templates q = Translated promql d c tr (Some params) ->
  exists g,
    params <> []
    /\ (forall k v, In (k, v) params -> v = g)
    /\ g <> ""
    /\ all_chars nonspace g = true
    /\ Str.lower g = g.
Proof.
  unfold translate.
  destruct (scan_builtin _load_templates q q (fun t H => H))
    as [-> | (t & g & ps & p & _ & (Hne & Hsp & Hlow) & _ & Hpne & Hall & _ & ->)];
    cbn [bind].
  - destruct (_construct_from_keywords q); discriminate.
  - intro H. injection H as _ _ _ _ <-.
    exists g. repeat split; assumption.
Qed.

Lemma translated_parameters_are_words_witness :
  exists g,
    [("pod_name", "web-1")] <> []
    /\ (forall k v, In (k, v) [("pod_name", "web-1")] -> v = g)
    /\ g <> ""
    /\ all_chars nonspace g = true
    /\ Str.lower g = g.
Proof.
  refine (translated_parameters_are_words
            "CPU usage of Pod Web-1 now"
            ("rate(container_cpu_usage_seconds_total{pod=" ++ dq ++ "web-1" ++ dq
               ++ "}[5m])")
            "CPU usage for a specific pod" "cpu" "1h"
            [("pod_name", "web-1")] _).
  vm_compute. reflexivity.
Defined.

(** X25.  The examples that list_templates gives for the templates of the
    table are the patterns themselves with the group replaced by a name:
    they keep the pattern syntax, so that no template of the table matches
    the example of any template, and translate answers an example without
    parameters or not at all. *)
Theorem examples_are_not_queries (info : TemplateInfo) :
  In info (list_templates _load_templates) ->
  Str.contains "\s+" (ti_example info) = true
  /\ scan_templates _load_templates (ti_example info)
                    (Str.lower (ti_example info)) = Ok None
  /\ forall promql d c tr params,
      translate _load_templates (ti_example info)
      = Translated promql d c tr params -> params = None.
Proof.
  intro H.
  assert (Hscan : Str.contains "\s+" (ti_example info) = true
                  /\ scan_templates _load_templates (ti_example info)
                                    (Str.lower (ti_example info)) = Ok None).
  { unfold list_templates in H. apply in_map_iff in H as (t & <- & Ht).
    cbn [ti_example]. simpl in Ht.
    repeat (destruct Ht as [<- | Ht]; [split; vm_compute; reflexivity|]).
    contradiction. }
  destruct Hscan as [Hsyn Hscan].
  split; [exact Hsyn|]. split; [exact Hscan|].
  intros promql d c tr params. unfold translate. rewrite Hscan. cbn [bind].
  destruct (_construct_from_keywords (ti_example info)); intro E;
    [now injection E as _ _ _ _ <- | discriminate E].
Qed.

Lemma examples_are_not_queries_witness :
  Str.contains "\s+" "latency.*service\s+my-service" = true
  /\ scan_templates _load_templates "latency.*service\s+my-service"
                    (Str.lower "latency.*service\s+my-service") = Ok None
  /\ forall promql d c tr params,
      translate _load_templates "latency.*service\s+my-service"
      = Translated promql d c tr params -> params = None.
Proof.
  refine (examples_are_not_queries
            (mkTemplateInfo "P99 latency for a service" "latency"
                            "latency.*service\s+my-service") _).
  simpl. do 6 right. left. vm_compute. reflexivity.
Defined.

End BuiltinTemplates.

(** ** From the translated time range to the window *)

Section TranslatedWindow.

Import QueryTranslator PrometheusClient.

Local Open Scope Z_scope.

Definition us_per_day : Z := 86400 * 1000000.

(** X26.  Every time range that _extract_time_range can return is one
    that _parse_time_range reads: when the end time lies at least seven
    days after the first instant of the calendar, the start of the window
    of a translated query is found without error, lies before the end, and
    at most seven days before it. *)
Theorem translated_time_range_is_a_window (q : string) (now : Z) :
  7 * us_per_day <= now <= datetime_max ->
  exists span,
    _parse_time_range (_extract_time_range q) now = Ok (now - span)
    /\ 0 < span <= 7 * us_per_day.
Proof.
  intro Hnow. unfold us_per_day in *.
  assert (G : forall (init : string) (unit : ascii) (v len : Z),
             unit_length unit = Some len ->
             int_of_str init = Ok v ->
             0 < v * len <= 7 * (86400 * 1000000) ->
             exists span,
               _parse_time_range (init ++ String unit "") now = Ok (now - span)
               /\ 0 < span <= 7 * (86400 * 1000000)).
  { intros init unit v len Hu Hv Hspan.
    exists (v * len). split; [|exact Hspan].
    rewrite (parse_time_range_unit _ _ _ _ _ Hu Hv). unfold timedelta.
    assert (E : ((- timedelta_max_days <=? v * len / (86400 * 1000000))
                 && (v * len / (86400 * 1000000) <=? timedelta_max_days))%bool
                = true).
    { assert (0 <= v * len / (86400 * 1000000) <= 7).
      { split; [apply Z.div_pos; lia|].
        apply Z.div_le_upper_bound; lia. }
      unfold timedelta_max_days.
      apply andb_true_intro. split; apply Z.leb_le; lia. }
    rewrite E. cbn [bind]. apply datetime_sub_ok. lia. }
  unfold _extract_time_range.
  repeat match goal with
         | |- context [if ?b then _ else _] => destruct b
         end.
  all: first
         [ apply (G "1" "h"%char 1 us_per_hour eq_refl eq_refl)
         | apply (G "30" "m"%char 30 (60 * 1000000) eq_refl eq_refl)
         | apply (G "15" "m"%char 15 (60 * 1000000) eq_refl eq_refl)
         | apply (G "5" "m"%char 5 (60 * 1000000) eq_refl eq_refl)
         | apply (G "1" "d"%char 1 (86400 * 1000000) eq_refl eq_refl)
         | apply (G "7" "d"%char 7 (86400 * 1000000) eq_refl eq_refl) ];
    unfold us_per_hour; lia.
Qed.

Lemma translated_time_range_is_a_window_witness :
  exists span,
    _parse_time_range (_extract_time_range "memory usage over the last week")
                      63902822400000000
    = Ok (63902822400000000 - span)
    /\ 0 < span <= 7 * us_per_day.
Proof.
  refine (translated_time_range_is_a_window
            "memory usage over the last week" 63902822400000000 _).
  split; discriminate.
Defined.

End TranslatedWindow.
